(** * A shallow embedding of the mock REST API server (test_api_server.py)

    The development follows the layout of the Python module: Python
    primitives (strings, JSON values, slices), the validation functions,
    the pagination / filtering / search helpers, the sample data, the
    entity endpoints and the batch endpoints.  Theorems come last.

    Conventions of the model.
    - A Python [str] is a [string]; a character stands for a code point
      below 256.  [py_lower], [py_isspace] and [py_repr_str] follow
      CPython on that range.
    - A JSON value as produced by [request.get_json()] is a [value];
      JSON numbers with a fractional part are outside the model.
    - A Python [dict] with string keys is an association list in
      insertion order; lookups take the first binding.
    - [datetime.utcnow().isoformat()] is an input ([now]) of the handlers.
    - A raised Python exception is a [Raise]; a [while] loop takes fuel and
      yields [None] when the fuel runs out. *)

From Stdlib Require Import List String Ascii ZArith Lia Bool Arith DecimalString.
From Stdlib Require Import Permutation.
Import ListNotations.
Local Open Scope list_scope.
Local Open Scope string_scope.

Set Warnings "-register-all".

(* ================================================================== *)
(** ** Python primitives *)
(* ================================================================== *)

Module Py.

(** *** Exceptions and results *)

Inductive exn : Type :=
| KeyError (key : string)
| AttributeError (msg : string)
| TypeError (msg : string)
| ZeroDivisionError.

Inductive result (A : Type) : Type :=
| Ok (a : A)
| Raise (e : exn).

Arguments Ok {A} a.
Arguments Raise {A} e.

Definition bind {A B : Type} (m : result A) (k : A -> result B) : result B :=
  match m with
  | Ok a => k a
  | Raise e => Raise e
  end.

(** *** Characters *)

Definition chr (n : nat) : ascii := ascii_of_nat n.
Definition ord (c : ascii) : nat := nat_of_ascii c.

Definition backslash : ascii := chr 92.
Definition squote : ascii := chr 39.
Definition dquote : ascii := chr 34.
Definition newline : ascii := chr 10.

Definition in_range (lo hi : nat) (c : ascii) : bool :=
  (lo <=? ord c)%nat && (ord c <=? hi)%nat.

Definition is_digit (c : ascii) : bool := in_range 48 57 c.
Definition is_upper_az (c : ascii) : bool := in_range 65 90 c.
Definition is_lower_az (c : ascii) : bool := in_range 97 122 c.
Definition is_alpha_az (c : ascii) : bool := is_upper_az c || is_lower_az c.

(** [str.isspace] on one character: the ASCII white space, the separators
    0x1c-0x1f, NEL (0x85) and the no-break space (0xa0). *)
Definition py_isspace (c : ascii) : bool :=
  in_range 9 13 c || in_range 28 32 c || (ord c =? 133)%nat || (ord c =? 160)%nat.

(** [str.lower] on one character: A-Z and the Latin-1 capitals
    0xc0-0xde except the multiplication sign 0xd7. *)
Definition lower_char (c : ascii) : ascii :=
  if is_upper_az c || (in_range 192 222 c && negb (ord c =? 215)%nat)
  then chr (ord c + 32)
  else c.

(** *** Strings *)

Fixpoint py_lower (s : string) : string :=
  match s with
  | EmptyString => EmptyString
  | String c rest => String (lower_char c) (py_lower rest)
  end.

(** [needle in hay] *)
Fixpoint py_in (needle hay : string) : bool :=
  if String.prefix needle hay then true
  else match hay with
       | EmptyString => false
       | String _ rest => py_in needle rest
       end.

(** [hay.find(needle)]: the lowest index of an occurrence, or -1. *)
Fixpoint py_find (hay needle : string) : Z :=
  if String.prefix needle hay then 0%Z
  else match hay with
       | EmptyString => (-1)%Z
       | String _ rest =>
           let r := py_find rest needle in
           if (r =? -1)%Z then (-1)%Z else (r + 1)%Z
       end.

(** [c in s] for a single character [c] *)
Fixpoint has_char (c : ascii) (s : string) : bool :=
  match s with
  | EmptyString => false
  | String d rest => Ascii.eqb c d || has_char c rest
  end.

(** [s.split(sep)] for a one-character separator *)
Fixpoint py_split (sep : ascii) (s : string) : list string :=
  match s with
  | EmptyString => [EmptyString]
  | String c rest =>
      if Ascii.eqb c sep then EmptyString :: py_split sep rest
      else match py_split sep rest with
           | h :: t => (String c h :: t)%list
           | [] => [String c EmptyString]
           end
  end.

(** [len(s.strip()) == 0]: nothing is left once the white space at both
    ends is removed, that is, every character is white space. *)
Fixpoint strip_is_empty (s : string) : bool :=
  match s with
  | EmptyString => true
  | String c rest => py_isspace c && strip_is_empty rest
  end.

Fixpoint join (sep : string) (l : list string) : string :=
  match l with
  | [] => EmptyString
  | [x] => x
  | x :: rest => x ++ sep ++ join sep rest
  end.

(** Decimal rendering of integers: [str(n)] and the [d] format. *)
Definition str_of_nat (n : nat) : string := NilZero.string_of_uint (Nat.to_uint n).
Definition str_of_Z (z : Z) : string := NilZero.string_of_int (Z.to_int z).

Fixpoint zeros (n : nat) : string :=
  match n with
  | O => EmptyString
  | S k => String "0" (zeros k)
  end.

(** [f"{n:03d}"] for a non-negative [n]: at least three digits, padded
    with zeros on the left. *)
Definition fmt_03d (n : nat) : string :=
  let s := str_of_nat n in
  zeros (3 - String.length s) ++ s.

(** *** JSON values *)

Inductive value : Type :=
| VNone
| VBool (b : bool)
| VInt (n : Z)
| VStr (s : string)
| VList (elems : list value)
| VDict (fields : list (string * value)).

Definition dict : Type := list (string * value).

Fixpoint dict_get (key : string) (d : dict) : option value :=
  match d with
  | [] => None
  | (k, v) :: rest => if String.eqb k key then Some v else dict_get key rest
  end.

(** [key in d] *)
Definition dict_has (key : string) (d : dict) : bool :=
  match dict_get key d with
  | Some _ => true
  | None => false
  end.

(** [d.get(key, default)] *)
Definition dict_get_default (key : string) (default : value) (d : dict) : value :=
  match dict_get key d with
  | Some v => v
  | None => default
  end.

(** [d.get(key)]: the default is [None] *)
Definition dict_get_none (key : string) (d : dict) : value :=
  dict_get_default key VNone d.

(** [d[key]] *)
Definition dict_index (key : string) (d : dict) : result value :=
  match dict_get key d with
  | Some v => Ok v
  | None => Raise (KeyError key)
  end.

(** [d[key] = v]: an existing key keeps its position, a new one goes last. *)
Fixpoint dict_set (key : string) (v : value) (d : dict) : dict :=
  match d with
  | [] => [(key, v)]
  | (k, w) :: rest =>
      if String.eqb k key then (k, v) :: rest else (k, w) :: dict_set key v rest
  end.

(** [d.update(other)] *)
Definition dict_update (d other : dict) : dict :=
  fold_left (fun acc kv => dict_set (fst kv) (snd kv) acc) other d.

(** Truth value of a JSON value: [bool(v)] *)
Definition truthy (v : value) : bool :=
  match v with
  | VNone => false
  | VBool b => b
  | VInt n => negb (n =? 0)%Z
  | VStr s => negb (String.eqb s EmptyString)
  | VList l => match l with [] => false | _ => true end
  | VDict d => match d with [] => false | _ => true end
  end.

(** [repr] of a string: single quotes unless the string holds a single
    quote and no double quote; backslash, the quote, tab, newline and
    carriage return are escaped, the other non-printable characters are
    written in hexadecimal. *)
Definition hex_digit (n : nat) : ascii :=
  if (n <? 10)%nat then chr (48 + n) else chr (87 + n).

Definition printable (c : ascii) : bool :=
  negb ((ord c <? 32)%nat || (ord c =? 127)%nat || in_range 128 160 c || (ord c =? 173)%nat).

Definition repr_char (quote c : ascii) : string :=
  if Ascii.eqb c backslash then String backslash (String backslash EmptyString)
  else if Ascii.eqb c quote then String backslash (String quote EmptyString)
  else if (ord c =? 9)%nat then String backslash "t"
  else if (ord c =? 10)%nat then String backslash "n"
  else if (ord c =? 13)%nat then String backslash "r"
  else if printable c then String c EmptyString
  else String backslash
         (String "x" (String (hex_digit (ord c / 16)) (String (hex_digit (ord c mod 16)) EmptyString))).

Fixpoint repr_chars (quote : ascii) (s : string) : string :=
  match s with
  | EmptyString => EmptyString
  | String c rest => repr_char quote c ++ repr_chars quote rest
  end.

Definition py_repr_str (s : string) : string :=
  let quote := if has_char squote s && negb (has_char dquote s) then dquote else squote in
  String quote (repr_chars quote s ++ String quote EmptyString).

Fixpoint py_repr (v : value) : string :=
  match v with
  | VNone => "None"
  | VBool true => "True"
  | VBool false => "False"
  | VInt n => str_of_Z n
  | VStr s => py_repr_str s
  | VList l => "[" ++ join ", " (map py_repr l) ++ "]"
  | VDict d => "{" ++ join ", " (map (fun kv => py_repr_str (fst kv) ++ ": " ++ py_repr (snd kv)) d) ++ "}"
  end.

(** [str(v)] *)
Definition py_str (v : value) : string :=
  match v with
  | VStr s => s
  | _ => py_repr v
  end.

(** *** Slices *)

(** An index of a slice is counted from the end when negative and is
    clamped to the bounds of the list. *)
Definition slice_index (len i : Z) : Z :=
  if (i <? 0)%Z then Z.max 0 (i + len) else Z.min i len.

(** [l[start:stop]] *)
Definition py_slice {A : Type} (l : list A) (start stop : Z) : list A :=
  let len := Z.of_nat (List.length l) in
  let lo := slice_index len start in
  let hi := slice_index len stop in
  firstn (Z.to_nat (hi - lo)) (skipn (Z.to_nat lo) l).

End Py.

Import Py.

(* ================================================================== *)
(** ** Helper functions for pagination and filtering *)
(* ================================================================== *)

(** The page descriptor built by [paginate_data]. *)
Record page_descriptor (A : Type) : Type := mk_page {
  items : list A;
  total : Z;
  page : Z;
  per_page : Z;
  total_pages : Z
}.

Arguments mk_page {A} _ _ _ _ _.
Arguments items {A} _.
Arguments total {A} _.
Arguments page {A} _.
Arguments per_page {A} _.
Arguments total_pages {A} _.

(** [//] on Python integers rounds to the floor, as [Z.div] does, and
    raises on a zero divisor. *)
Definition floordiv (a b : Z) : result Z :=
  if (b =? 0)%Z then Raise ZeroDivisionError else Ok (a / b)%Z.

Definition paginate_data {A : Type} (data : list A) (page per_page : Z)
  : result (page_descriptor A) :=
  let start_idx := ((page - 1) * per_page)%Z in
  let end_idx := (start_idx + per_page)%Z in
  let len := Z.of_nat (List.length data) in
  bind (floordiv (len + per_page - 1) per_page) (fun pages =>
  Ok (mk_page (py_slice data start_idx end_idx) len page per_page pages)).

(** A record of a collection is a dictionary. *)
Definition record : Type := dict.

(** [_get_field_value]: the field as a string, the empty string when
    the record has no such field. *)
Definition _get_field_value (item : record) (key : string) : string :=
  py_str (dict_get_default key (VStr "") item).

(** The loop of [_get_nested_value] over the segments of the path; once
    the segments are used up the value reached is compared. Nothing in
    the body raises, so the [except] branch is never taken. *)
Fixpoint nested_walk (keys : list string) (current : value) (search_value : value) : bool :=
  match keys with
  | [] => negb (py_find (py_lower (py_str current)) (py_lower (py_str search_value)) =? -1)%Z
  | key :: rest =>
      match current with
      | VDict d =>
          if dict_has key d
          then match dict_get key d with
               | Some v => nested_walk rest v search_value
               | None => false
               end
          else false
      | _ => false
      end
  end.

Definition _get_nested_value (item : record) (key_path : string) (search_value : value) : bool :=
  let keys := py_split "." key_path in
  nested_walk keys (VDict item) search_value.

(** One turn of the loop of [filter_data]: the list comprehension for
    one filter. *)
Definition filter_step (filtered : list record) (kv : string * value) : list record :=
  let (key, val) := kv in
  if has_char "." key then
    filter (fun item => _get_nested_value item key val) filtered
  else
    filter (fun item =>
              negb (py_find (py_lower (py_str (VStr (_get_field_value item key))))
                            (py_lower (py_str val)) =? -1)%Z)
           filtered.

Definition filter_data (data : list record) (filters : dict) : list record :=
  fold_left filter_step filters data.

(** [_item_matches_query]: both [for] loops return at the first match. *)
Fixpoint _item_matches_query (item : value) (query_lower : string) : bool :=
  match item with
  | VDict fields =>
      (fix over_items (fs : list (string * value)) : bool :=
         match fs with
         | [] => false
         | (_, v) :: rest =>
             match v with
             | VStr s =>
                 if py_in query_lower (py_lower s) then true else over_items rest
             | VDict _ | VList _ =>
                 if _item_matches_query v query_lower then true else over_items rest
             | _ => over_items rest
             end
         end) fields
  | VList elems =>
      (fix over_elems (l : list value) : bool :=
         match l with
         | [] => false
         | sub_item :: rest =>
             if _item_matches_query sub_item query_lower then true else over_elems rest
         end) elems
  | VStr s => py_in query_lower (py_lower s)
  | _ => false
  end.

(** The loop of [search_in_text] that appends the matching items. *)
Fixpoint search_loop (data : list value) (query_lower : string) (results : list value)
  : list value :=
  match data with
  | [] => results
  | item :: rest =>
      if _item_matches_query item query_lower
      then search_loop rest query_lower (results ++ [item])%list
      else search_loop rest query_lower results
  end.

Definition search_in_text (data : list value) (query : string) : list value :=
  if negb (truthy (VStr query)) then data
  else
    let query_lower := py_lower query in
    search_loop data query_lower [].

(* ================================================================== *)
(** ** Equality of JSON values and regular expressions *)
(* ================================================================== *)

(** A boolean compares as the integer 0 or 1. *)
Definition as_number (v : value) : option Z :=
  match v with
  | VBool b => Some (if b then 1 else 0)%Z
  | VInt n => Some n
  | _ => None
  end.

(** [a == b]: numbers by value, strings and lists item by item,
    dictionaries key by key whatever the order of insertion. *)
Fixpoint py_eq (a b : value) : bool :=
  match a, b with
  | VNone, VNone => true
  | VStr s, VStr t => String.eqb s t
  | VList l, VList m =>
      (fix eq_items (l : list value) (m : list value) : bool :=
         match l, m with
         | [], [] => true
         | x :: l', y :: m' => py_eq x y && eq_items l' m'
         | _, _ => false
         end) l m
  | VDict d, VDict e =>
      (List.length d =? List.length e)%nat &&
      (fix eq_fields (d : list (string * value)) : bool :=
         match d with
         | [] => true
         | (k, x) :: d' =>
             match dict_get k e with
             | Some y => py_eq x y && eq_fields d'
             | None => false
             end
         end) d
  | _, _ =>
      match as_number a, as_number b with
      | Some n, Some m => (n =? m)%Z
      | _, _ => false
      end
  end.

Module Re.

(** Regular expressions over characters, matched by derivatives. *)
Inductive re : Type :=
| Empty
| Eps
| Class (p : ascii -> bool)
| Cat (a b : re)
| Alt (a b : re)
| Star (a : re).

Fixpoint nullable (r : re) : bool :=
  match r with
  | Empty => false
  | Eps => true
  | Class _ => false
  | Cat a b => nullable a && nullable b
  | Alt a b => nullable a || nullable b
  | Star _ => true
  end.

Fixpoint deriv (c : ascii) (r : re) : re :=
  match r with
  | Empty => Empty
  | Eps => Empty
  | Class p => if p c then Eps else Empty
  | Cat a b =>
      if nullable a then Alt (Cat (deriv c a) b) (deriv c b) else Cat (deriv c a) b
  | Alt a b => Alt (deriv c a) (deriv c b)
  | Star a => Cat (deriv c a) (Star a)
  end.

(** The whole string is in the language. *)
Fixpoint fullmatch (r : re) (s : string) : bool :=
  match s with
  | EmptyString => nullable r
  | String c rest => fullmatch (deriv c r) rest
  end.

(** Some prefix of the string is in the language: [re.match] with a
    pattern that starts with [^] and has no [$]. *)
Fixpoint prefixmatch (r : re) (s : string) : bool :=
  nullable r ||
  match s with
  | EmptyString => false
  | String c rest => prefixmatch (deriv c r) rest
  end.

Fixpoint Lit (s : string) : re :=
  match s with
  | EmptyString => Eps
  | String c rest => Cat (Class (Ascii.eqb c)) (Lit rest)
  end.

Definition Plus (r : re) : re := Cat r (Star r).

(** [r{n,}] *)
Fixpoint AtLeast (n : nat) (r : re) : re :=
  match n with
  | O => Star r
  | S k => Cat r (AtLeast k r)
  end.

(** A final [$] holds at the end of the string and also just before a
    newline that ends the string. *)
Definition Dollar : re := Alt Eps (Class (Ascii.eqb newline)).

(** [re.match] with a pattern [^r$]. *)
Definition match_to_end (r : re) (s : string) : bool :=
  fullmatch (Cat r Dollar) s.

Definition digit : re := Class is_digit.

(** [^ORG\d{3,}$] *)
Definition org_id_pattern : re := Cat (Lit "ORG") (AtLeast 3 digit).
(** [^USER\d{3,}] *)
Definition user_id_pattern : re := Cat (Lit "USER") (AtLeast 3 digit).
(** [^PROF\d{3,}] *)
Definition profile_id_pattern : re := Cat (Lit "PROF") (AtLeast 3 digit).

Definition one_of (s : string) (c : ascii) : bool := has_char c s.

(** [^[a-zA-Z0-9._%+-]+@[a-zA-Z0-9.-]+\.[a-zA-Z]{2,}$] *)
Definition email_pattern : re :=
  Cat (Plus (Class (fun c => is_alpha_az c || is_digit c || one_of "._%+-" c)))
 (Cat (Lit "@")
 (Cat (Plus (Class (fun c => is_alpha_az c || is_digit c || one_of ".-" c)))
 (Cat (Lit ".")
      (AtLeast 2 (Class is_alpha_az))))).

End Re.

(* ================================================================== *)
(** ** The collections *)
(* ================================================================== *)

(** The three module-level lists, and the number of times the clock has
    been read so far. *)
Record store : Type := mk_store {
  SAMPLE_ORGANIZATIONS : list record;
  SAMPLE_USERS : list record;
  SAMPLE_PROFILES : list record;
  clock_reads : nat
}.

Definition with_organizations (st : store) (l : list record) : store :=
  mk_store l (SAMPLE_USERS st) (SAMPLE_PROFILES st) (clock_reads st).
Definition with_users (st : store) (l : list record) : store :=
  mk_store (SAMPLE_ORGANIZATIONS st) l (SAMPLE_PROFILES st) (clock_reads st).

(** [next((x for x in coll if pred(x)), None)] where the test may raise. *)
Fixpoint first_such (pred : record -> result bool) (coll : list record)
  : result (option record) :=
  match coll with
  | [] => Ok None
  | x :: rest =>
      bind (pred x) (fun b => if b then Ok (Some x) else first_such pred rest)
  end.

(** [any(pred(x) for x in coll)] *)
Definition any_such (pred : record -> result bool) (coll : list record) : result bool :=
  bind (first_such pred coll) (fun r =>
  Ok (match r with Some _ => true | None => false end)).

(** [x if x else False] in a condition: the truth value of what [next]
    returned, [None] or a record. *)
Definition found (r : option record) : bool :=
  match r with
  | Some x => truthy (VDict x)
  | None => false
  end.

(* ================================================================== *)
(** ** Validation functions *)
(* ================================================================== *)

Definition verdict : Type := (bool * option string)%type.
Definition invalid (msg : string) : verdict := (false, Some msg).
Definition valid : verdict := (true, None).

Definition validate_json_payload (data : value) : verdict :=
  if negb (truthy data) then invalid "Request body must contain valid JSON"
  else valid.

(** The check of the field [name], the same in the three validators. *)
Definition name_error (data : dict) : option string :=
  match dict_get "name" data with
  | Some name =>
      match name with
      | VStr s =>
          if strip_is_empty s then Some "Field 'name' must be a non-empty string"
          else if (100 <? String.length s)%nat
               then Some "Field 'name' must be 100 characters or less"
               else None
      | _ => Some "Field 'name' must be a non-empty string"
      end
  | None => None
  end.

(** [isinstance(v, str) and re.match(pattern, v)] fails *)
Definition not_matching (matcher : string -> bool) (v : value) : bool :=
  match v with
  | VStr s => negb (matcher s)
  | _ => true
  end.

Definition valid_types : list string :=
  ["test"; "enterprise"; "startup"; "nonprofit"; "government"].

Definition validate_organization_data (data : dict) (is_update : bool) : verdict :=
  if negb is_update && negb (truthy (dict_get_none "name" data))
  then invalid "Field 'name' is required and cannot be empty"
  else if negb is_update && negb (truthy (dict_get_none "type" data))
  then invalid "Field 'type' is required and cannot be empty"
  else match name_error data with
  | Some msg => invalid msg
  | None =>
  if match dict_get "type" data with
     | Some org_type =>
         match org_type with
         | VStr s => negb (existsb (String.eqb s) valid_types)
         | _ => true
         end
     | None => false
     end
  then invalid ("Field 'type' must be one of: " ++ join ", " valid_types)
  else
  if match dict_get "id" data with
     | Some org_id => not_matching (Re.match_to_end Re.org_id_pattern) org_id
     | None => false
     end
  then invalid "Field 'id' must follow format 'ORG###' (e.g., 'ORG001', 'ORG123')"
  else valid
  end.

(** [user["email"] == email and user["id"] != exclude_user_id] *)
Definition same_email_other_user (email : string) (exclude_user_id : value) (user : record)
  : result bool :=
  bind (dict_index "email" user) (fun e =>
  if py_eq e (VStr email)
  then bind (dict_index "id" user) (fun i => Ok (negb (py_eq i exclude_user_id)))
  else Ok false).

(** [org["id"] == org_id] *)
Definition has_id (wanted : value) (item : record) : result bool :=
  bind (dict_index "id" item) (fun i => Ok (py_eq i wanted)).

Definition validate_user_data (st : store) (data : dict) (is_update : bool)
  (exclude_user_id : value) : result verdict :=
  if negb is_update && negb (truthy (dict_get_none "name" data))
  then Ok (invalid "Field 'name' is required and cannot be empty")
  else if negb is_update && negb (truthy (dict_get_none "email" data))
  then Ok (invalid "Field 'email' is required and cannot be empty")
  else match name_error data with
  | Some msg => Ok (invalid msg)
  | None =>
  bind
    (match dict_get "email" data with
     | Some email =>
         match email with
         | VStr s =>
             if negb (Re.match_to_end Re.email_pattern s)
             then Ok (Some "Field 'email' must be a valid email address")
             else
               bind (first_such (same_email_other_user s exclude_user_id) (SAMPLE_USERS st))
                 (fun existing_user =>
               if found existing_user
               then Ok (Some ("Email '" ++ s ++ "' is already in use by another user"))
               else Ok None)
         | _ => Ok (Some "Field 'email' must be a valid email address")
         end
     | None => Ok None
     end) (fun email_error =>
  match email_error with
  | Some msg => Ok (invalid msg)
  | None =>
  bind
    (match dict_get "organization_id" data with
     | Some org_id =>
         if truthy org_id then
           bind (first_such (has_id org_id) (SAMPLE_ORGANIZATIONS st)) (fun existing_org =>
           if negb (found existing_org)
           then Ok (Some ("Organization with ID '" ++ py_str org_id ++ "' does not exist"))
           else Ok None)
         else Ok None
     | None => Ok None
     end) (fun org_error =>
  match org_error with
  | Some msg => Ok (invalid msg)
  | None =>
  if match dict_get "id" data with
     | Some user_id => not_matching (Re.prefixmatch Re.user_id_pattern) user_id
     | None => false
     end
  then Ok (invalid "Field 'id' must follow format 'USER###' (e.g., 'USER001', 'USER123')")
  else Ok valid
  end)
  end)
  end.

Definition is_dict (v : value) : bool :=
  match v with
  | VDict _ => true
  | _ => false
  end.

Definition validate_profile_data (data : dict) (is_update : bool) : verdict :=
  if negb is_update && negb (truthy (dict_get_none "name" data))
  then invalid "Field 'name' is required and cannot be empty"
  else match name_error data with
  | Some msg => invalid msg
  | None =>
  if match dict_get "settings" data with
     | Some settings => negb (is_dict settings)
     | None => false
     end
  then invalid "Field 'settings' must be a valid JSON object"
  else
  if match dict_get "preferences" data with
     | Some preferences => negb (is_dict preferences)
     | None => false
     end
  then invalid "Field 'preferences' must be a valid JSON object"
  else
  if match dict_get "id" data with
     | Some profile_id => not_matching (Re.prefixmatch Re.profile_id_pattern) profile_id
     | None => false
     end
  then invalid "Field 'id' must follow format 'PROF###' (e.g., 'PROF001', 'PROF123')"
  else valid
  end.

Definition upper_char (c : ascii) : ascii :=
  if is_lower_az c then chr (ord c - 32) else c.

(** [s.capitalize()], only ever applied to one of the three entity
    types, which are words of the letters a to z: the first letter in
    upper case, the rest in lower case. *)
Definition capitalize (s : string) : string :=
  match s with
  | EmptyString => EmptyString
  | String c rest => String (upper_char c) (py_lower rest)
  end.

(** The dictionary [collections] of [check_duplicate_id]. *)
Definition collection_of (st : store) (entity_type : string) : option (list record) :=
  if String.eqb entity_type "organization" then Some (SAMPLE_ORGANIZATIONS st)
  else if String.eqb entity_type "user" then Some (SAMPLE_USERS st)
  else if String.eqb entity_type "profile" then Some (SAMPLE_PROFILES st)
  else None.

(** [item["id"] == entity_id and item["id"] != exclude_id] *)
Definition same_id_not_excluded (entity_id : value) (exclude_id : value) (item : record)
  : result bool :=
  bind (dict_index "id" item) (fun i =>
  if py_eq i entity_id
  then bind (dict_index "id" item) (fun i' => Ok (negb (py_eq i' exclude_id)))
  else Ok false).

Definition check_duplicate_id (st : store) (entity_type : string) (entity_id : value)
  (exclude_id : value) : result verdict :=
  match collection_of st entity_type with
  | None => Ok (invalid ("Invalid entity type: " ++ entity_type))
  | Some collection =>
      bind (first_such (same_id_not_excluded entity_id exclude_id) collection)
        (fun existing_entity =>
      if found existing_entity
      then Ok (invalid (capitalize entity_type ++ " with ID '" ++ py_str entity_id
                        ++ "' already exists"))
      else Ok valid)
  end.

(** The loop of [validate_batch_operations] over the operations, [i]
    being the index of the first one. *)
Fixpoint validate_each_operation (i : nat) (operations : list value) : verdict :=
  match operations with
  | [] => valid
  | op :: rest =>
      let n := str_of_nat (i + 1) in
      match op with
      | VDict fields =>
          match dict_get "action" fields with
          | None => invalid ("Operation " ++ n ++ ": field 'action' is required")
          | Some action =>
              if negb (existsb (fun a => py_eq action (VStr a)) ["create"; "update"; "delete"])
              then invalid ("Operation " ++ n
                            ++ ": field 'action' must be one of: create, update, delete")
              else
                match dict_get "data" fields with
                | None => invalid ("Operation " ++ n ++ ": field 'data' is required")
                | Some data =>
                    if negb (is_dict data)
                    then invalid ("Operation " ++ n ++ ": field 'data' must be a valid object")
                    else validate_each_operation (S i) rest
                end
          end
      | _ => invalid ("Operation " ++ n ++ ": must be a valid object")
      end
  end.

Definition validate_batch_operations (operations : value) : verdict :=
  match operations with
  | VList ops =>
      if (List.length ops =? 0)%nat then invalid "Field 'operations' cannot be empty"
      else if (50 <? List.length ops)%nat
      then invalid "Batch operations limited to 50 items per request"
      else validate_each_operation 0 ops
  | _ => invalid "Field 'operations' must be an array"
  end.

(* ================================================================== *)
(** ** Sample data *)
(* ================================================================== *)

Definition initial_metadata : value :=
  VDict [("created_at", VStr "2024-01-01T00:00:00Z");
         ("updated_at", VStr "2024-01-01T00:00:00Z");
         ("version", VStr "1.0.0")].

(** [create_nested_profile(level)]. The recursion stops at level 1 only:
    called with level 0 it never returns, which is [None] here. *)
Fixpoint create_nested_profile (level : nat) : option dict :=
  match level with
  | O => None
  | S below =>
      if (level =? 1)%nat then
        Some [("data", VStr ("Level " ++ str_of_nat level ++ " data"));
              ("metadata", initial_metadata)]
      else
        match create_nested_profile below with
        | Some inner =>
            Some [("level" ++ str_of_nat level, VDict inner);
                  ("metadata", initial_metadata)]
        | None => None
        end
  end.

Definition sample_organization (i : nat) : record :=
  [("id", VStr ("ORG" ++ fmt_03d i));
   ("name", VStr ("Test Organization " ++ str_of_nat i));
   ("type", VStr "test");
   ("metadata", initial_metadata)].

Definition sample_profile (i j : nat) : record :=
  let profile := match create_nested_profile 10 with Some p => p | None => [] end in
  dict_set "id" (VStr ("PROF" ++ fmt_03d i ++ "_" ++ fmt_03d j)) profile.

Definition sample_user (i j : nat) : record :=
  [("id", VStr ("USER" ++ fmt_03d i ++ "_" ++ fmt_03d j));
   ("name", VStr ("Test User " ++ str_of_nat i ++ "-" ++ str_of_nat j));
   ("email", VStr ("test" ++ str_of_nat i ++ "_" ++ str_of_nat j ++ "@example.com"));
   ("organization_id", VStr ("ORG" ++ fmt_03d i));
   ("profile_id", VStr ("PROF" ++ fmt_03d i ++ "_" ++ fmt_03d j));
   ("metadata", initial_metadata)].

(** [range(1, 11)] *)
Definition one_to_ten : list nat := seq 1 10.

Definition create_sample_data : list record * list record * list record :=
  fold_left
    (fun acc i =>
       let '(organizations, users, profiles) := acc in
       let organizations := (organizations ++ [sample_organization i])%list in
       fold_left
         (fun acc j =>
            let '(organizations, users, profiles) := acc in
            (organizations, (users ++ [sample_user i j])%list,
             (profiles ++ [sample_profile i j])%list))
         one_to_ten (organizations, users, profiles))
    one_to_ten ([], [], [])%list.

(** The collections when the process starts. *)
Definition initial_store : store :=
  let '(organizations, users, profiles) := create_sample_data in
  mk_store organizations users profiles 0.

(* ================================================================== *)
(** ** Endpoints *)
(* ================================================================== *)

Inductive response : Type :=
| Response (status : nat) (body : value).

Definition status_of (r : response) : nat := let 'Response s _ := r in s.
Definition body_of (r : response) : value := let 'Response _ b := r in b.

(** What running a handler gives: it returns, it raises an exception
    that nothing catches, or a loop of it is still running when the fuel
    is used up. *)
Inductive outcome (A : Type) : Type :=
| Done (a : A)
| Unhandled (e : exn)
| Running.

Arguments Done {A} a.
Arguments Unhandled {A} e.
Arguments Running {A}.

Definition and_then {A B : Type} (m : outcome A) (k : A -> outcome B) : outcome B :=
  match m with
  | Done a => k a
  | Unhandled e => Unhandled e
  | Running => Running
  end.

Definition lift {A : Type} (r : result A) : outcome A :=
  match r with
  | Ok a => Done a
  | Raise e => Unhandled e
  end.

Notation "x <- m ;; k" := (and_then m (fun x => k))
  (at level 61, m at next level, right associativity).

(** [str(e)] *)
Definition str_exn (e : exn) : string :=
  match e with
  | KeyError key => py_repr_str key
  | AttributeError msg => msg
  | TypeError msg => msg
  | ZeroDivisionError => "integer division or modulo by zero"
  end.

Definition message (msg : option string) : value :=
  match msg with
  | Some s => VStr s
  | None => VNone
  end.

(** [jsonify({"error": error_msg}), status] *)
Definition error_response (msg : option string) (status : nat) : response :=
  Response status (VDict [("error", message msg)]).

(** [data.get] on something that is not a dictionary *)
Definition no_attribute_get : exn := AttributeError "object has no attribute 'get'".
(** [op[key]] on something that is not a dictionary *)
Definition not_subscriptable : exn := TypeError "indices must be integers".
(** [{**m}] on something that is not a dictionary *)
Definition not_a_mapping : exn := TypeError "object is not a mapping".

Section Endpoints.

(** The text returned by the [n]-th reading of
    [datetime.utcnow().isoformat()], counted from 0. *)
Variable utcnow_isoformat : nat -> string.

(** The metadata of a new record: the clock is read twice. *)
Definition fresh_metadata (st : store) : value :=
  VDict [("created_at", VStr (utcnow_isoformat (clock_reads st)));
         ("updated_at", VStr (utcnow_isoformat (S (clock_reads st))));
         ("version", VStr "1.0.0")].

(** [{**record['metadata'], "updated_at": now}]: the clock is read once. *)
Definition touched_metadata (st : store) (item : record) : result value :=
  bind (dict_index "metadata" item) (fun m =>
  match m with
  | VDict fields =>
      Ok (VDict (dict_set "updated_at" (VStr (utcnow_isoformat (clock_reads st))) fields))
  | _ => Raise not_a_mapping
  end).

(** The loop that looks for a free identifier. [fuel] bounds the number
    of times the condition of the [while] is evaluated. *)
Fixpoint conflict_loop (fuel : nat) (prefix : string) (collection : list record)
  (candidate : string) : outcome string :=
  match fuel with
  | O => Running
  | S fuel' =>
      conflict <- lift (any_such (has_id (VStr candidate)) collection) ;;
      if conflict
      then conflict_loop fuel' prefix collection
             (prefix ++ fmt_03d (List.length collection + 2))
      else Done candidate
  end.

(** Auto-generate ID *)
Definition auto_generate_id (fuel : nat) (prefix : string) (collection : list record)
  : outcome string :=
  conflict_loop fuel prefix collection (prefix ++ fmt_03d (List.length collection + 1)).

(** Handle ID assignment and duplicate checking: the message of the
    duplicate check when it fails, the identifier otherwise. *)
Definition assign_id (fuel : nat) (st : store) (entity_type prefix : string)
  (collection : list record) (data : dict) : outcome (option string + value) :=
  let provided_id := dict_get_none "id" data in
  if truthy provided_id then
    v <- lift (check_duplicate_id st entity_type provided_id VNone) ;;
    let '(is_valid, error_msg) := v in
    if negb is_valid then Done (inl error_msg) else Done (inr provided_id)
  else
    new_id <- auto_generate_id fuel prefix collection ;;
    Done (inr (VStr new_id)).

Definition new_organization (st : store) (org_id : value) (data : dict) : result record :=
  bind (dict_index "name" data) (fun name =>
  bind (dict_index "type" data) (fun type =>
  Ok [("id", org_id); ("name", name); ("type", type); ("metadata", fresh_metadata st)])).

Definition new_user (st : store) (user_id : value) (data : dict) : result record :=
  bind (dict_index "name" data) (fun name =>
  bind (dict_index "email" data) (fun email =>
  Ok [("id", user_id); ("name", name); ("email", email);
      ("organization_id", dict_get_none "organization_id" data);
      ("profile_id", VStr ("PROF" ++ fmt_03d (List.length (SAMPLE_PROFILES st) + 1)));
      ("metadata", fresh_metadata st)])).

Definition new_profile (st : store) (profile_id : value) (data : dict) : result record :=
  bind (dict_index "name" data) (fun name =>
  Ok [("id", profile_id); ("name", name);
      ("settings", dict_get_default "settings" (VDict []) data);
      ("preferences", dict_get_default "preferences" (VDict []) data);
      ("metadata", fresh_metadata st)]).

Definition append_organization (st : store) (org : record) : store :=
  mk_store (SAMPLE_ORGANIZATIONS st ++ [org])%list (SAMPLE_USERS st) (SAMPLE_PROFILES st)
           (clock_reads st + 2).
Definition append_user (st : store) (user : record) : store :=
  mk_store (SAMPLE_ORGANIZATIONS st) (SAMPLE_USERS st ++ [user])%list (SAMPLE_PROFILES st)
           (clock_reads st + 2).
Definition append_profile (st : store) (profile : record) : store :=
  mk_store (SAMPLE_ORGANIZATIONS st) (SAMPLE_USERS st) (SAMPLE_PROFILES st ++ [profile])%list
           (clock_reads st + 2).

(** *** POST on the three collections *)

Definition handle_organizations_post (fuel : nat) (st : store) (data : value)
  : outcome (store * response) :=
  let '(is_valid, error_msg) := validate_json_payload data in
  if negb is_valid then Done (st, error_response error_msg 400) else
  match data with
  | VDict fields =>
      let '(is_valid, error_msg) := validate_organization_data fields false in
      if negb is_valid then Done (st, error_response error_msg 400) else
      assigned <- assign_id fuel st "organization" "ORG" (SAMPLE_ORGANIZATIONS st) fields ;;
      match assigned with
      | inl error_msg => Done (st, error_response error_msg 409)
      | inr org_id =>
          new_org <- lift (new_organization st org_id fields) ;;
          Done (append_organization st new_org, Response 201 (VDict new_org))
      end
  | _ => Unhandled no_attribute_get
  end.

Definition handle_users_post (fuel : nat) (st : store) (data : value)
  : outcome (store * response) :=
  let '(is_valid, error_msg) := validate_json_payload data in
  if negb is_valid then Done (st, error_response error_msg 400) else
  match data with
  | VDict fields =>
      v <- lift (validate_user_data st fields false VNone) ;;
      let '(is_valid, error_msg) := v in
      if negb is_valid then Done (st, error_response error_msg 400) else
      assigned <- assign_id fuel st "user" "USER" (SAMPLE_USERS st) fields ;;
      match assigned with
      | inl error_msg => Done (st, error_response error_msg 409)
      | inr user_id =>
          user <- lift (new_user st user_id fields) ;;
          Done (append_user st user, Response 201 (VDict user))
      end
  | _ => Unhandled no_attribute_get
  end.

Definition handle_profiles_post (fuel : nat) (st : store) (data : value)
  : outcome (store * response) :=
  let '(is_valid, error_msg) := validate_json_payload data in
  if negb is_valid then Done (st, error_response error_msg 400) else
  match data with
  | VDict fields =>
      let '(is_valid, error_msg) := validate_profile_data fields false in
      if negb is_valid then Done (st, error_response error_msg 400) else
      assigned <- assign_id fuel st "profile" "PROF" (SAMPLE_PROFILES st) fields ;;
      match assigned with
      | inl error_msg => Done (st, error_response error_msg 409)
      | inr profile_id =>
          profile <- lift (new_profile st profile_id fields) ;;
          Done (append_profile st profile, Response 201 (VDict profile))
      end
  | _ => Unhandled no_attribute_get
  end.

(** *** PUT and DELETE on one record *)

Inductive mutation : Type :=
| PUT (data : value)
| DELETE.

(** [collection.remove(item)]: the first element equal to [item] goes. *)
Fixpoint list_remove (item : record) (collection : list record) : list record :=
  match collection with
  | [] => []
  | x :: rest =>
      if py_eq (VDict x) (VDict item) then rest else x :: list_remove item rest
  end.

(** [item.update(changes)] on the record that [next] returned, which is
    the first one of the collection with the identifier looked for. *)
Fixpoint update_first (wanted : value) (changes : dict) (collection : list record)
  : list record :=
  match collection with
  | [] => []
  | x :: rest =>
      match has_id wanted x with
      | Ok true => dict_update x changes :: rest
      | _ => x :: update_first wanted changes rest
      end
  end.

Definition handle_organization (st : store) (org_id : string) (request : mutation)
  : outcome (store * response) :=
  org <- lift (first_such (has_id (VStr org_id)) (SAMPLE_ORGANIZATIONS st)) ;;
  match org with
  | None => Done (st, error_response (Some "Organization not found") 404)
  | Some org =>
  if negb (truthy (VDict org))
  then Done (st, error_response (Some "Organization not found") 404)
  else
  match request with
  | DELETE =>
      Done (with_organizations st (list_remove org (SAMPLE_ORGANIZATIONS st)),
            Response 204 (VStr ""))
  | PUT data =>
      match data with
      | VDict fields =>
          name <- lift (dict_index "name" org) ;;
          type <- lift (dict_index "type" org) ;;
          metadata <- lift (touched_metadata st org) ;;
          let changes := [("name", dict_get_default "name" name fields);
                          ("type", dict_get_default "type" type fields);
                          ("metadata", metadata)] in
          let st' := mk_store
                       (update_first (VStr org_id) changes (SAMPLE_ORGANIZATIONS st))
                       (SAMPLE_USERS st) (SAMPLE_PROFILES st) (clock_reads st + 1) in
          Done (st', Response 200 (VDict (dict_update org changes)))
      | _ => Unhandled no_attribute_get
      end
  end
  end.

Definition handle_user (st : store) (user_id : string) (request : mutation)
  : outcome (store * response) :=
  user <- lift (first_such (has_id (VStr user_id)) (SAMPLE_USERS st)) ;;
  match user with
  | None => Done (st, error_response (Some "User not found") 404)
  | Some user =>
  if negb (truthy (VDict user))
  then Done (st, error_response (Some "User not found") 404)
  else
  match request with
  | DELETE =>
      Done (with_users st (list_remove user (SAMPLE_USERS st)), Response 204 (VStr ""))
  | PUT data =>
      match data with
      | VDict fields =>
          name <- lift (dict_index "name" user) ;;
          email <- lift (dict_index "email" user) ;;
          organization_id <- lift (dict_index "organization_id" user) ;;
          metadata <- lift (touched_metadata st user) ;;
          let changes := [("name", dict_get_default "name" name fields);
                          ("email", dict_get_default "email" email fields);
                          ("organization_id",
                           dict_get_default "organization_id" organization_id fields);
                          ("metadata", metadata)] in
          let st' := mk_store
                       (SAMPLE_ORGANIZATIONS st)
                       (update_first (VStr user_id) changes (SAMPLE_USERS st))
                       (SAMPLE_PROFILES st) (clock_reads st + 1) in
          Done (st', Response 200 (VDict (dict_update user changes)))
      | _ => Unhandled no_attribute_get
      end
  end
  end.

(** *** Batch operations *)

Definition success_entry (item : record) : value :=
  VDict [("status", VStr "success"); ("data", VDict item)].

(** [{"status": "error", "error": f"Operation {i+1}: {msg}"}] *)
Definition error_entry (i : nat) (msg : string) : value :=
  VDict [("status", VStr "error");
         ("error", VStr ("Operation " ++ str_of_nat (i + 1) ++ ": " ++ msg))].

(** The text of [error_msg] inside an f-string *)
Definition format_message (msg : option string) : string :=
  match msg with
  | Some s => s
  | None => "None"
  end.

(** What the body of the [try] of one [create] operation does: it
    reaches a [continue] or its end with one entry for the results, or
    it raises. *)
Definition create_organization_op (fuel : nat) (st : store) (i : nat) (op : dict)
  : outcome (store * value) :=
  data <- lift (dict_index "data" op) ;;
  match data with
  | VDict fields =>
      let '(is_valid, error_msg) := validate_organization_data fields false in
      if negb is_valid then Done (st, error_entry i (format_message error_msg)) else
      assigned <- assign_id fuel st "organization" "ORG" (SAMPLE_ORGANIZATIONS st) fields ;;
      match assigned with
      | inl error_msg => Done (st, error_entry i (format_message error_msg))
      | inr org_id =>
          new_org <- lift (new_organization st org_id fields) ;;
          Done (append_organization st new_org, success_entry new_org)
      end
  | _ => Unhandled no_attribute_get
  end.

Definition create_user_op (fuel : nat) (st : store) (i : nat) (op : dict)
  : outcome (store * value) :=
  data <- lift (dict_index "data" op) ;;
  match data with
  | VDict fields =>
      v <- lift (validate_user_data st fields false VNone) ;;
      let '(is_valid, error_msg) := v in
      if negb is_valid then Done (st, error_entry i (format_message error_msg)) else
      assigned <- assign_id fuel st "user" "USER" (SAMPLE_USERS st) fields ;;
      match assigned with
      | inl error_msg => Done (st, error_entry i (format_message error_msg))
      | inr user_id =>
          user <- lift (new_user st user_id fields) ;;
          Done (append_user st user, success_entry user)
      end
  | _ => Unhandled no_attribute_get
  end.

(** The loop over the operations, common to the two batch endpoints:
    only an operation whose action is [create] has a branch; an
    exception raised by the body of its [try] becomes an error entry. *)
Fixpoint batch_loop (create_op : store -> nat -> dict -> outcome (store * value))
  (i : nat) (operations : list value) (st : store) (results : list value)
  : outcome (store * list value) :=
  match operations with
  | [] => Done (st, results)
  | op :: rest =>
      match op with
      | VDict fields =>
          action <- lift (dict_index "action" fields) ;;
          if py_eq action (VStr "create") then
            match create_op st i fields with
            | Done (st', entry) =>
                batch_loop create_op (S i) rest st' (results ++ [entry])%list
            | Unhandled e =>
                batch_loop create_op (S i) rest st (results ++ [error_entry i (str_exn e)])%list
            | Running => Running
            end
          else batch_loop create_op (S i) rest st results
      | _ => Unhandled not_subscriptable
      end
  end.

Definition batch_endpoint (create_op : store -> nat -> dict -> outcome (store * value))
  (st : store) (data : value) : outcome (store * response) :=
  let '(is_valid, error_msg) := validate_json_payload data in
  if negb is_valid then Done (st, error_response error_msg 400) else
  match data with
  | VDict fields =>
      let operations := dict_get_default "operations" (VList []) fields in
      let '(is_valid, error_msg) := validate_batch_operations operations in
      if negb is_valid then Done (st, error_response error_msg 400) else
      match operations with
      | VList ops =>
          r <- batch_loop create_op 0 ops st [] ;;
          let '(st', results) := r in
          Done (st', Response 200 (VDict [("results", VList results)]))
      | _ => Unhandled (TypeError "object is not iterable")
      end
  | _ => Unhandled no_attribute_get
  end.

Definition batch_organizations (fuel : nat) : store -> value -> outcome (store * response) :=
  batch_endpoint (create_organization_op fuel).

Definition batch_users (fuel : nat) : store -> value -> outcome (store * response) :=
  batch_endpoint (create_user_op fuel).

End Endpoints.

(* ================================================================== *)
(** ** The reading of the specification *)
(* ================================================================== *)

Module Spec.

(** Case-insensitive substring test: [needle] occurs in [hay] once both
    are put in lower case. *)
Definition contains_ci (hay needle : string) : bool :=
  py_in (py_lower needle) (py_lower hay).

(** Field Accessor: walk the segments of the path; at each step the
    current value has to be a mapping that holds the next key. *)
Fixpoint field_accessor (current : value) (path : list string) : option value :=
  match path with
  | [] => Some current
  | key :: rest =>
      match current with
      | VDict d =>
          match dict_get key d with
          | Some v => field_accessor v rest
          | None => None
          end
      | _ => None
      end
  end.

(** One filter matches one record. *)
Definition filter_matches (item : record) (key : string) (expected : value) : bool :=
  if has_char "." key then
    match field_accessor (VDict item) (py_split "." key) with
    | Some v => contains_ci (py_str v) (py_str expected)
    | None => false
    end
  else
    match dict_get key item with
    | Some v => contains_ci (py_str v) (py_str expected)
    | None => contains_ci "" (py_str expected)
    end.

(** Every filter of the mapping matches the record. *)
Definition satisfies_all (filters : dict) (item : record) : bool :=
  forallb (fun kv => filter_matches item (fst kv) (snd kv)) filters.

Definition is_container (v : value) : bool :=
  match v with
  | VDict _ | VList _ => true
  | _ => false
  end.

(** The traversal rule of the recursive text search. *)
Inductive Matches (query : string) : value -> Prop :=
| Matches_string : forall s,
    contains_ci s query = true -> Matches query (VStr s)
| Matches_element : forall elems x,
    In x elems -> Matches query x -> Matches query (VList elems)
| Matches_string_field : forall fields k s,
    In (k, VStr s) fields -> contains_ci s query = true -> Matches query (VDict fields)
| Matches_nested_field : forall fields k v,
    In (k, v) fields -> is_container v = true -> Matches query v ->
    Matches query (VDict fields).

(** A leaf put [depth] mappings deep, one key per level. *)
Fixpoint buried (depth : nat) (leaf : value) : value :=
  match depth with
  | O => leaf
  | S d => VDict [("level" ++ str_of_nat depth, buried d leaf)]
  end.

(** What the search does with one field of a mapping. *)
Definition field_hit (query_lower : string) (v : value) : bool :=
  match v with
  | VStr s => py_in query_lower (py_lower s)
  | VDict _ | VList _ => _item_matches_query v query_lower
  | _ => false
  end.

(** Ceiling of a quotient of a non-negative by a positive integer: the
    least [k] with [total <= k * size]. *)
Definition is_ceiling (total size k : Z) : Prop :=
  (total <= k * size)%Z /\ (forall j, (total <= j * size)%Z -> (k <= j)%Z).

(** The numbers 1, 2, ..., n. *)
Definition page_numbers (n : Z) : list Z :=
  map (fun i => Z.of_nat (S i)) (seq 0 (Z.to_nat n)).

(** The items of one page and the number of pages, as the paginator
    returns them; a request that raises has neither. *)
Definition page_items {A : Type} (data : list A) (page size : Z) : list A :=
  match paginate_data data page size with
  | Ok d => items d
  | Raise _ => []
  end.

Definition page_count {A : Type} (data : list A) (size : Z) : Z :=
  match paginate_data data 1 size with
  | Ok d => total_pages d
  | Raise _ => 0%Z
  end.

(** The list under the key [results] of the body of a response. *)
Definition results_of (r : response) : option (list value) :=
  match body_of r with
  | VDict fields =>
      match dict_get "results" fields with
      | Some (VList results) => Some results
      | _ => None
      end
  | _ => None
  end.

(** An operation that is an object with the action [create] and an
    object as [data]. *)
Definition create_operation (op : value) : bool :=
  match op with
  | VDict fields =>
      match dict_get "action" fields, dict_get "data" fields with
      | Some action, Some (VDict _) => py_eq action (VStr "create")
      | _, _ => false
      end
  | _ => false
  end.

(** An operation that is an object without the field [data]. *)
Definition lacks_data (op : value) : bool :=
  match op with
  | VDict fields => negb (dict_has "data" fields)
  | _ => false
  end.

(** An operation that is an object whose action is one of the three. *)
Definition has_valid_action (op : value) : bool :=
  match op with
  | VDict fields =>
      match dict_get "action" fields with
      | Some action =>
          existsb (fun a => py_eq action (VStr a)) ["create"; "update"; "delete"]
      | None => false
      end
  | _ => false
  end.

(** No two values of the list are equal. *)
Fixpoint all_distinct (l : list value) : bool :=
  match l with
  | [] => true
  | x :: rest => negb (existsb (py_eq x) rest) && all_distinct rest
  end.

(** The emails of the users, [None] for a user without one. *)
Definition user_emails (st : store) : list value :=
  map (dict_get_none "email") (SAMPLE_USERS st).

(** Email uniqueness: the emails of the users are pairwise distinct. *)
Definition emails_unique (st : store) : bool :=
  all_distinct (user_emails st).

(** A stored user has an email and an identifier that is not [None]. *)
Definition user_well_formed (u : record) : bool :=
  match dict_get "email" u, dict_get "id" u with
  | Some _, Some i => negb (py_eq i VNone)
  | _, _ => false
  end.

Definition users_well_formed (st : store) : bool :=
  forallb user_well_formed (SAMPLE_USERS st).

(** The number of operations of a batch whose action is [create]. *)
Definition is_create (op : value) : bool :=
  match op with
  | VDict fields =>
      match dict_get "action" fields with
      | Some action => py_eq action (VStr "create")
      | None => false
      end
  | _ => false
  end.

Definition count_creates (operations : list value) : nat :=
  List.length (filter is_create operations).

End Spec.

(* ================================================================== *)
(** ** Requests used in the scenarios *)
(* ================================================================== *)

Module Scenario.

Definition clock (n : nat) : string := "2024-06-01T12:00:00." ++ fmt_03d n.

Definition create (name : string) : value :=
  VDict [("action", VStr "create");
         ("data", VDict [("name", VStr name); ("type", VStr "startup")])].

Definition create_without_data : value :=
  VDict [("action", VStr "create")].

Definition delete (id : string) : value :=
  VDict [("action", VStr "delete"); ("data", VDict [("id", VStr id)])].

Definition update (id name : string) : value :=
  VDict [("action", VStr "update"); ("data", VDict [("id", VStr id); ("name", VStr name)])].

Definition batch (operations : list value) : value :=
  VDict [("operations", VList operations)].

Definition new_organization_payload : value :=
  VDict [("name", VStr "Acme"); ("type", VStr "startup")].

Definition new_user_payload (id email : string) : value :=
  VDict [("id", VStr id); ("name", VStr "Ada"); ("email", VStr email)].

Definition new_user_payload_without_id (email : string) : value :=
  VDict [("name", VStr "Ada"); ("email", VStr email)].

Definition new_profile_payload (id : string) : value :=
  VDict [("id", VStr id); ("name", VStr "Default")].

Definition new_profile_payload_without_id : value :=
  VDict [("name", VStr "Default")].

(** The collections and the answer that a request leaves behind. *)
Definition store_after (o : outcome (store * response)) : store :=
  match o with
  | Done (st, _) => st
  | _ => initial_store
  end.

Definition response_after (o : outcome (store * response)) : response :=
  match o with
  | Done (_, r) => r
  | _ => Response 500 VNone
  end.

End Scenario.

(* ================================================================== *)
(** ** The token check, the profile endpoint, the statistics and the
       advanced search *)
(* ================================================================== *)

Definition BEARER_TOKEN : string := "ft_test_api_2024".

(** What the wrapper installed by [require_token] does with a request
    before the handler: it lets it through, it answers itself, or the
    indexing of the pieces of the header raises. *)
Inductive authorization : Type :=
| Authorized
| Refused (r : response)
| IndexError.

(** [require_token]: [auth_header] is what
    [request.headers.get('Authorization')] returns. *)
Definition require_token (auth_header : option string) : authorization :=
  match auth_header with
  | None => Refused (error_response (Some "Missing or invalid Authorization header") 401)
  | Some h =>
      if negb (truthy (VStr h)) || negb (String.prefix "Bearer " h)
      then Refused (error_response (Some "Missing or invalid Authorization header") 401)
      else
        match nth_error (py_split " " h) 1 with
        | None => IndexError
        | Some token =>
            if negb (String.eqb token BEARER_TOKEN)
            then Refused (error_response (Some "Invalid token") 401)
            else Authorized
        end
  end.

(** [handle_profile] for PUT and DELETE. The fields of the profile are
    read with [get], so a missing one does not raise. *)
Definition handle_profile (utcnow_isoformat : nat -> string) (st : store)
  (profile_id : string) (request : mutation) : outcome (store * response) :=
  profile <- lift (first_such (has_id (VStr profile_id)) (SAMPLE_PROFILES st)) ;;
  match profile with
  | None => Done (st, error_response (Some "Profile not found") 404)
  | Some profile =>
  if negb (truthy (VDict profile))
  then Done (st, error_response (Some "Profile not found") 404)
  else
  match request with
  | DELETE =>
      Done (mk_store (SAMPLE_ORGANIZATIONS st) (SAMPLE_USERS st)
                     (list_remove profile (SAMPLE_PROFILES st)) (clock_reads st),
            Response 204 (VStr ""))
  | PUT data =>
      match data with
      | VDict fields =>
          match dict_get_default "metadata" (VDict []) profile with
          | VDict metadata =>
              let changes :=
                [("name", dict_get_default "name" (dict_get_none "name" profile) fields);
                 ("settings",
                  dict_get_default "settings"
                    (dict_get_default "settings" (VDict []) profile) fields);
                 ("preferences",
                  dict_get_default "preferences"
                    (dict_get_default "preferences" (VDict []) profile) fields);
                 ("metadata",
                  VDict (dict_set "updated_at"
                           (VStr (utcnow_isoformat (clock_reads st))) metadata))] in
              Done (mk_store (SAMPLE_ORGANIZATIONS st) (SAMPLE_USERS st)
                             (update_first (VStr profile_id) changes (SAMPLE_PROFILES st))
                             (clock_reads st + 1),
                    Response 200 (VDict (dict_update profile changes)))
          | _ => Unhandled not_a_mapping
          end
      | _ => Unhandled no_attribute_get
      end
  end
  end.

(** *** Statistics *)

(** A [defaultdict(int)]: the keys in the order of their first use. *)
Definition counter : Type := list (value * nat).

(** Lists and dictionaries cannot be keys. *)
Definition hashable (v : value) : bool :=
  match v with
  | VList _ | VDict _ => false
  | _ => true
  end.

(** [counts[key] += 1] *)
Fixpoint increment (key : value) (counts : counter) : counter :=
  match counts with
  | [] => [(key, 1)]
  | (k, n) :: rest =>
      if py_eq k key then (k, S n) :: rest else (k, n) :: increment key rest
  end.

(** One turn of a counting loop: [counts[item[field]] += 1]. *)
Definition count_item (field : string) (counts : result counter) (item : record)
  : result counter :=
  bind counts (fun c =>
  bind (dict_index field item) (fun key =>
  if hashable key then Ok (increment key c)
  else Raise (TypeError "unhashable type"))).

Record statistics : Type := mk_statistics {
  organizations_total : nat;
  organizations_by_type : counter;
  users_total : nat;
  users_by_organization : counter;
  profiles_total : nat
}.

(** [get_stats], up to the dictionary handed to [jsonify]. *)
Definition get_stats (st : store) : result statistics :=
  bind (fold_left (count_item "type") (SAMPLE_ORGANIZATIONS st) (Ok [])) (fun by_type =>
  bind (fold_left (count_item "organization_id") (SAMPLE_USERS st) (Ok []))
    (fun by_organization =>
  Ok (mk_statistics (List.length (SAMPLE_ORGANIZATIONS st)) by_type
                    (List.length (SAMPLE_USERS st)) by_organization
                    (List.length (SAMPLE_PROFILES st))))).

(** *** Advanced search *)

(** The dictionaries of a list of values. *)
Definition records_of (l : list value) : list record :=
  flat_map (fun v => match v with VDict d => [d] | _ => [] end) l.

(** One of the three blocks of [advanced_search]: the text search when
    there is a query, then the filters, then the tag written over the
    key [type] of a copy of each record. Filters that are not a
    dictionary have no [items]. *)
Definition search_collection (collection : list record) (query : string)
  (filters : value) (tag : string) : result (list record) :=
  let data :=
    if truthy (VStr query)
    then records_of (search_in_text (map VDict collection) query)
    else collection in
  match filters with
  | VDict f => Ok (map (dict_set "type" (VStr tag)) (filter_data data f))
  | _ => Raise (AttributeError "object has no attribute 'items'")
  end.


(** *** Requests that change the collections *)

Inductive request : Type :=
| CreateOrganization (data : value)
| UpdateOrganization (org_id : string) (data : value)
| DeleteOrganization (org_id : string)
| CreateUser (data : value)
| UpdateUser (user_id : string) (data : value)
| DeleteUser (user_id : string)
| CreateProfile (data : value)
| UpdateProfile (profile_id : string) (data : value)
| DeleteProfile (profile_id : string)
| BatchOrganizations (data : value)
| BatchUsers (data : value).

(** The handler that serves a request. *)
Definition serve (clk : nat -> string) (fuel : nat) (st : store) (r : request)
  : outcome (store * response) :=
  match r with
  | CreateOrganization data => handle_organizations_post clk fuel st data
  | UpdateOrganization org_id data => handle_organization clk st org_id (PUT data)
  | DeleteOrganization org_id => handle_organization clk st org_id DELETE
  | CreateUser data => handle_users_post clk fuel st data
  | UpdateUser user_id data => handle_user clk st user_id (PUT data)
  | DeleteUser user_id => handle_user clk st user_id DELETE
  | CreateProfile data => handle_profiles_post clk fuel st data
  | UpdateProfile profile_id data => handle_profile clk st profile_id (PUT data)
  | DeleteProfile profile_id => handle_profile clk st profile_id DELETE
  | BatchOrganizations data => batch_organizations clk fuel st data
  | BatchUsers data => batch_users clk fuel st data
  end.

(** The states that the requests lead to from the initial data. *)
Inductive reachable (clk : nat -> string) : store -> Prop :=
| reachable_initial : reachable clk initial_store
| reachable_step : forall fuel st r st' resp,
    reachable clk st ->
    serve clk fuel st r = Done (st', resp) ->
    reachable clk st'.

(** The states that the requests other than the update of a user lead
    to from the initial data. *)
Inductive reachable_without_user_update (clk : nat -> string) : store -> Prop :=
| without_update_initial : reachable_without_user_update clk initial_store
| without_update_step : forall fuel st r st' resp,
    reachable_without_user_update clk st ->
    match r with UpdateUser _ _ => False | _ => True end ->
    serve clk fuel st r = Done (st', resp) ->
    reachable_without_user_update clk st'.

(* ================================================================== *)
(** ** Properties stated on the collections *)
(* ================================================================== *)

Module Inv.

(** The identifiers of a collection, [None] for a record without one. *)
Definition ids (collection : list record) : list value :=
  map (dict_get_none "id") collection.

(** Every record has an identifier and no two identifiers are equal. *)
Definition ids_unique (collection : list record) : bool :=
  forallb (dict_has "id") collection && Spec.all_distinct (ids collection).

Definition store_ids_unique (st : store) : bool :=
  ids_unique (SAMPLE_ORGANIZATIONS st) &&
  ids_unique (SAMPLE_USERS st) &&
  ids_unique (SAMPLE_PROFILES st).

(** The sum of the counts of a counter. *)
Definition counted (c : counter) : nat :=
  fold_right (fun kn acc => snd kn + acc) 0 c.

(** An operation of a batch that the structural validation accepts. *)
Definition well_formed_operation (op : value) : bool :=
  match op with
  | VDict fields =>
      match dict_get "action" fields, dict_get "data" fields with
      | Some action, Some (VDict _) =>
          existsb (fun a => py_eq action (VStr a)) ["create"; "update"; "delete"]
      | _, _ => false
      end
  | _ => false
  end.

(** The field accessor finds a value under the dotted key. *)
Definition resolves (item : record) (key : string) : bool :=
  match Spec.field_accessor (VDict item) (py_split "." key) with
  | Some _ => true
  | None => false
  end.

(** The records of the success entries of a list of results. *)
Definition successes (results : list value) : list record :=
  flat_map
    (fun entry =>
       match entry with
       | VDict fields =>
           match dict_get "status" fields, dict_get "data" fields with
           | Some (VStr status), Some (VDict r) =>
               if String.eqb status "success" then [r] else []
           | _, _ => []
           end
       | _ => []
       end) results.


(** Some record of the collection has the candidate as identifier. *)
Definition id_taken (collection : list record) (candidate : string) : bool :=
  existsb (fun r => py_eq (dict_get_none "id" r) (VStr candidate)) collection.

(** The record has an identifier, which differs from [new_id]. *)
Definition fresh_for (new_id : value) (x : record) : Prop :=
  exists i, dict_get "id" x = Some i /\ py_eq i new_id = false.

(** The request is an update of a user. *)
Definition updates_a_user (r : request) : bool :=
  match r with
  | UpdateUser _ _ => true
  | _ => false
  end.

(** The users all have an email and an identifier, and their emails are
    pairwise distinct. *)
Definition emails_in_order (st : store) : bool :=
  Spec.users_well_formed st && Spec.emails_unique st.






(** All the characters of a string satisfy a test. *)
Fixpoint all_chars (p : ascii -> bool) (s : string) : bool :=
  match s with
  | EmptyString => true
  | String c rest => p c && all_chars p rest
  end.

(** The string up to its first space. *)
Fixpoint first_word (s : string) : string :=
  match s with
  | EmptyString => EmptyString
  | String c rest => if Ascii.eqb c " " then EmptyString else String c (first_word rest)
  end.

(** The path to the text at the bottom of a nested profile of the given
    level: [level<n>], ..., [level2], [data]. *)
Fixpoint path_to_data (level : nat) : list string :=
  match level with
  | O => []
  | S below =>
      if (level =? 1)%nat then ["data"]
      else ("level" ++ str_of_nat level) :: path_to_data below
  end.

(** No key of a counter is equal to a later one. *)
Fixpoint keys_differ (c : counter) : bool :=
  match c with
  | [] => true
  | (k, _) :: rest =>
      forallb (fun kn => negb (py_eq k (fst kn))) rest && keys_differ rest
  end.

(** The record has the field, with a value that can be a key. *)
Definition countable (field : string) (item : record) : bool :=
  match dict_get field item with
  | Some v => hashable v
  | None => false
  end.

(** At least [n] characters, all of them digits. *)
Definition digits_at_least (n : nat) (s : string) : bool :=
  (n <=? String.length s)%nat && all_chars is_digit s.

(** The response is a 201 with a record that has exactly the given keys,
    in this order, and the collection has grown by this record, at its
    end. *)
Definition created (before after : list record) (resp : response)
  (keys : list string) (r : record) : Prop :=
  resp = Response 201 (VDict r) /\ after = (before ++ [r])%list /\ map fst r = keys.

End Inv.

(* ================================================================== *)
(** ** Theorems *)
(* ================================================================== *)

(** *** Strings *)

Lemma py_find_lower_bound : forall hay needle, (-1 <= py_find hay needle)%Z.
Proof.
  induction hay as [| c rest IH]; intros needle; cbn [py_find].
  - destruct (String.prefix needle ""); lia.
  - destruct (String.prefix needle (String c rest)); [lia |].
    specialize (IH needle). cbv zeta.
    destruct (py_find rest needle =? -1)%Z; lia.
Qed.

(** [hay.find(needle) != -1] and [needle in hay] agree. *)
Lemma py_find_in : forall hay needle,
  negb (py_find hay needle =? -1)%Z = py_in needle hay.
Proof.
  induction hay as [| c rest IH]; intros needle; cbn [py_find py_in].
  - destruct (String.prefix needle ""); reflexivity.
  - destruct (String.prefix needle (String c rest)); [reflexivity |].
    rewrite <- IH. cbv zeta.
    pose proof (py_find_lower_bound rest needle) as Hlb.
    destruct (py_find rest needle =? -1)%Z eqn:E; simpl; [reflexivity |].
    apply Z.eqb_neq in E.
    apply negb_true_iff, Z.eqb_neq. lia.
Qed.

(** *** Filtering *)

Lemma filter_twice : forall (A : Type) (f g : A -> bool) (l : list A),
  filter f (filter g l) = filter (fun x => g x && f x) l.
Proof.
  intros A f g l. induction l as [| x l IH]; simpl; [reflexivity |].
  destruct (g x); simpl; [destruct (f x) |]; rewrite IH; reflexivity.
Qed.

Lemma nested_walk_accessor : forall keys current expected,
  nested_walk keys current expected =
  match Spec.field_accessor current keys with
  | Some v => Spec.contains_ci (py_str v) (py_str expected)
  | None => false
  end.
Proof.
  induction keys as [| key rest IH]; intros current expected; simpl.
  - apply py_find_in.
  - destruct current; try reflexivity.
    unfold dict_has.
    destruct (dict_get key fields) as [v |]; [apply IH | reflexivity].
Qed.

Lemma filter_step_matches : forall filtered key expected,
  filter_step filtered (key, expected) =
  filter (fun item => Spec.filter_matches item key expected) filtered.
Proof.
  intros filtered key expected. unfold filter_step, Spec.filter_matches.
  destruct (has_char "." key); apply filter_ext; intros item.
  - unfold _get_nested_value. apply nested_walk_accessor.
  - rewrite py_find_in. unfold _get_field_value, dict_get_default, Spec.contains_ci.
    destruct (dict_get key item); reflexivity.
Qed.

Lemma filter_data_satisfies_all : forall filters data,
  filter_data data filters = filter (Spec.satisfies_all filters) data.
Proof.
  unfold filter_data.
  induction filters as [| [key expected] rest IH]; intros data; cbn [fold_left].
  - induction data as [| x data IHd]; simpl; [reflexivity | now rewrite <- IHd].
  - rewrite IH, filter_step_matches, filter_twice. reflexivity.
Qed.

(** C4. The nested filter engine returns, in the order of the input, the
    records for which every filter of the mapping matches: a key with a
    dot matches when the field accessor resolves its path and the text of
    the value found holds the text of the expected value, whatever the
    case of the letters; a key without a dot is looked up in the record
    itself, an absent field counting as the empty string. The input list
    is only read. *)
Theorem filter_data_is_filter : forall (data : list record) (filters : dict),
  filter_data data filters = filter (Spec.satisfies_all filters) data.
Proof.
  intros data filters. apply filter_data_satisfies_all.
Qed.

(** C8. Filtering is idempotent: filtering a filtered list by the same
    mapping changes nothing. *)
Theorem filter_data_idempotent : forall (data : list record) (filters : dict),
  filter_data (filter_data data filters) filters = filter_data data filters.
Proof.
  intros data filters.
  rewrite !filter_data_satisfies_all, filter_twice.
  apply filter_ext. intros item. apply andb_diag.
Qed.

(** C9. An empty filter mapping and an empty query both give the input
    list back, unchanged and in the same order. *)
Theorem empty_filter_and_empty_query : forall (records : list record) (data : list value),
  filter_data records [] = records /\ search_in_text data "" = data.
Proof.
  intros records data. split; reflexivity.
Qed.

(** *** Pagination *)

Section Pagination.

Context {A : Type}.
Implicit Types (data : list A) (p s : Z).

Lemma firstn_beyond_length : forall (n : nat) data,
  firstn (Nat.min n (List.length data)) data = firstn n data.
Proof.
  intros n data. destruct (Nat.le_ge_cases n (List.length data)) as [H | H].
  - now rewrite Nat.min_l.
  - rewrite Nat.min_r by exact H. rewrite !firstn_all2; trivial.
Qed.

Lemma firstn_plus : forall (a b : nat) data,
  firstn (a + b) data = (firstn a data ++ firstn b (skipn a data))%list.
Proof.
  induction a as [| a IH]; intros b data; simpl; [reflexivity |].
  destruct data as [| x data]; simpl.
  - now rewrite firstn_nil.
  - now rewrite IH.
Qed.

(** For a page and a size that are both positive, the Python slice is
    the plain window of [s] items after the first [(p - 1) * s]. *)
Lemma slice_window : forall data p s,
  (1 <= p)%Z -> (1 <= s)%Z ->
  py_slice data ((p - 1) * s) ((p - 1) * s + s) =
  firstn (Z.to_nat s) (skipn (Z.to_nat ((p - 1) * s)) data).
Proof.
  intros data p s Hp Hs. unfold py_slice, slice_index.
  set (len := Z.of_nat (List.length data)).
  set (lo := ((p - 1) * s)%Z).
  assert (Hlo : (0 <= lo)%Z) by (subst lo; nia).
  destruct (lo <? 0)%Z eqn:E1; [apply Z.ltb_lt in E1; lia |].
  destruct (lo + s <? 0)%Z eqn:E2; [apply Z.ltb_lt in E2; lia |].
  destruct (Z.le_gt_cases len lo) as [Hout | Hin].
  - rewrite (Z.min_r lo len) by lia.
    replace (Z.to_nat len) with (List.length data) by (subst len; lia).
    rewrite skipn_all. rewrite (skipn_all2 data) by (subst len; lia).
    now rewrite !firstn_nil.
  - rewrite (Z.min_l lo len) by lia.
    rewrite <- (firstn_beyond_length (Z.to_nat s)).
    f_equal. rewrite length_skipn. subst len. lia.
Qed.

Lemma slice_nth_error : forall data p s (k : nat),
  (1 <= p)%Z -> (1 <= s)%Z ->
  nth_error (py_slice data ((p - 1) * s) ((p - 1) * s + s)) k =
  if (Z.of_nat k <? s)%Z then nth_error data (Z.to_nat ((p - 1) * s) + k) else None.
Proof.
  intros data p s k Hp Hs. rewrite slice_window by assumption.
  destruct (Z.of_nat k <? s)%Z eqn:E.
  - apply Z.ltb_lt in E. rewrite nth_error_firstn.
    destruct (k <? Z.to_nat s)%nat eqn:E'.
    + apply nth_error_skipn.
    + apply Nat.ltb_ge in E'. lia.
  - apply Z.ltb_ge in E. apply nth_error_None.
    rewrite length_firstn. lia.
Qed.

Lemma ceiling_formula : forall (len s : Z),
  (0 <= len)%Z -> (1 <= s)%Z -> Spec.is_ceiling len s ((len + s - 1) / s).
Proof.
  intros len s Hlen Hs. unfold Spec.is_ceiling. split.
  - pose proof (Z.mul_succ_div_gt (len + s - 1) s) as H. nia.
  - intros j Hj.
    assert (H : ((len + s - 1) / s < j + 1)%Z)
      by (apply Z.div_lt_upper_bound; nia).
    lia.
Qed.

Lemma paginate_data_ok : forall data p s,
  (1 <= s)%Z ->
  paginate_data data p s =
  Ok (mk_page (py_slice data ((p - 1) * s) ((p - 1) * s + s))
              (Z.of_nat (List.length data)) p s
              ((Z.of_nat (List.length data) + s - 1) / s)).
Proof.
  intros data p s Hs. unfold paginate_data, floordiv.
  destruct (s =? 0)%Z eqn:E; [apply Z.eqb_eq in E; lia | reflexivity].
Qed.

Lemma page_items_window : forall data p s,
  (1 <= p)%Z -> (1 <= s)%Z ->
  Spec.page_items data p s = firstn (Z.to_nat s) (skipn (Z.to_nat ((p - 1) * s)) data).
Proof.
  intros data p s Hp Hs. unfold Spec.page_items.
  rewrite paginate_data_ok by assumption. simpl. now apply slice_window.
Qed.

Lemma page_count_formula : forall data s,
  (1 <= s)%Z ->
  Spec.page_count data s = ((Z.of_nat (List.length data) + s - 1) / s)%Z.
Proof.
  intros data s Hs. unfold Spec.page_count.
  now rewrite paginate_data_ok by assumption.
Qed.

Lemma page_items_length : forall data p s,
  (1 <= p)%Z -> (1 <= s)%Z ->
  Z.of_nat (List.length (Spec.page_items data p s)) =
  Z.max 0 (Z.min s (Z.of_nat (List.length data) - (p - 1) * s)).
Proof.
  intros data p s Hp Hs. rewrite page_items_window by assumption.
  rewrite length_firstn, length_skipn. nia.
Qed.

(** The first [k] windows of width [w], put end to end, are the first
    [k * w] items. *)
Lemma windows_concat : forall (w k : nat) data,
  List.concat (map (fun i => firstn w (skipn (i * w) data)) (seq 0 k)) = firstn (k * w) data.
Proof.
  intros w k data. induction k as [| k IH].
  - reflexivity.
  - rewrite seq_S, map_app, concat_app, IH. simpl.
    rewrite app_nil_r. replace (w + k * w)%nat with (k * w + w)%nat by lia.
    symmetry. apply firstn_plus.
Qed.

Lemma pages_concat : forall data s (k : nat),
  (1 <= s)%Z ->
  List.concat (map (fun p => Spec.page_items data p s) (Spec.page_numbers (Z.of_nat k))) =
  firstn (k * Z.to_nat s) data.
Proof.
  intros data s k Hs. unfold Spec.page_numbers.
  rewrite Nat2Z.id, map_map, <- windows_concat. f_equal.
  apply map_ext. intros i.
  rewrite page_items_window by lia.
  do 2 f_equal. nia.
Qed.

End Pagination.

(** C5. For a page number and a page size that are at least 1 the
    paginator returns the items at the positions from [(p - 1) * s]
    (included) to [p * s] (excluded) of the sequence, none when
    [(p - 1) * s] is at or beyond the end, with the length of the sequence
    as total, the page and the page size as given, and the ceiling of
    total / size as the number of pages; it does not raise. *)
Theorem paginate_data_slice : forall (A : Type) (data : list A) (p s : Z),
  (1 <= p)%Z -> (1 <= s)%Z ->
  exists d,
    paginate_data data p s = Ok d /\
    items d = firstn (Z.to_nat s) (skipn (Z.to_nat ((p - 1) * s)) data) /\
    (forall k : nat,
        nth_error (items d) k =
        if (Z.of_nat k <? s)%Z
        then nth_error data (Z.to_nat ((p - 1) * s) + k)
        else None) /\
    ((Z.of_nat (List.length data) <= (p - 1) * s)%Z -> items d = []) /\
    total d = Z.of_nat (List.length data) /\
    page d = p /\
    per_page d = s /\
    Spec.is_ceiling (Z.of_nat (List.length data)) s (total_pages d).
Proof.
  intros A data p s Hp Hs. eexists. split; [apply paginate_data_ok; assumption |].
  cbn [items total page per_page total_pages].
  repeat split.
  - now apply slice_window.
  - intros k. now apply slice_nth_error.
  - intros Hout. rewrite slice_window by assumption.
    rewrite skipn_all2 by lia. apply firstn_nil.
  - apply ceiling_formula; lia.
  - apply ceiling_formula; lia.
Qed.

(** C6. At a fixed page size of at least 1 the pages 1 to [total_pages]
    put end to end are the sequence itself; every page before the last
    holds exactly [s] items and the last one between 1 and [s]. *)
Theorem pagination_partition : forall (A : Type) (data : list A) (s : Z),
  (1 <= s)%Z ->
  let n := Spec.page_count data s in
  List.concat (map (fun p => Spec.page_items data p s) (Spec.page_numbers n)) = data /\
  (forall p, (1 <= p < n)%Z -> Z.of_nat (List.length (Spec.page_items data p s)) = s) /\
  ((1 <= n)%Z -> (1 <= Z.of_nat (List.length (Spec.page_items data n s)) <= s)%Z) /\
  (forall p, (1 <= p)%Z ->
     exists d, paginate_data data p s = Ok d /\ total_pages d = n).
Proof.
  intros A data s Hs n.
  assert (Hn : n = ((Z.of_nat (List.length data) + s - 1) / s)%Z)
    by (apply page_count_formula; assumption).
  destruct (ceiling_formula (Z.of_nat (List.length data)) s) as [Hup Hleast];
    [lia | assumption |].
  rewrite <- Hn in Hup, Hleast.
  assert (Hn0 : (0 <= n)%Z) by (rewrite Hn; apply Z.div_pos; lia).
  assert (Hlow : (1 <= n)%Z -> ((n - 1) * s < Z.of_nat (List.length data))%Z).
  { intros H1. destruct (Z.lt_ge_cases ((n - 1) * s) (Z.of_nat (List.length data)))
      as [Hlt | Hge]; [assumption |].
    specialize (Hleast (n - 1)%Z). lia. }
  clearbody n.
  split; [| split; [| split]].
  - rewrite <- (Z2Nat.id n) by assumption.
    rewrite pages_concat by assumption.
    apply firstn_all2. nia.
  - intros p Hp. rewrite page_items_length by lia. nia.
  - intros H1. rewrite page_items_length by lia. specialize (Hlow H1). nia.
  - intros p Hp. eexists.
    split; [apply paginate_data_ok; assumption | now rewrite Hn].
Qed.

(** *** Recursive text search *)

(** Induction on JSON values, with the hypothesis available for every
    element of a list and every field of a dictionary. *)
Fixpoint value_induction (P : value -> Prop)
  (HNone : P VNone) (HBool : forall b, P (VBool b)) (HInt : forall n, P (VInt n))
  (HStr : forall s, P (VStr s))
  (HList : forall l, Forall P l -> P (VList l))
  (HDict : forall d, Forall (fun kv => P (snd kv)) d -> P (VDict d))
  (v : value) {struct v} : P v :=
  match v with
  | VNone => HNone
  | VBool b => HBool b
  | VInt n => HInt n
  | VStr s => HStr s
  | VList l =>
      HList l
        ((fix all (l : list value) : Forall P l :=
            match l with
            | [] => Forall_nil P
            | x :: rest =>
                Forall_cons x
                  (value_induction P HNone HBool HInt HStr HList HDict x) (all rest)
            end) l)
  | VDict d =>
      HDict d
        ((fix all (d : list (string * value)) : Forall (fun kv => P (snd kv)) d :=
            match d with
            | [] => Forall_nil _
            | kv :: rest =>
                Forall_cons kv
                  (value_induction P HNone HBool HInt HStr HList HDict (snd kv)) (all rest)
            end) d)
  end.

Lemma matches_list : forall elems q,
  _item_matches_query (VList elems) q = existsb (fun x => _item_matches_query x q) elems.
Proof.
  intros elems q. induction elems as [| x rest IH]; [reflexivity |].
  cbn [existsb]. rewrite <- IH. reflexivity.
Qed.

Lemma matches_dict : forall fields q,
  _item_matches_query (VDict fields) q =
  existsb (fun kv => Spec.field_hit q (snd kv)) fields.
Proof.
  intros fields q. induction fields as [| [k v] rest IH]; [reflexivity |].
  cbn [existsb snd]. rewrite <- IH. unfold Spec.field_hit.
  destruct v; reflexivity.
Qed.

Lemma matches_sound : forall query item,
  _item_matches_query item (py_lower query) = true -> Spec.Matches query item.
Proof.
  intros query item. induction item as [| b | n | s | l IH | d IH] using value_induction;
    try discriminate.
  - intros H. now apply Spec.Matches_string.
  - rewrite matches_list. intros H.
    apply existsb_exists in H. destruct H as [x [Hin Hx]].
    rewrite Forall_forall in IH.
    apply Spec.Matches_element with (x := x); auto.
  - rewrite matches_dict. intros H.
    apply existsb_exists in H. destruct H as [[k v] [Hin Hv]].
    rewrite Forall_forall in IH. specialize (IH _ Hin). cbn [snd] in IH, Hv.
    destruct v; try discriminate.
    + now apply Spec.Matches_string_field with (k := k) (s := s).
    + apply Spec.Matches_nested_field with (k := k) (v := VList elems); auto.
    + apply Spec.Matches_nested_field with (k := k) (v := VDict fields); auto.
Qed.

Lemma matches_complete : forall query item,
  Spec.Matches query item -> _item_matches_query item (py_lower query) = true.
Proof.
  intros query item H. induction H as [s Hs | elems x Hin _ IH | fields k s Hin Hs
                                       | fields k v Hin Hc _ IH].
  - exact Hs.
  - rewrite matches_list. apply existsb_exists. now exists x.
  - rewrite matches_dict. apply existsb_exists. exists (k, VStr s). split; [exact Hin | exact Hs].
  - rewrite matches_dict. apply existsb_exists. exists (k, v). split; [exact Hin |].
    cbn [snd]. destruct v; try discriminate; exact IH.
Qed.

Lemma matches_buried : forall depth s query,
  _item_matches_query (Spec.buried depth (VStr s)) (py_lower query) = Spec.contains_ci s query.
Proof.
  induction depth as [| d IH]; intros s query.
  - reflexivity.
  - cbn [Spec.buried]. rewrite matches_dict. cbn [existsb snd]. rewrite orb_false_r.
    destruct d as [| d'].
    + reflexivity.
    + specialize (IH s query). cbn [Spec.buried] in IH |- *.
      unfold Spec.field_hit. exact IH.
Qed.

(** C7. The match predicate of the recursive text search, called as the
    search calls it, follows the traversal rule: a string matches when
    the query occurs in it whatever the case of the letters; a sequence
    when one of its elements matches; a mapping when one of its
    string-valued fields holds the query or one of its mapping- or
    sequence-valued fields matches; any other scalar never matches. The
    predicate is defined on every value, however deep: a string under
    any number of mappings is found exactly when it holds the query, and
    the text at the bottom of the ten-level profile of the sample data is
    found. *)
Theorem item_matches_query_traversal :
  (forall query item,
      _item_matches_query item (py_lower query) = true <-> Spec.Matches query item) /\
  (forall q, _item_matches_query VNone q = false) /\
  (forall q b, _item_matches_query (VBool b) q = false) /\
  (forall q n, _item_matches_query (VInt n) q = false) /\
  (forall depth s query,
      _item_matches_query (Spec.buried depth (VStr s)) (py_lower query) =
      Spec.contains_ci s query) /\
  (exists profile,
      create_nested_profile 10 = Some profile /\
      _item_matches_query (VDict profile) (py_lower "Level 1 data") = true).
Proof.
  split; [| split; [| split; [| split; [| split]]]].
  - intros query item. split; [apply matches_sound | apply matches_complete].
  - reflexivity.
  - reflexivity.
  - reflexivity.
  - apply matches_buried.
  - eexists. split; [reflexivity | vm_compute; reflexivity].
Qed.

(** *** Identifier assignment *)

Lemma conflict_loop_running : forall fuel prefix collection,
  any_such (has_id (VStr (prefix ++ fmt_03d (List.length collection + 2)))) collection
    = Ok true ->
  conflict_loop fuel prefix collection (prefix ++ fmt_03d (List.length collection + 2))
    = Running.
Proof.
  induction fuel as [| fuel IH]; intros prefix collection H; cbn [conflict_loop].
  - reflexivity.
  - rewrite H. cbn [lift and_then]. now apply IH.
Qed.

(** When the identifiers numbered [len + 1] and [len + 2] are both
    taken, the loop never finds a free one. *)
Lemma auto_generate_id_running : forall fuel prefix collection,
  any_such (has_id (VStr (prefix ++ fmt_03d (List.length collection + 1)))) collection
    = Ok true ->
  any_such (has_id (VStr (prefix ++ fmt_03d (List.length collection + 2)))) collection
    = Ok true ->
  auto_generate_id fuel prefix collection = Running.
Proof.
  intros fuel prefix collection H1 H2. unfold auto_generate_id.
  destruct fuel as [| fuel]; cbn [conflict_loop]; [reflexivity |].
  rewrite H1. cbn [lift and_then]. now apply conflict_loop_running.
Qed.

(** Two evaluations of the condition decide the loop: more fuel changes
    nothing. *)
Lemma auto_generate_id_two_checks : forall fuel prefix collection,
  auto_generate_id (S (S fuel)) prefix collection =
  match auto_generate_id 2 prefix collection with
  | Running => Running
  | other => other
  end.
Proof.
  intros fuel prefix collection. unfold auto_generate_id. cbn [conflict_loop].
  destruct (any_such (has_id (VStr (prefix ++ fmt_03d (List.length collection + 1))))
                     collection) as [[|] | e]; cbn [lift and_then]; try reflexivity.
  destruct (any_such (has_id (VStr (prefix ++ fmt_03d (List.length collection + 2))))
                     collection) as [[|] | e] eqn:E2; cbn [lift and_then]; try reflexivity.
  destruct fuel as [| fuel]; [reflexivity |].
  change (conflict_loop (S fuel) prefix collection
            (prefix ++ fmt_03d (List.length collection + 2)) = Running).
  now apply conflict_loop_running.
Qed.

(** An identifier that the loop returns is not in the collection. *)
Lemma conflict_loop_fresh : forall fuel prefix collection candidate new_id,
  conflict_loop fuel prefix collection candidate = Done new_id ->
  any_such (has_id (VStr new_id)) collection = Ok false.
Proof.
  induction fuel as [| fuel IH]; intros prefix collection candidate new_id;
    cbn [conflict_loop]; [discriminate |].
  destruct (any_such (has_id (VStr candidate)) collection) as [[|] | e] eqn:E;
    cbn [lift and_then]; try discriminate.
  - apply IH.
  - intros H. injection H as <-. exact E.
Qed.

Lemma handle_organizations_post_running : forall clk fuel st fields,
  validate_json_payload (VDict fields) = valid ->
  validate_organization_data fields false = valid ->
  truthy (dict_get_none "id" fields) = false ->
  auto_generate_id fuel "ORG" (SAMPLE_ORGANIZATIONS st) = Running ->
  handle_organizations_post clk fuel st (VDict fields) = Running.
Proof.
  intros clk fuel st fields Hj Hv Hid Hrun. unfold handle_organizations_post, assign_id.
  rewrite Hj, Hv, Hid. cbn [valid negb]. rewrite Hrun. reflexivity.
Qed.

Lemma handle_users_post_running : forall clk fuel st fields,
  validate_json_payload (VDict fields) = valid ->
  validate_user_data st fields false VNone = Ok valid ->
  truthy (dict_get_none "id" fields) = false ->
  auto_generate_id fuel "USER" (SAMPLE_USERS st) = Running ->
  handle_users_post clk fuel st (VDict fields) = Running.
Proof.
  intros clk fuel st fields Hj Hv Hid Hrun. unfold handle_users_post, assign_id.
  rewrite Hj, Hv. cbn [valid negb lift and_then]. rewrite Hid, Hrun. reflexivity.
Qed.

Lemma handle_profiles_post_running : forall clk fuel st fields,
  validate_json_payload (VDict fields) = valid ->
  validate_profile_data fields false = valid ->
  truthy (dict_get_none "id" fields) = false ->
  auto_generate_id fuel "PROF" (SAMPLE_PROFILES st) = Running ->
  handle_profiles_post clk fuel st (VDict fields) = Running.
Proof.
  intros clk fuel st fields Hj Hv Hid Hrun. unfold handle_profiles_post, assign_id.
  rewrite Hj, Hv, Hid. cbn [valid negb]. rewrite Hrun. reflexivity.
Qed.

(** C10. A create without an identifier does not always terminate with a
    fresh identifier. Two organizations of the initial data are deleted;
    the collection then has 8 records, and the identifiers ORG009 and
    ORG010 that the loop tries are both taken: a create without an
    identifier never returns, whatever the fuel. The same happens to the
    users once USER103 and USER104 have been created with explicit
    identifiers, and to the profiles after PROF103 and PROF104. *)
Theorem auto_generated_id_loop_never_ends : forall clk,
  (exists st1 st2,
      handle_organization clk initial_store "ORG001" DELETE
        = Done (st1, Response 204 (VStr "")) /\
      handle_organization clk st1 "ORG002" DELETE
        = Done (st2, Response 204 (VStr "")) /\
      forall fuel,
        handle_organizations_post clk fuel st2 Scenario.new_organization_payload = Running) /\
  (exists st1 r1 st2 r2,
      handle_users_post clk 2 initial_store
        (Scenario.new_user_payload "USER103" "ada@example.com") = Done (st1, r1) /\
      status_of r1 = 201 /\
      handle_users_post clk 2 st1
        (Scenario.new_user_payload "USER104" "bob@example.com") = Done (st2, r2) /\
      status_of r2 = 201 /\
      forall fuel,
        handle_users_post clk fuel st2
          (Scenario.new_user_payload_without_id "eve@example.com") = Running) /\
  (exists st1 r1 st2 r2,
      handle_profiles_post clk 2 initial_store (Scenario.new_profile_payload "PROF103")
        = Done (st1, r1) /\
      status_of r1 = 201 /\
      handle_profiles_post clk 2 st1 (Scenario.new_profile_payload "PROF104")
        = Done (st2, r2) /\
      status_of r2 = 201 /\
      forall fuel,
        handle_profiles_post clk fuel st2 Scenario.new_profile_payload_without_id
          = Running).
Proof.
  intros clk. split; [| split].
  - set (o1 := handle_organization clk initial_store "ORG001" DELETE).
    set (o2 := handle_organization clk (Scenario.store_after o1) "ORG002" DELETE).
    exists (Scenario.store_after o1), (Scenario.store_after o2).
    split; [vm_compute; reflexivity |].
    split; [vm_compute; reflexivity |].
    intros fuel. apply handle_organizations_post_running; try reflexivity.
    apply auto_generate_id_running; vm_compute; reflexivity.
  - set (o1 := handle_users_post clk 2 initial_store
                 (Scenario.new_user_payload "USER103" "ada@example.com")).
    set (o2 := handle_users_post clk 2 (Scenario.store_after o1)
                 (Scenario.new_user_payload "USER104" "bob@example.com")).
    exists (Scenario.store_after o1), (Scenario.response_after o1),
           (Scenario.store_after o2), (Scenario.response_after o2).
    split; [vm_compute; reflexivity |].
    split; [vm_compute; reflexivity |].
    split; [vm_compute; reflexivity |].
    split; [vm_compute; reflexivity |].
    intros fuel. apply handle_users_post_running;
      try (vm_compute; reflexivity).
    apply auto_generate_id_running; vm_compute; reflexivity.
  - set (o1 := handle_profiles_post clk 2 initial_store
                 (Scenario.new_profile_payload "PROF103")).
    set (o2 := handle_profiles_post clk 2 (Scenario.store_after o1)
                 (Scenario.new_profile_payload "PROF104")).
    exists (Scenario.store_after o1), (Scenario.response_after o1),
           (Scenario.store_after o2), (Scenario.response_after o2).
    split; [vm_compute; reflexivity |].
    split; [vm_compute; reflexivity |].
    split; [vm_compute; reflexivity |].
    split; [vm_compute; reflexivity |].
    intros fuel. apply handle_profiles_post_running;
      try (vm_compute; reflexivity).
    apply auto_generate_id_running; vm_compute; reflexivity.
Qed.

(** *** Batch operations *)

Lemma create_operation_passes : forall i op rest,
  Spec.create_operation op = true ->
  validate_each_operation i (op :: rest) = validate_each_operation (S i) rest.
Proof.
  intros i op rest H. unfold Spec.create_operation in H.
  destruct op as [| | | | | fields]; try discriminate.
  cbn [validate_each_operation].
  destruct (dict_get "action" fields) as [action |]; [| discriminate].
  destruct (dict_get "data" fields) as [[| | | | | d] |]; try discriminate.
  cbn [existsb]. rewrite H. reflexivity.
Qed.

Lemma operation_without_data_fails : forall op rest,
  Spec.lacks_data op = true ->
  exists msg,
    validate_each_operation 1 (op :: rest) = invalid ("Operation 2: " ++ msg) /\
    (Spec.has_valid_action op = true -> msg = "field 'data' is required").
Proof.
  intros op rest H. unfold Spec.lacks_data, dict_has in H.
  destruct op as [| | | | | fields]; try discriminate.
  cbn [validate_each_operation Spec.has_valid_action].
  destruct (dict_get "data" fields); [discriminate |].
  destruct (dict_get "action" fields) as [action |].
  - destruct (existsb (fun a => py_eq action (VStr a)) ["create"; "update"; "delete"]).
    + eexists. split; [reflexivity | reflexivity].
    + eexists. split; [reflexivity | discriminate].
  - eexists. split; [reflexivity | discriminate].
Qed.

Lemma batch_endpoint_rejects : forall create_op st fields ops msg,
  dict_get "operations" fields = Some (VList ops) ->
  validate_batch_operations (VList ops) = invalid msg ->
  batch_endpoint create_op st (VDict fields) = Done (st, error_response (Some msg) 400).
Proof.
  intros create_op st fields ops msg Hops Hbad. unfold batch_endpoint.
  assert (Htruthy : validate_json_payload (VDict fields) = valid).
  { destruct fields; [discriminate | reflexivity]. }
  rewrite Htruthy. cbn [valid negb]. unfold dict_get_default. rewrite Hops, Hbad.
  reflexivity.
Qed.

(** C1, as amended. A batch of three operations whose first operation is
    a well-formed create and whose second operation has no [data] is
    rejected as a whole by the structural validation: both batch
    endpoints answer 400 with a message that names operation 2, the
    answer holds no list of results, and the collections are left as they
    were, so that neither operation 1 nor operation 3 is processed. *)
Theorem batch_without_data_is_rejected : forall clk fuel st fields op1 op2 op3,
  dict_get "operations" fields = Some (VList [op1; op2; op3]) ->
  Spec.create_operation op1 = true ->
  Spec.lacks_data op2 = true ->
  exists msg,
    batch_organizations clk fuel st (VDict fields)
      = Done (st, error_response (Some ("Operation 2: " ++ msg)) 400) /\
    batch_users clk fuel st (VDict fields)
      = Done (st, error_response (Some ("Operation 2: " ++ msg)) 400) /\
    Spec.results_of (error_response (Some ("Operation 2: " ++ msg)) 400) = None /\
    (Spec.has_valid_action op2 = true -> msg = "field 'data' is required").
Proof.
  intros clk fuel st fields op1 op2 op3 Hops H1 H2.
  destruct (operation_without_data_fails op2 [op3] H2) as [msg [Hmsg Hexact]].
  assert (Hbad : validate_batch_operations (VList [op1; op2; op3])
                 = invalid ("Operation 2: " ++ msg)).
  { cbn [validate_batch_operations List.length Nat.eqb Nat.ltb Nat.leb].
    rewrite create_operation_passes by exact H1. exact Hmsg. }
  exists msg. repeat split.
  - now apply batch_endpoint_rejects with (ops := [op1; op2; op3]).
  - now apply batch_endpoint_rejects with (ops := [op1; op2; op3]).
  - exact Hexact.
Qed.

(** The amended statement at the request of the scenario. *)
Lemma batch_without_data_is_rejected_witness :
  exists msg,
    batch_organizations Scenario.clock 5 initial_store
      (Scenario.batch [Scenario.create "First"; Scenario.create_without_data;
                       Scenario.create "Third"])
      = Done (initial_store, error_response (Some ("Operation 2: " ++ msg)) 400) /\
    batch_users Scenario.clock 5 initial_store
      (Scenario.batch [Scenario.create "First"; Scenario.create_without_data;
                       Scenario.create "Third"])
      = Done (initial_store, error_response (Some ("Operation 2: " ++ msg)) 400) /\
    Spec.results_of (error_response (Some ("Operation 2: " ++ msg)) 400) = None /\
    (Spec.has_valid_action Scenario.create_without_data = true ->
     msg = "field 'data' is required").
Proof.
  apply (batch_without_data_is_rejected Scenario.clock 5 initial_store
           [("operations", VList [Scenario.create "First"; Scenario.create_without_data;
                                  Scenario.create "Third"])]
           (Scenario.create "First") Scenario.create_without_data (Scenario.create "Third"));
    reflexivity.
Defined.

(** C1 at a concrete request: with two well-formed creates around an
    operation without [data] the answer is the error of the structural
    validation, and there is no list of three results. *)
Lemma batch_without_data_has_no_results :
  batch_organizations Scenario.clock 5 initial_store
    (Scenario.batch [Scenario.create "First"; Scenario.create_without_data;
                     Scenario.create "Third"])
  = Done (initial_store,
          Response 400 (VDict [("error", VStr "Operation 2: field 'data' is required")]))
  /\
  ~ (exists st resp results,
        batch_organizations Scenario.clock 5 initial_store
          (Scenario.batch [Scenario.create "First"; Scenario.create_without_data;
                           Scenario.create "Third"]) = Done (st, resp) /\
        Spec.results_of resp = Some results /\
        List.length results = 3).
Proof.
  assert (H : batch_organizations Scenario.clock 5 initial_store
                (Scenario.batch [Scenario.create "First"; Scenario.create_without_data;
                                 Scenario.create "Third"])
              = Done (initial_store,
                      Response 400
                        (VDict [("error", VStr "Operation 2: field 'data' is required")])))
    by reflexivity.
  split; [exact H |].
  intros [st [resp [results [Hrun [Hres _]]]]].
  rewrite H in Hrun. injection Hrun as _ <-. discriminate Hres.
Qed.

(** C3. The loop of a batch does not append one outcome for each
    operation that passed the validation. A batch made of one [delete],
    or of one [update], passes the structural validation, and the loop
    has no branch for it: the answer is an empty list of results and the
    collections are left as they were. Between two creates such an
    operation leaves two results for three operations. *)
Theorem batch_skips_update_and_delete : forall clk fuel st,
  validate_batch_operations (VList [Scenario.delete "ORG001"]) = valid /\
  batch_organizations clk fuel st (Scenario.batch [Scenario.delete "ORG001"])
    = Done (st, Response 200 (VDict [("results", VList [])])) /\
  validate_batch_operations (VList [Scenario.update "USER001_001" "Renamed"]) = valid /\
  batch_users clk fuel st (Scenario.batch [Scenario.update "USER001_001" "Renamed"])
    = Done (st, Response 200 (VDict [("results", VList [])])) /\
  (exists st' results,
      batch_organizations Scenario.clock 2 initial_store
        (Scenario.batch [Scenario.create "First"; Scenario.delete "ORG001";
                         Scenario.create "Third"])
        = Done (st', Response 200 (VDict [("results", VList results)])) /\
      List.length results = 2 /\
      List.length (SAMPLE_ORGANIZATIONS st') = 12).
Proof.
  intros clk fuel st. repeat split.
  set (o := batch_organizations Scenario.clock 2 initial_store
              (Scenario.batch [Scenario.create "First"; Scenario.delete "ORG001";
                               Scenario.create "Third"])).
  exists (Scenario.store_after o).
  eexists. split; [vm_compute; reflexivity | split; vm_compute; reflexivity].
Qed.

(** *** Email uniqueness *)

(** C2. Email uniqueness is not preserved by the update of a user. The
    emails of the initial users are pairwise distinct. A create with the
    email of another user is refused by [validate_user_data], but the
    update of a user does not call the validator: giving the first user
    the email of the second one succeeds and leaves two users with the
    same email. *)
Theorem update_breaks_email_uniqueness : forall clk,
  Spec.emails_unique initial_store = true /\
  (exists resp,
      handle_users_post clk 2 initial_store
        (Scenario.new_user_payload_without_id "test1_2@example.com")
        = Done (initial_store, resp) /\
      status_of resp = 400) /\
  (exists st' resp,
      handle_user clk initial_store "USER001_001"
        (PUT (VDict [("email", VStr "test1_2@example.com")])) = Done (st', resp) /\
      status_of resp = 200 /\
      dict_get "email" (nth 0 (SAMPLE_USERS st') []) = Some (VStr "test1_2@example.com") /\
      dict_get "email" (nth 1 (SAMPLE_USERS st') []) = Some (VStr "test1_2@example.com") /\
      Spec.emails_unique st' = false).
Proof.
  intros clk. split; [vm_compute; reflexivity |]. split.
  - exists (Scenario.response_after
              (handle_users_post clk 2 initial_store
                 (Scenario.new_user_payload_without_id "test1_2@example.com"))).
    split; vm_compute; reflexivity.
  - set (o := handle_user clk initial_store "USER001_001"
                (PUT (VDict [("email", VStr "test1_2@example.com")]))).
    exists (Scenario.store_after o), (Scenario.response_after o).
    repeat split; vm_compute; reflexivity.
Qed.

(** *** Pagination at concrete requests *)

Lemma paginate_data_slice_witness :
  exists d,
    paginate_data [10; 20; 30; 40; 50]%Z 2 2 = Ok d /\
    items d = firstn (Z.to_nat 2) (skipn (Z.to_nat ((2 - 1) * 2)) [10; 20; 30; 40; 50]%Z) /\
    (forall k : nat,
        nth_error (items d) k =
        if (Z.of_nat k <? 2)%Z
        then nth_error [10; 20; 30; 40; 50]%Z (Z.to_nat ((2 - 1) * 2) + k)
        else None) /\
    ((Z.of_nat (List.length [10; 20; 30; 40; 50]%Z) <= (2 - 1) * 2)%Z -> items d = []) /\
    total d = Z.of_nat (List.length [10; 20; 30; 40; 50]%Z) /\
    page d = 2%Z /\
    per_page d = 2%Z /\
    Spec.is_ceiling (Z.of_nat (List.length [10; 20; 30; 40; 50]%Z)) 2 (total_pages d).
Proof.
  apply (paginate_data_slice Z [10; 20; 30; 40; 50]%Z 2 2); lia.
Defined.

Lemma pagination_partition_witness :
  let n := Spec.page_count [10; 20; 30; 40; 50]%Z 2 in
  List.concat (map (fun p => Spec.page_items [10; 20; 30; 40; 50]%Z p 2) (Spec.page_numbers n))
    = [10; 20; 30; 40; 50]%Z /\
  (forall p, (1 <= p < n)%Z ->
     Z.of_nat (List.length (Spec.page_items [10; 20; 30; 40; 50]%Z p 2)) = 2%Z) /\
  ((1 <= n)%Z ->
     (1 <= Z.of_nat (List.length (Spec.page_items [10; 20; 30; 40; 50]%Z n 2)) <= 2)%Z) /\
  (forall p, (1 <= p)%Z ->
     exists d, paginate_data [10; 20; 30; 40; 50]%Z p 2 = Ok d /\ total_pages d = n).
Proof.
  apply (pagination_partition Z [10; 20; 30; 40; 50]%Z 2); lia.
Defined.

(** *** What create and delete do to the emails *)

Lemma all_distinct_snoc : forall l x,
  Spec.all_distinct (l ++ [x])%list =
  Spec.all_distinct l && negb (existsb (fun y => py_eq y x) l).
Proof.
  induction l as [| a l IH]; intros x; cbn [Spec.all_distinct app existsb].
  - reflexivity.
  - rewrite IH, existsb_app. cbn [existsb]. rewrite orb_false_r.
    destruct (existsb (py_eq a) l), (py_eq a x), (Spec.all_distinct l),
             (existsb (fun y => py_eq y x) l); reflexivity.
Qed.

Lemma py_eq_none_right : forall v, truthy v = true -> py_eq v VNone = false.
Proof.
  intros v H. destruct v; try reflexivity. discriminate.
Qed.

Lemma first_such_none : forall pred coll,
  first_such pred coll = Ok None -> Forall (fun x => pred x = Ok false) coll.
Proof.
  intros pred coll. induction coll as [| x rest IH]; cbn [first_such]; intros H.
  - constructor.
  - destruct (pred x) as [[|] | e] eqn:E; cbn [bind] in H; try discriminate.
    constructor; [exact E | now apply IH].
Qed.

Lemma first_such_some : forall pred coll x,
  first_such pred coll = Ok (Some x) -> In x coll.
Proof.
  intros pred coll x. induction coll as [| y rest IH]; cbn [first_such]; intros H.
  - discriminate.
  - destruct (pred y) as [[|] | e]; cbn [bind] in H; try discriminate.
    + injection H as <-. now left.
    + right. now apply IH.
Qed.

Lemma well_formed_found : forall st r,
  Spec.users_well_formed st = true ->
  (forall x, r = Some x -> In x (SAMPLE_USERS st)) ->
  found r = false -> r = None.
Proof.
  intros st r Hwf Hin Hf. destruct r as [x |]; [| reflexivity].
  unfold Spec.users_well_formed in Hwf. rewrite forallb_forall in Hwf.
  specialize (Hwf x (Hin x eq_refl)). unfold Spec.user_well_formed in Hwf.
  destruct x; [discriminate Hwf | discriminate Hf].
Qed.

(** When the validator lets a new user through, its email is a string
    that no stored user has. *)
Lemma validate_user_data_email : forall st fields,
  Spec.users_well_formed st = true ->
  validate_user_data st fields false VNone = Ok valid ->
  exists s,
    dict_get "email" fields = Some (VStr s) /\
    existsb (fun e => py_eq e (VStr s)) (Spec.user_emails st) = false.
Proof.
  intros st fields Hwf. unfold validate_user_data. cbn [negb andb].
  destruct (truthy (dict_get_none "name" fields)); cbn [negb]; [| discriminate].
  destruct (truthy (dict_get_none "email" fields)) eqn:Hemail; cbn [negb]; [| discriminate].
  destruct (name_error fields); [discriminate |].
  unfold dict_get_none, dict_get_default in Hemail.
  destruct (dict_get "email" fields) as [email |]; [| discriminate].
  destruct email as [| | | s | |]; cbn [bind]; try discriminate.
  destruct (Re.match_to_end Re.email_pattern s); cbn [negb bind]; [| discriminate].
  destruct (first_such (same_email_other_user s VNone) (SAMPLE_USERS st))
    as [r | e] eqn:Hfirst; cbn [bind]; [| discriminate].
  destruct (found r) eqn:Hfound; cbn [bind]; [discriminate |].
  intros _. exists s. split; [reflexivity |].
  assert (Hr : r = None).
  { apply (well_formed_found st); auto.
    intros x ->. now apply first_such_some in Hfirst. }
  subst r. apply first_such_none in Hfirst.
  unfold Spec.users_well_formed in Hwf. rewrite forallb_forall in Hwf.
  unfold Spec.user_emails.
  rewrite Forall_forall in Hfirst.
  destruct (existsb (fun e => py_eq e (VStr s))
              (map (dict_get_none "email") (SAMPLE_USERS st))) eqn:E; [| reflexivity].
  apply existsb_exists in E. destruct E as [e [Hin He]].
  apply in_map_iff in Hin. destruct Hin as [u [<- Hu]].
  specialize (Hfirst u Hu). specialize (Hwf u Hu).
  unfold same_email_other_user, dict_index in Hfirst.
  unfold Spec.user_well_formed in Hwf.
  unfold dict_get_none, dict_get_default in He.
  destruct (dict_get "email" u) as [e |]; [| discriminate].
  cbn [bind] in Hfirst. rewrite He in Hfirst.
  destruct (dict_get "id" u) as [i |]; [| discriminate].
  cbn [bind] in Hfirst. rewrite Hwf in Hfirst. discriminate.
Qed.

Lemma assign_id_not_none : forall fuel st entity_type prefix collection fields new_id,
  assign_id fuel st entity_type prefix collection fields = Done (inr new_id) ->
  py_eq new_id VNone = false.
Proof.
  intros fuel st entity_type prefix collection fields new_id. unfold assign_id.
  destruct (truthy (dict_get_none "id" fields)) eqn:Hid.
  - destruct (check_duplicate_id st entity_type (dict_get_none "id" fields) VNone)
      as [[ok msg] | e]; cbn [lift and_then]; [| discriminate].
    destruct ok; cbn [negb]; [| discriminate].
    intros H. injection H as <-. now apply py_eq_none_right.
  - destruct (auto_generate_id fuel prefix collection); cbn [and_then]; try discriminate.
    intros H. injection H as <-. reflexivity.
Qed.

(** Appending a user that went through the validator keeps the emails
    pairwise distinct. *)
Lemma append_user_keeps_emails_unique : forall clk st fields user_id user,
  Spec.users_well_formed st = true ->
  Spec.emails_unique st = true ->
  validate_user_data st fields false VNone = Ok valid ->
  py_eq user_id VNone = false ->
  new_user clk st user_id fields = Ok user ->
  Spec.emails_unique (append_user st user) = true /\
  Spec.users_well_formed (append_user st user) = true.
Proof.
  intros clk st fields user_id user Hwf Huniq Hvalid Hid Hnew.
  destruct (validate_user_data_email st fields Hwf Hvalid) as [s [Hs Hfresh]].
  unfold new_user, dict_index in Hnew. rewrite Hs in Hnew.
  destruct (dict_get "name" fields) as [name |]; cbn [bind] in Hnew; [| discriminate].
  injection Hnew as Huser.
  assert (He : dict_get "email" user = Some (VStr s)) by (now rewrite <- Huser).
  assert (Hi : dict_get "id" user = Some user_id) by (now rewrite <- Huser).
  clear Huser.
  assert (Hemails : Spec.user_emails (append_user st user)
                    = (Spec.user_emails st ++ [VStr s])%list).
  { unfold Spec.user_emails, append_user. cbn [SAMPLE_USERS].
    rewrite map_app. cbn [map]. unfold dict_get_none, dict_get_default.
    now rewrite He. }
  split.
  - unfold Spec.emails_unique in *. rewrite Hemails, all_distinct_snoc, Huniq, Hfresh.
    reflexivity.
  - unfold Spec.users_well_formed in *. unfold append_user. cbn [SAMPLE_USERS].
    rewrite forallb_app, Hwf. cbn [forallb]. unfold Spec.user_well_formed.
    rewrite He, Hi, Hid. reflexivity.
Qed.

(** A verdict that passes carries no message. *)
Lemma validate_user_data_verdict : forall st fields is_update exclude msg,
  validate_user_data st fields is_update exclude = Ok (true, msg) -> msg = None.
Proof.
  intros st fields is_update exclude msg. unfold validate_user_data, invalid, valid.
  destruct (negb is_update && negb (truthy (dict_get_none "name" fields)));
    [discriminate |].
  destruct (negb is_update && negb (truthy (dict_get_none "email" fields)));
    [discriminate |].
  destruct (name_error fields); [discriminate |].
  match goal with |- bind ?m _ = _ -> _ => destruct m as [[? |] | ?] end;
    cbn [bind]; try discriminate.
  match goal with |- bind ?m _ = _ -> _ => destruct m as [[? |] | ?] end;
    cbn [bind]; try discriminate.
  match goal with |- (if ?c then _ else _) = _ -> _ => destruct c end;
    [discriminate |].
  intros H. injection H as <-. reflexivity.
Qed.

(** A create on the users keeps the emails pairwise distinct. *)
Lemma handle_users_post_keeps_emails_unique : forall clk fuel st data st' resp,
  Spec.users_well_formed st = true ->
  Spec.emails_unique st = true ->
  handle_users_post clk fuel st data = Done (st', resp) ->
  Spec.emails_unique st' = true /\ Spec.users_well_formed st' = true.
Proof.
  intros clk fuel st data st' resp Hwf Huniq. unfold handle_users_post.
  destruct (validate_json_payload data) as [ok msg].
  destruct ok; cbn [negb];
    [| intros H; injection H as <- _; now split].
  destruct data as [| | | | | fields]; try discriminate.
  destruct (validate_user_data st fields false VNone) as [[ok' msg'] | e] eqn:Hvalid;
    cbn [lift and_then]; [| discriminate].
  destruct ok'; cbn [negb];
    [| intros H; injection H as <- _; now split].
  destruct (assign_id fuel st "user" "USER" (SAMPLE_USERS st) fields)
    as [[err | user_id] | e |] eqn:Hassign; cbn [and_then]; try discriminate.
  - intros H; injection H as <- _; now split.
  - destruct (new_user clk st user_id fields) as [user | e] eqn:Hnew;
      cbn [lift and_then]; [| discriminate].
    intros H. injection H as <- _.
    apply (append_user_keeps_emails_unique clk st fields user_id user); auto.
    + rewrite (validate_user_data_verdict _ _ _ _ _ Hvalid) in Hvalid. exact Hvalid.
    + now apply assign_id_not_none in Hassign.
Qed.

Lemma create_user_op_keeps_emails_unique : forall clk fuel st i op st' entry,
  Spec.users_well_formed st = true ->
  Spec.emails_unique st = true ->
  create_user_op clk fuel st i op = Done (st', entry) ->
  Spec.emails_unique st' = true /\ Spec.users_well_formed st' = true.
Proof.
  intros clk fuel st i op st' entry Hwf Huniq. unfold create_user_op.
  destruct (dict_index "data" op) as [data | e]; cbn [lift and_then]; [| discriminate].
  destruct data as [| | | | | fields]; try discriminate.
  destruct (validate_user_data st fields false VNone) as [[ok msg] | e] eqn:Hvalid;
    cbn [lift and_then]; [| discriminate].
  destruct ok; cbn [negb];
    [| intros H; injection H as <- _; now split].
  destruct (assign_id fuel st "user" "USER" (SAMPLE_USERS st) fields)
    as [[err | user_id] | e |] eqn:Hassign; cbn [and_then]; try discriminate.
  - intros H; injection H as <- _; now split.
  - destruct (new_user clk st user_id fields) as [user | e] eqn:Hnew;
      cbn [lift and_then]; [| discriminate].
    intros H. injection H as <- _.
    apply (append_user_keeps_emails_unique clk st fields user_id user); auto.
    + rewrite (validate_user_data_verdict _ _ _ _ _ Hvalid) in Hvalid. exact Hvalid.
    + now apply assign_id_not_none in Hassign.
Qed.

(** The loop of a batch keeps whatever every create operation keeps. *)
Lemma batch_loop_invariant : forall (Inv : store -> Prop) create_op,
  (forall st i op st' entry, Inv st -> create_op st i op = Done (st', entry) -> Inv st') ->
  forall ops i st results st' results',
    Inv st ->
    batch_loop create_op i ops st results = Done (st', results') ->
    Inv st'.
Proof.
  intros Inv create_op Hstep. induction ops as [| op rest IH];
    intros i st results st' results' Hinv; cbn [batch_loop].
  - intros H. injection H as <- _. exact Hinv.
  - destruct op as [| | | | | fields]; try discriminate.
    destruct (dict_index "action" fields) as [action | e]; cbn [lift and_then];
      [| discriminate].
    destruct (py_eq action (VStr "create")).
    + destruct (create_op st i fields) as [[st1 entry] | e |] eqn:Hop.
      * apply IH. now apply (Hstep st i fields st1 entry).
      * now apply IH.
      * discriminate.
    + now apply IH.
Qed.

Lemma batch_endpoint_invariant : forall (Inv : store -> Prop) create_op,
  (forall st i op st' entry, Inv st -> create_op st i op = Done (st', entry) -> Inv st') ->
  forall st data st' resp,
    Inv st -> batch_endpoint create_op st data = Done (st', resp) -> Inv st'.
Proof.
  intros Inv create_op Hstep st data st' resp Hinv. unfold batch_endpoint.
  destruct (validate_json_payload data) as [ok msg].
  destruct ok; cbn [negb]; [| intros H; injection H as <- _; exact Hinv].
  destruct data as [| | | | | fields]; try discriminate.
  destruct (validate_batch_operations (dict_get_default "operations" (VList []) fields))
    as [ok msg'].
  destruct ok; cbn [negb]; [| intros H; injection H as <- _; exact Hinv].
  destruct (dict_get_default "operations" (VList []) fields) as [| | | | ops |];
    try discriminate.
  destruct (batch_loop create_op 0 ops st []) as [[st1 results] | e |] eqn:Hloop;
    cbn [and_then]; try discriminate.
  intros H. injection H as <- _.
  now apply (batch_loop_invariant Inv create_op Hstep ops 0 st [] st1 results).
Qed.

(** A batch of creates on the users keeps the emails pairwise distinct. *)
Lemma batch_users_keeps_emails_unique : forall clk fuel st data st' resp,
  Spec.users_well_formed st = true ->
  Spec.emails_unique st = true ->
  batch_users clk fuel st data = Done (st', resp) ->
  Spec.emails_unique st' = true /\ Spec.users_well_formed st' = true.
Proof.
  intros clk fuel st data st' resp Hwf Huniq Hrun.
  apply (batch_endpoint_invariant
           (fun s => Spec.emails_unique s = true /\ Spec.users_well_formed s = true)
           (create_user_op clk fuel)) with (st := st) (data := data) (resp := resp).
  - intros s i op s' entry [Hu Hw] Hop.
    now apply (create_user_op_keeps_emails_unique clk fuel s i op s' entry).
  - now split.
  - exact Hrun.
Qed.

Lemma existsb_after_remove : forall (g : value -> bool) (f : record -> value) item users,
  existsb g (map f (list_remove item users)) = true ->
  existsb g (map f users) = true.
Proof.
  intros g f item users. induction users as [| x rest IH]; cbn [list_remove map existsb].
  - trivial.
  - destruct (py_eq (VDict x) (VDict item)).
    + intros H. rewrite H. apply orb_true_r.
    + cbn [map existsb]. intros H. apply orb_true_iff in H.
      destruct H as [H | H]; [rewrite H; reflexivity |].
      rewrite (IH H). apply orb_true_r.
Qed.

Lemma all_distinct_after_remove : forall (f : record -> value) item users,
  Spec.all_distinct (map f users) = true ->
  Spec.all_distinct (map f (list_remove item users)) = true.
Proof.
  intros f item users. induction users as [| x rest IH];
    cbn [list_remove map Spec.all_distinct].
  - trivial.
  - intros H. apply andb_true_iff in H. destruct H as [Hx Hrest].
    destruct (py_eq (VDict x) (VDict item)); [exact Hrest |].
    cbn [map Spec.all_distinct]. rewrite (IH Hrest), andb_true_r.
    destruct (existsb (py_eq (f x)) (map f (list_remove item rest))) eqn:E;
      [| reflexivity].
    apply existsb_after_remove in E. rewrite E in Hx. discriminate.
Qed.

Lemma forallb_after_remove : forall (g : record -> bool) item users,
  forallb g users = true -> forallb g (list_remove item users) = true.
Proof.
  intros g item users. induction users as [| x rest IH]; cbn [list_remove forallb].
  - trivial.
  - intros H. apply andb_true_iff in H. destruct H as [Hx Hrest].
    destruct (py_eq (VDict x) (VDict item)); [exact Hrest |].
    cbn [forallb]. now rewrite Hx, (IH Hrest).
Qed.

(** A delete of a user keeps the emails pairwise distinct. *)
Lemma handle_user_delete_keeps_emails_unique : forall clk st user_id st' resp,
  Spec.users_well_formed st = true ->
  Spec.emails_unique st = true ->
  handle_user clk st user_id DELETE = Done (st', resp) ->
  Spec.emails_unique st' = true /\ Spec.users_well_formed st' = true.
Proof.
  intros clk st user_id st' resp Hwf Huniq. unfold handle_user.
  destruct (first_such (has_id (VStr user_id)) (SAMPLE_USERS st)) as [[user |] | e];
    cbn [lift and_then]; try discriminate.
  - destruct (negb (truthy (VDict user)));
      intros H; injection H as <- _; [now split |].
    unfold Spec.emails_unique, Spec.users_well_formed, Spec.user_emails, with_users in *.
    cbn [SAMPLE_USERS]. split.
    + now apply all_distinct_after_remove.
    + now apply forallb_after_remove.
  - intros H; injection H as <- _; now split.
Qed.

(** When the loop of a batch returns, it has appended one entry for each
    operation whose action is [create], and none for the others. *)
Lemma batch_loop_results_count : forall create_op ops i st results st' results',
  batch_loop create_op i ops st results = Done (st', results') ->
  List.length results' = List.length results + Spec.count_creates ops.
Proof.
  intros create_op. unfold Spec.count_creates.
  induction ops as [| op rest IH]; intros i st results st' results';
    cbn [batch_loop filter].
  - intros H. injection H as _ <-. cbn [List.length]. lia.
  - destruct op as [| | | | | fields]; try discriminate.
    unfold dict_index. cbn [Spec.is_create].
    destruct (dict_get "action" fields) as [action |]; cbn [lift and_then];
      [| discriminate].
    destruct (py_eq action (VStr "create")).
    + destruct (create_op st i fields) as [[st1 entry] | e |]; try discriminate;
        intros H; apply IH in H; rewrite H, length_app; cbn [List.length]; lia.
    + apply IH.
Qed.

(** *** Scenarios on the sample data *)

(** Resolving [a.b.c] finds the leaf; a missing key or a scalar on the
    way is not found. *)
Example field_accessor_paths :
  let r := VDict [("a", VDict [("b", VDict [("c", VStr "x")])])] in
  Spec.field_accessor r (py_split "." "a.b.c") = Some (VStr "x") /\
  Spec.field_accessor r (py_split "." "a.b.z") = None /\
  Spec.field_accessor (VDict [("a", VDict [("b", VStr "scalar")])])
    (py_split "." "a.b.c") = None.
Proof. repeat split. Qed.

(** The filter on the nested version keeps the ten organizations. *)
Example filter_by_version :
  filter_data (SAMPLE_ORGANIZATIONS initial_store) [("metadata.version", VStr "1.0.0")]
  = SAMPLE_ORGANIZATIONS initial_store.
Proof. vm_compute. reflexivity. Qed.

(** The comparison is on the text of the value: the number 10 matches
    the filter value 1. *)
Example filter_number_as_text :
  filter_data [[("count", VInt 10)]; [("count", VInt 25)]] [("count", VStr "1")]
  = [[("count", VInt 10)]].
Proof. vm_compute. reflexivity. Qed.

(** A query that occurs nowhere gives an empty page with total 0. *)
Example search_without_match :
  paginate_data
    (search_in_text (map VDict (SAMPLE_USERS initial_store)) "NonexistentXYZ") 1 10
  = Ok (mk_page [] 0 1 10 0).
Proof. vm_compute. reflexivity. Qed.

(** The name of a user is found whatever the case of the query. *)
Example search_by_name :
  map (dict_get "id")
      (filter_data
         (filter (fun u => _item_matches_query (VDict u) (py_lower "TEST USER 1-1"))
                 (SAMPLE_USERS initial_store))
         [("organization_id", VStr "org001")])
  = [Some (VStr "USER001_001"); Some (VStr "USER001_010")].
Proof. vm_compute. reflexivity. Qed.

(* ================================================================== *)
(** ** Further properties of the code *)
(* ================================================================== *)

(** *** Pagination outside the validated range *)

Lemma slice_is_segment : forall (A : Type) (l : list A) (start stop : Z),
  exists a n, py_slice l start stop = firstn n (skipn a l).
Proof.
  intros A l start stop. unfold py_slice. eexists. eexists. reflexivity.
Qed.

Lemma slice_length_bound : forall (A : Type) (l : list A) (start size : Z),
  (1 <= size)%Z ->
  (Z.of_nat (List.length (py_slice l start (start + size))) <= size)%Z.
Proof.
  intros A l start size Hsize. unfold py_slice, slice_index.
  rewrite length_firstn, length_skipn.
  destruct (start <? 0)%Z eqn:E1; destruct (start + size <? 0)%Z eqn:E2;
    (apply Z.ltb_lt in E1 || apply Z.ltb_ge in E1);
    (apply Z.ltb_lt in E2 || apply Z.ltb_ge in E2); lia.
Qed.

Lemma slice_up_to_zero : forall (A : Type) (l : list A) (start : Z),
  py_slice l start 0 = [].
Proof.
  intros A l start. unfold py_slice, slice_index.
  match goal with |- firstn ?n _ = _ => replace n with 0%nat; [reflexivity |] end.
  destruct (start <? 0)%Z eqn:E1; destruct (0 <? 0)%Z eqn:E2;
    (apply Z.ltb_lt in E1 || apply Z.ltb_ge in E1);
    (apply Z.ltb_lt in E2 || apply Z.ltb_ge in E2); lia.
Qed.

Lemma slice_from_zero_to_negative : forall (A : Type) (l : list A) (stop : Z),
  (stop < 0)%Z ->
  py_slice l 0 stop = firstn (Z.to_nat (Z.of_nat (List.length l) + stop)) l.
Proof.
  intros A l stop H. unfold py_slice, slice_index.
  destruct (stop <? 0)%Z eqn:E; [| apply Z.ltb_ge in E; lia].
  change (0 <? 0)%Z with false. cbv iota.
  replace (Z.to_nat (Z.min 0 (Z.of_nat (List.length l)))) with 0%nat by lia.
  cbn [skipn]. f_equal. lia.
Qed.

(** X1. [paginate_data] raises exactly when the page size is 0, the
    division by zero of the page count. With any other page size and any
    page number, also zero or negative ones, it returns a run of
    consecutive items of the sequence: at most [per_page] of them when
    the page size is positive, none when the page number is 0, and, for
    page 1 with a negative page size, all the items but the last
    [- per_page] ones. *)
Theorem paginate_data_edge_cases : forall (A : Type) (data : list A) (p s : Z),
  (s = 0%Z -> paginate_data data p s = Raise ZeroDivisionError) /\
  (s <> 0%Z ->
   exists d,
     paginate_data data p s = Ok d /\
     (exists a n, items d = firstn n (skipn a data)) /\
     ((1 <= s)%Z -> (Z.of_nat (List.length (items d)) <= s)%Z) /\
     (p = 0%Z -> items d = []) /\
     (p = 1%Z -> (s < 0)%Z ->
      items d = firstn (Z.to_nat (Z.of_nat (List.length data) + s)) data) /\
     total d = Z.of_nat (List.length data)).
Proof.
  intros A data p s. split.
  - intros ->. reflexivity.
  - intros Hs. unfold paginate_data, floordiv.
    destruct (s =? 0)%Z eqn:E; [apply Z.eqb_eq in E; contradiction |].
    cbn [bind]. eexists. split; [reflexivity |]. cbn [items total].
    split; [apply slice_is_segment |].
    split; [apply slice_length_bound |].
    split; [| split; [| reflexivity]].
    + intros ->. replace ((0 - 1) * s + s)%Z with 0%Z by lia. apply slice_up_to_zero.
    + intros -> Hneg. replace ((1 - 1) * s)%Z with 0%Z by lia.
      now apply slice_from_zero_to_negative.
Qed.

(** X2. For a page number and a page size that are at least 1, a page is
    empty exactly when its number is beyond the number of pages that the
    paginator reports. *)
Theorem page_is_empty_beyond_total_pages : forall (A : Type) (data : list A) (p s : Z),
  (1 <= p)%Z -> (1 <= s)%Z ->
  exists d,
    paginate_data data p s = Ok d /\
    (items d = [] <-> (total_pages d < p)%Z).
Proof.
  intros A data p s Hp Hs. eexists. split; [apply paginate_data_ok; assumption |].
  cbn [items total_pages].
  pose proof (page_items_length data p s Hp Hs) as Hlen.
  rewrite page_items_window in Hlen by assumption.
  rewrite slice_window by assumption.
  destruct (ceiling_formula (Z.of_nat (List.length data)) s) as [Hup Hleast];
    [lia | assumption |].
  set (n := ((Z.of_nat (List.length data) + s - 1) / s)%Z) in *.
  split.
  - intros Hempty. rewrite Hempty in Hlen. cbn [List.length] in Hlen.
    assert (Hle : (Z.of_nat (List.length data) <= (p - 1) * s)%Z) by lia.
    apply Hleast in Hle. lia.
  - intros Hbeyond. apply length_zero_iff_nil.
    assert (Hle : (n * s <= (p - 1) * s)%Z) by nia.
    lia.
Qed.

Lemma page_is_empty_beyond_total_pages_witness :
  exists d,
    paginate_data [10; 20; 30; 40; 50]%Z 4 2 = Ok d /\
    (items d = [] <-> (total_pages d < 4)%Z).
Proof.
  apply (page_is_empty_beyond_total_pages Z [10; 20; 30; 40; 50]%Z 4 2); lia.
Defined.

(** *** Filters: order, empty values, missing fields *)




Lemma py_in_empty_needle : forall hay, py_in "" hay = true.
Proof.
  intros hay. destruct hay; reflexivity.
Qed.

Lemma py_in_empty_hay : forall needle, py_in needle "" = true -> needle = "".
Proof.
  intros needle. destruct needle; [reflexivity | discriminate].
Qed.

Lemma py_lower_empty : forall s, py_lower s = "" -> s = "".
Proof.
  intros s. destruct s; [reflexivity | discriminate].
Qed.

(** X4. A filter whose value is the empty string: under a key without a
    dot it keeps every record, also those that do not have the field;
    under a dotted key it keeps exactly the records in which the path
    resolves. *)
Theorem filter_data_empty_value : forall (data : list record) (key : string),
  filter_data data [(key, VStr "")] =
  if has_char "." key then filter (fun item => Inv.resolves item key) data else data.
Proof.
  intros data key. rewrite filter_data_satisfies_all.
  unfold Spec.satisfies_all. cbn [forallb fst snd].
  destruct (has_char "." key) eqn:Hdot.
  - apply filter_ext. intros item. unfold Spec.filter_matches, Inv.resolves.
    rewrite Hdot. rewrite andb_true_r.
    destruct (Spec.field_accessor (VDict item) (py_split "." key)); [| reflexivity].
    unfold Spec.contains_ci. apply py_in_empty_needle.
  - induction data as [| item rest IH]; [reflexivity |]. cbn [filter].
    unfold Spec.filter_matches at 1. rewrite Hdot.
    assert (H : forall hay, Spec.contains_ci hay (py_str (VStr "")) = true)
      by (intros hay; apply py_in_empty_needle).
    destruct (dict_get key item); rewrite H; cbn [andb]; now rewrite IH.
Qed.

(** X5. A filter under a key without a dot whose value has a non-empty
    text drops every record that does not have the field: the records
    that it keeps all have it. *)
Theorem filter_data_drops_missing_field : forall (data : list record) (key : string)
  (expected : value) (item : record),
  has_char "." key = false ->
  py_str expected <> "" ->
  In item (filter_data data [(key, expected)]) ->
  dict_has key item = true.
Proof.
  intros data key expected item Hdot Hne Hin.
  rewrite filter_data_satisfies_all in Hin. apply filter_In in Hin.
  destruct Hin as [_ Hsat]. unfold Spec.satisfies_all in Hsat.
  cbn [forallb fst snd] in Hsat. rewrite andb_true_r in Hsat.
  unfold Spec.filter_matches in Hsat. rewrite Hdot in Hsat.
  unfold dict_has. destruct (dict_get key item); [reflexivity |].
  unfold Spec.contains_ci in Hsat. cbn [py_lower] in Hsat.
  apply py_in_empty_hay, py_lower_empty in Hsat. contradiction.
Qed.

Lemma filter_data_drops_missing_field_witness :
  dict_has "email" (nth 0 (SAMPLE_USERS initial_store) []) = true.
Proof.
  apply (filter_data_drops_missing_field
           (SAMPLE_USERS initial_store ++ SAMPLE_ORGANIZATIONS initial_store)%list
           "email" (VStr "TEST1_1@") (nth 0 (SAMPLE_USERS initial_store) [])).
  - reflexivity.
  - discriminate.
  - vm_compute. left. reflexivity.
Defined.

(** *** Text search: a filter, monotone in the query *)

Lemma search_loop_appends : forall data q results,
  search_loop data q results =
  (results ++ filter (fun item => _item_matches_query item q) data)%list.
Proof.
  induction data as [| item rest IH]; intros q results; cbn [search_loop filter].
  - now rewrite app_nil_r.
  - destruct (_item_matches_query item q); rewrite IH; [| reflexivity].
    now rewrite <- app_assoc.
Qed.

Lemma search_in_text_filter : forall data q,
  search_in_text data q =
  if String.eqb q "" then data
  else filter (fun item => _item_matches_query item (py_lower q)) data.
Proof.
  intros data q. unfold search_in_text. cbn [truthy]. rewrite negb_involutive.
  destruct (String.eqb q ""); [reflexivity |]. apply search_loop_appends.
Qed.

(** X6. [search_in_text] keeps, in the order of the input, exactly the
    items that match the query in lower case, all of them when the query
    is empty; searching the result again with the same query changes
    nothing. *)
Theorem search_in_text_is_a_filter : forall (data : list value) (query : string),
  search_in_text data query =
    (if String.eqb query "" then data
     else filter (fun item => _item_matches_query item (py_lower query)) data) /\
  search_in_text (search_in_text data query) query = search_in_text data query.
Proof.
  intros data query. split; [apply search_in_text_filter |].
  rewrite !search_in_text_filter. destruct (String.eqb query ""); [reflexivity |].
  rewrite filter_twice. apply filter_ext. intros item. apply andb_diag.
Qed.

Lemma append_assoc' : forall a b c : string, ((a ++ b) ++ c = a ++ (b ++ c))%string.
Proof.
  induction a as [| x a IH]; intros b c; cbn [append]; [reflexivity | now rewrite IH].
Qed.

Lemma prefix_iff : forall a b : string,
  String.prefix a b = true <-> exists rest, b = (a ++ rest)%string.
Proof.
  induction a as [| x a IH]; intros b.
  - split; [intros _; exists b; reflexivity | intros _; destruct b; reflexivity].
  - destruct b as [| y b]; cbn [String.prefix append].
    + split; [discriminate | intros [rest H]; discriminate].
    + destruct (Ascii.ascii_dec x y) as [-> | Hne].
      * rewrite IH. split; intros [rest H]; exists rest.
        -- now rewrite H.
        -- now injection H.
      * split; [discriminate |]. intros [rest H]. injection H as H1 _. congruence.
Qed.

Lemma py_in_iff : forall needle hay : string,
  py_in needle hay = true <->
  exists before after, hay = (before ++ needle ++ after)%string.
Proof.
  intros needle hay. induction hay as [| c hay IH]; cbn [py_in].
  - destruct (String.prefix needle "") eqn:E.
    + split; [intros _ | reflexivity]. apply prefix_iff in E. destruct E as [rest H].
      exists "", rest. exact H.
    + split; [discriminate |]. intros [before [after H]].
      destruct before; [| discriminate]. cbn [append] in H.
      assert (E' : String.prefix needle "" = true)
        by (apply prefix_iff; now exists after).
      congruence.
  - destruct (String.prefix needle (String c hay)) eqn:E.
    + split; [intros _ | reflexivity]. apply prefix_iff in E. destruct E as [rest H].
      exists "", rest. exact H.
    + rewrite IH. split.
      * intros [before [after H]]. exists (String c before), after. now rewrite H.
      * intros [before [after H]]. destruct before as [| x before].
        -- cbn [append] in H.
           assert (E' : String.prefix needle (String c hay) = true)
             by (apply prefix_iff; now exists after).
           congruence.
        -- cbn [append] in H. injection H as _ H. now exists before, after.
Qed.

Lemma py_in_transitive : forall a b c : string,
  py_in a b = true -> py_in b c = true -> py_in a c = true.
Proof.
  intros a b c Hab Hbc. apply py_in_iff in Hab. apply py_in_iff in Hbc.
  destruct Hab as [p [s ->]]. destruct Hbc as [p' [s' ->]].
  apply py_in_iff. exists (p' ++ p)%string, (s ++ s')%string.
  now rewrite !append_assoc'.
Qed.

Lemma matches_weaker_query : forall q q' item,
  py_in q' q = true ->
  _item_matches_query item q = true -> _item_matches_query item q' = true.
Proof.
  intros q q' item Hq.
  induction item as [| b | n | s | l IH | d IH] using value_induction;
    try discriminate.
  - cbn [_item_matches_query]. intros H. now apply (py_in_transitive q' q).
  - rewrite !matches_list. intros H. apply existsb_exists in H.
    destruct H as [x [Hin Hx]]. apply existsb_exists. exists x. split; [exact Hin |].
    rewrite Forall_forall in IH. now apply IH.
  - rewrite !matches_dict. intros H. apply existsb_exists in H.
    destruct H as [[k v] [Hin Hv]]. apply existsb_exists. exists (k, v).
    split; [exact Hin |]. rewrite Forall_forall in IH. specialize (IH _ Hin).
    cbn [snd] in *. destruct v; try discriminate.
    + cbn [Spec.field_hit] in *. now apply (py_in_transitive q' q).
    + exact (IH Hv).
    + exact (IH Hv).
Qed.

(** X7. Shortening the query never loses a result: when the text of a
    query occurs, whatever the case, in the text of another one, every
    item that the longer query finds is found by the shorter one. *)
Theorem search_in_text_monotone : forall (data : list value) (query query' : string)
  (item : value),
  py_in (py_lower query') (py_lower query) = true ->
  In item (search_in_text data query) ->
  In item (search_in_text data query').
Proof.
  intros data query query' item Hq. rewrite !search_in_text_filter.
  destruct (String.eqb query' "") eqn:E'.
  - destruct (String.eqb query ""); [trivial |].
    intros H. now apply filter_In in H.
  - destruct (String.eqb query "") eqn:E.
    + apply String.eqb_eq in E. subst query. cbn [py_lower] in Hq.
      apply py_in_empty_hay, py_lower_empty in Hq. subst query'. discriminate.
    + intros H. apply filter_In in H. destruct H as [Hin Hm].
      apply filter_In. split; [exact Hin |].
      now apply (matches_weaker_query (py_lower query)).
Qed.

Lemma search_in_text_monotone_witness :
  In (VDict (nth 9 (SAMPLE_USERS initial_store) []))
     (search_in_text (map VDict (SAMPLE_USERS initial_store)) "USER 1-1").
Proof.
  apply (search_in_text_monotone (map VDict (SAMPLE_USERS initial_store))
           "Test User 1-10" "USER 1-1").
  - reflexivity.
  - vm_compute. left. reflexivity.
Defined.

(** *** Advanced search *)

Lemma records_of_dicts : forall l : list record, records_of (map VDict l) = l.
Proof.
  induction l as [| x l IH]; [reflexivity |].
  unfold records_of in *. cbn [map flat_map app]. now rewrite IH.
Qed.

Lemma filter_of_map : forall (A B : Type) (f : A -> B) (p : B -> bool) (l : list A),
  filter p (map f l) = map f (filter (fun x => p (f x)) l).
Proof.
  intros A B f p l. induction l as [| x l IH]; [reflexivity |].
  cbn [map filter]. destruct (p (f x)); cbn [map]; now rewrite IH.
Qed.

Lemma search_records : forall (collection : list record) (query : string),
  records_of (search_in_text (map VDict collection) query) =
  if String.eqb query "" then collection
  else filter (fun r => _item_matches_query (VDict r) (py_lower query)) collection.
Proof.
  intros collection query. rewrite search_in_text_filter.
  destruct (String.eqb query ""); [apply records_of_dicts |].
  rewrite filter_of_map. apply records_of_dicts.
Qed.

(** X8. In each block of [advanced_search] the text search runs before
    the filters, and the order does not matter: filtering first and
    searching the filtered records gives the same tagged records. *)
Theorem search_then_filter_commute : forall (collection : list record) (query : string)
  (filters : dict) (tag : string),
  search_collection collection query (VDict filters) tag =
  Ok (map (dict_set "type" (VStr tag))
          (records_of (search_in_text (map VDict (filter_data collection filters)) query))).
Proof.
  intros collection query filters tag. unfold search_collection. f_equal. f_equal.
  rewrite !search_records. cbn [truthy].
  destruct (String.eqb query "") eqn:E; cbn [negb].
  - reflexivity.
  - rewrite !filter_data_satisfies_all, !filter_twice.
    apply filter_ext. intros item. apply andb_comm.
Qed.







(** *** Structural validation of a batch *)

Lemma well_formed_operation_passes : forall i op rest,
  Inv.well_formed_operation op = true ->
  validate_each_operation i (op :: rest) = validate_each_operation (S i) rest.
Proof.
  intros i op rest H. unfold Inv.well_formed_operation in H.
  destruct op as [| | | | | fields]; try discriminate.
  cbn [validate_each_operation].
  destruct (dict_get "action" fields) as [action |]; [| discriminate].
  destruct (dict_get "data" fields) as [[| | | | | d] |]; try discriminate.
  rewrite H. reflexivity.
Qed.

Lemma ill_formed_operation_fails : forall i op rest,
  Inv.well_formed_operation op = false ->
  exists msg,
    validate_each_operation i (op :: rest)
    = invalid ("Operation " ++ str_of_nat (i + 1) ++ ": " ++ msg).
Proof.
  intros i op rest H. unfold Inv.well_formed_operation in H.
  cbn [validate_each_operation].
  destruct op as [| | | | | fields]; try (eexists; reflexivity).
  destruct (dict_get "action" fields) as [action |]; [| eexists; reflexivity].
  destruct (existsb (fun a => py_eq action (VStr a)) ["create"; "update"; "delete"]);
    cbn [negb]; [| eexists; reflexivity].
  destruct (dict_get "data" fields) as [[| | | | | d] |];
    try discriminate; eexists; reflexivity.
Qed.

Lemma validate_each_operation_all : forall ops i,
  validate_each_operation i ops = valid <-> forallb Inv.well_formed_operation ops = true.
Proof.
  induction ops as [| op rest IH]; intros i; [split; reflexivity |].
  cbn [forallb]. destruct (Inv.well_formed_operation op) eqn:Hop.
  - rewrite well_formed_operation_passes by exact Hop. cbn [andb]. apply IH.
  - destruct (ill_formed_operation_fails i op rest Hop) as [msg ->].
    split; discriminate.
Qed.

Lemma validate_each_operation_first_bad : forall good i bad rest,
  forallb Inv.well_formed_operation good = true ->
  Inv.well_formed_operation bad = false ->
  exists msg,
    validate_each_operation i (good ++ bad :: rest)%list
    = invalid ("Operation " ++ str_of_nat (i + List.length good + 1) ++ ": " ++ msg).
Proof.
  induction good as [| op good IH]; intros i bad rest Hgood Hbad.
  - cbn [app List.length]. rewrite Nat.add_0_r.
    now apply ill_formed_operation_fails.
  - cbn [forallb] in Hgood. apply andb_true_iff in Hgood. destruct Hgood as [Hop Hgood].
    cbn [app]. rewrite well_formed_operation_passes by exact Hop.
    destruct (IH (S i) bad rest Hgood Hbad) as [msg Hmsg]. exists msg.
    rewrite Hmsg. cbn [List.length].
    replace (i + S (List.length good) + 1) with (S i + List.length good + 1) by lia.
    reflexivity.
Qed.

(** X11. The structural validation of a batch accepts exactly the lists
    of 1 to 50 operations in which every operation is an object whose
    action is create, update or delete and whose data is an object. *)
Theorem validate_batch_operations_accepts : forall operations : value,
  validate_batch_operations operations = valid <->
  exists ops,
    operations = VList ops /\
    (1 <= List.length ops <= 50)%nat /\
    forallb Inv.well_formed_operation ops = true.
Proof.
  intros operations. split.
  - destruct operations as [| | | | ops |]; try discriminate.
    cbn [validate_batch_operations].
    destruct (List.length ops =? 0)%nat eqn:E0; [discriminate |].
    destruct (50 <? List.length ops)%nat eqn:E50; [discriminate |].
    intros H. exists ops. apply Nat.eqb_neq in E0. apply Nat.ltb_ge in E50.
    split; [reflexivity |]. split; [lia |]. now apply validate_each_operation_all in H.
  - intros [ops [-> [[Hlo Hhi] Hall]]]. cbn [validate_batch_operations].
    destruct (List.length ops =? 0)%nat eqn:E0; [apply Nat.eqb_eq in E0; lia |].
    destruct (50 <? List.length ops)%nat eqn:E50; [apply Nat.ltb_lt in E50; lia |].
    now apply validate_each_operation_all.
Qed.

(** X12. A batch of at most 50 operations is rejected as a whole on its
    first ill-formed operation: both batch endpoints answer 400 with a
    message that starts with the position of that operation, counted
    from 1, and leave the collections as they were, whatever the
    operations before and after it. *)
Theorem batch_rejected_on_first_ill_formed_operation :
  forall clk fuel st fields good bad rest,
    dict_get "operations" fields = Some (VList (good ++ bad :: rest)%list) ->
    (List.length (good ++ bad :: rest)%list <= 50)%nat ->
    forallb Inv.well_formed_operation good = true ->
    Inv.well_formed_operation bad = false ->
    exists msg,
      batch_organizations clk fuel st (VDict fields)
        = Done (st, error_response
                      (Some ("Operation " ++ str_of_nat (List.length good + 1) ++ ": " ++ msg))
                      400) /\
      batch_users clk fuel st (VDict fields)
        = Done (st, error_response
                      (Some ("Operation " ++ str_of_nat (List.length good + 1) ++ ": " ++ msg))
                      400).
Proof.
  intros clk fuel st fields good bad rest Hops Hlen Hgood Hbad.
  destruct (validate_each_operation_first_bad good 0 bad rest Hgood Hbad) as [msg Hmsg].
  cbn [Nat.add] in Hmsg. exists msg.
  assert (Hbadlist : validate_batch_operations (VList (good ++ bad :: rest)%list)
                     = invalid ("Operation " ++ str_of_nat (List.length good + 1)
                                ++ ": " ++ msg)).
  { cbn [validate_batch_operations].
    destruct (List.length (good ++ bad :: rest)%list =? 0)%nat eqn:E0.
    - apply Nat.eqb_eq in E0. rewrite length_app in E0. cbn [List.length] in E0. lia.
    - destruct (50 <? List.length (good ++ bad :: rest)%list)%nat eqn:E50;
        [apply Nat.ltb_lt in E50; lia | exact Hmsg]. }
  split; now apply batch_endpoint_rejects with (ops := (good ++ bad :: rest)%list).
Qed.

Lemma batch_rejected_on_first_ill_formed_operation_witness :
  exists msg,
    batch_organizations Scenario.clock 2 initial_store
      (VDict [("operations",
               VList ([Scenario.create "First"; Scenario.delete "ORG001"]
                      ++ VStr "oops" :: [Scenario.create "Last"])%list)])
      = Done (initial_store,
              error_response
                (Some ("Operation "
                       ++ str_of_nat
                            (List.length [Scenario.create "First"; Scenario.delete "ORG001"] + 1)
                       ++ ": " ++ msg)) 400) /\
    batch_users Scenario.clock 2 initial_store
      (VDict [("operations",
               VList ([Scenario.create "First"; Scenario.delete "ORG001"]
                      ++ VStr "oops" :: [Scenario.create "Last"])%list)])
      = Done (initial_store,
              error_response
                (Some ("Operation "
                       ++ str_of_nat
                            (List.length [Scenario.create "First"; Scenario.delete "ORG001"] + 1)
                       ++ ": " ++ msg)) 400).
Proof.
  apply (batch_rejected_on_first_ill_formed_operation Scenario.clock 2 initial_store
           [("operations",
             VList ([Scenario.create "First"; Scenario.delete "ORG001"]
                    ++ VStr "oops" :: [Scenario.create "Last"])%list)]
           [Scenario.create "First"; Scenario.delete "ORG001"]
           (VStr "oops") [Scenario.create "Last"]).
  - reflexivity.
  - cbn. lia.
  - reflexivity.
  - reflexivity.
Defined.

(** *** What a batch does to the collections *)

Lemma create_organization_op_outcome : forall clk fuel st i op st' entry,
  create_organization_op clk fuel st i op = Done (st', entry) ->
  (st' = st /\ exists msg, entry = error_entry i msg) \/
  (exists org, st' = append_organization st org /\ entry = success_entry org).
Proof.
  intros clk fuel st i op st' entry. unfold create_organization_op.
  destruct (dict_index "data" op) as [data | e]; cbn [lift and_then]; [| discriminate].
  destruct data as [| | | | | fields]; try discriminate.
  destruct (validate_organization_data fields false) as [ok msg].
  destruct ok; cbn [negb].
  - destruct (assign_id fuel st "organization" "ORG" (SAMPLE_ORGANIZATIONS st) fields)
      as [[err | org_id] | e |]; cbn [and_then]; try discriminate.
    + intros H. injection H as <- <-. left. split; [reflexivity | eexists; reflexivity].
    + destruct (new_organization clk st org_id fields) as [org | e];
        cbn [lift and_then]; [| discriminate].
      intros H. injection H as <- <-. right. exists org. split; reflexivity.
  - intros H. injection H as <- <-. left. split; [reflexivity | eexists; reflexivity].
Qed.


Lemma successes_app : forall a b,
  Inv.successes (a ++ b)%list = (Inv.successes a ++ Inv.successes b)%list.
Proof.
  intros a b. unfold Inv.successes. apply flat_map_app.
Qed.









(** *** Exceptions and the identifier loop inside a batch *)

Lemma auto_generate_id_fuel : forall fuel prefix collection,
  auto_generate_id (S (S fuel)) prefix collection = auto_generate_id 2 prefix collection.
Proof.
  intros fuel prefix collection. rewrite auto_generate_id_two_checks.
  destruct (auto_generate_id 2 prefix collection); reflexivity.
Qed.

Lemma assign_id_fuel : forall fuel st entity_type prefix collection fields,
  assign_id (S (S fuel)) st entity_type prefix collection fields
  = assign_id 2 st entity_type prefix collection fields.
Proof.
  intros fuel st entity_type prefix collection fields. unfold assign_id.
  destruct (truthy (dict_get_none "id" fields)); [reflexivity |].
  now rewrite auto_generate_id_fuel.
Qed.

Lemma batch_loop_ext : forall f g,
  (forall st i op, f st i op = g st i op) ->
  forall ops i st results, batch_loop f i ops st results = batch_loop g i ops st results.
Proof.
  intros f g Hfg. induction ops as [| op rest IH]; intros i st results;
    cbn [batch_loop]; [reflexivity |].
  destruct op as [| | | | | fields]; try reflexivity.
  destruct (dict_index "action" fields) as [action | e]; cbn [lift and_then];
    [| reflexivity].
  destruct (py_eq action (VStr "create")); [| apply IH].
  rewrite Hfg. destruct (g st i fields) as [[st1 entry] | e |];
    [apply IH | apply IH | reflexivity].
Qed.

Lemma batch_endpoint_ext : forall f g,
  (forall st i op, f st i op = g st i op) ->
  forall st data, batch_endpoint f st data = batch_endpoint g st data.
Proof.
  intros f g Hfg st data. unfold batch_endpoint.
  destruct (validate_json_payload data) as [ok msg].
  destruct ok; cbn [negb]; [| reflexivity].
  destruct data as [| | | | | fields]; try reflexivity.
  destruct (validate_batch_operations (dict_get_default "operations" (VList []) fields))
    as [ok msg'].
  destruct ok; cbn [negb]; [| reflexivity].
  destruct (dict_get_default "operations" (VList []) fields); try reflexivity.
  now rewrite (batch_loop_ext f g Hfg).
Qed.

Lemma batch_loop_catches : forall create_op ops i st results e,
  forallb Inv.well_formed_operation ops = true ->
  batch_loop create_op i ops st results <> Unhandled e.
Proof.
  intros create_op. induction ops as [| op rest IH]; intros i st results e Hall;
    cbn [batch_loop]; [discriminate |].
  cbn [forallb] in Hall. apply andb_true_iff in Hall. destruct Hall as [Hop Hall].
  unfold Inv.well_formed_operation in Hop.
  destruct op as [| | | | | fields]; try discriminate.
  unfold dict_index.
  destruct (dict_get "action" fields) as [action |]; [| discriminate].
  cbn [lift and_then].
  destruct (py_eq action (VStr "create")); [| now apply IH].
  destruct (create_op st i fields) as [[st1 entry] | e' |];
    [now apply IH | now apply IH | discriminate].
Qed.

Lemma batch_endpoint_catches : forall create_op st fields e,
  batch_endpoint create_op st (VDict fields) <> Unhandled e.
Proof.
  intros create_op st fields e. unfold batch_endpoint.
  destruct (validate_json_payload (VDict fields)) as [ok msg].
  destruct ok; cbn [negb]; [| discriminate].
  destruct (validate_batch_operations (dict_get_default "operations" (VList []) fields))
    as [ok msg'] eqn:Hvalid.
  destruct ok; cbn [negb]; [| discriminate].
  destruct (dict_get_default "operations" (VList []) fields) as [| | | | ops |];
    try discriminate.
  assert (Hall : forallb Inv.well_formed_operation ops = true).
  { cbn [validate_batch_operations] in Hvalid.
    destruct (List.length ops =? 0)%nat; [discriminate |].
    destruct (50 <? List.length ops)%nat; [discriminate |].
    destruct (forallb Inv.well_formed_operation ops) eqn:Hall'; [reflexivity |].
    exfalso. clear - Hvalid Hall'. revert Hvalid Hall'. generalize 0.
    induction ops as [| op rest IH]; intros i; [discriminate |].
    cbn [forallb]. destruct (Inv.well_formed_operation op) eqn:Hop.
    - rewrite well_formed_operation_passes by exact Hop. cbn [andb]. apply IH.
    - destruct (ill_formed_operation_fails i op rest Hop) as [m ->]. discriminate. }
  pose proof (batch_loop_catches create_op ops 0 st [] e Hall) as Hloop.
  destruct (batch_loop create_op 0 ops st []) as [[st1 results] | e' |];
    cbn [and_then]; [discriminate | congruence | discriminate].
Qed.

(** X15. No exception escapes a batch whose body is a JSON object:
    either it returns, or one of its identifier loops never ends. Two
    evaluations of the condition of that loop for each create decide
    which: more fuel never changes the outcome. *)
Theorem batch_never_raises : forall clk fuel st fields,
  (forall e, batch_organizations clk fuel st (VDict fields) <> Unhandled e) /\
  (forall e, batch_users clk fuel st (VDict fields) <> Unhandled e) /\
  batch_organizations clk (S (S fuel)) st (VDict fields)
    = batch_organizations clk 2 st (VDict fields) /\
  batch_users clk (S (S fuel)) st (VDict fields) = batch_users clk 2 st (VDict fields).
Proof.
  intros clk fuel st fields.
  split; [intros e; apply batch_endpoint_catches |].
  split; [intros e; apply batch_endpoint_catches |].
  split; apply batch_endpoint_ext; intros s i op.
  - unfold create_organization_op.
    destruct (dict_index "data" op) as [[| | | | | d] | e]; try reflexivity.
    cbn [lift and_then].
    destruct (validate_organization_data d false) as [ok msg].
    destruct ok; cbn [negb]; [| reflexivity]. now rewrite assign_id_fuel.
  - unfold create_user_op.
    destruct (dict_index "data" op) as [[| | | | | d] | e]; try reflexivity.
    cbn [lift and_then].
    destruct (validate_user_data s d false VNone) as [[ok msg] | e];
      cbn [lift and_then]; [| reflexivity].
    destruct ok; cbn [negb]; [| reflexivity]. now rewrite assign_id_fuel.
Qed.

Lemma any_such_has_id : forall collection candidate,
  forallb (dict_has "id") collection = true ->
  any_such (has_id (VStr candidate)) collection = Ok (Inv.id_taken collection candidate).
Proof.
  intros collection candidate. unfold any_such, Inv.id_taken.
  induction collection as [| r rest IH]; cbn [first_such forallb existsb bind];
    [reflexivity |].
  intros H. apply andb_true_iff in H. destruct H as [Hr Hrest].
  unfold has_id at 1. unfold dict_index, dict_has, dict_get_none, dict_get_default in *.
  destruct (dict_get "id" r) as [i |]; [| discriminate]. cbn [bind].
  destruct (py_eq i (VStr candidate)); [reflexivity |].
  cbn [orb]. now apply IH.
Qed.

(** X16. How an identifier is generated. In a collection whose records
    all have an identifier, the first candidate is the prefix followed by
    the number of records plus 1, the second and last one the prefix
    followed by the number of records plus 2: the loop returns the first
    candidate that no record has, and when both are taken it never
    returns. *)
Theorem auto_generate_id_behaviour : forall fuel prefix collection,
  forallb (dict_has "id") collection = true ->
  auto_generate_id (S (S fuel)) prefix collection =
  if Inv.id_taken collection (prefix ++ fmt_03d (List.length collection + 1))
  then if Inv.id_taken collection (prefix ++ fmt_03d (List.length collection + 2))
       then Running
       else Done (prefix ++ fmt_03d (List.length collection + 2))
  else Done (prefix ++ fmt_03d (List.length collection + 1)).
Proof.
  intros fuel prefix collection Hids.
  pose proof (conflict_loop_running fuel prefix collection) as Hloop.
  unfold auto_generate_id. cbn [conflict_loop].
  rewrite !(any_such_has_id collection _ Hids) in *. cbn [lift and_then].
  match goal with |- (if ?c then _ else _) = _ => destruct c eqn:E1 end.
  - replace (Inv.id_taken collection (prefix ++ fmt_03d (List.length collection + 1)))
      with true by (symmetry; exact E1).
    match goal with |- (if ?c then _ else _) = _ => destruct c eqn:E2 end.
    + replace (Inv.id_taken collection (prefix ++ fmt_03d (List.length collection + 2)))
        with true by (symmetry; exact E2).
      apply Hloop. reflexivity.
    + replace (Inv.id_taken collection (prefix ++ fmt_03d (List.length collection + 2)))
        with false by (symmetry; exact E2).
      reflexivity.
  - replace (Inv.id_taken collection (prefix ++ fmt_03d (List.length collection + 1)))
      with false by (symmetry; exact E1).
    reflexivity.
Qed.

Lemma auto_generate_id_behaviour_witness :
  auto_generate_id 2 "ORG" (SAMPLE_ORGANIZATIONS initial_store) =
  if Inv.id_taken (SAMPLE_ORGANIZATIONS initial_store)
       ("ORG" ++ fmt_03d (List.length (SAMPLE_ORGANIZATIONS initial_store) + 1))
  then if Inv.id_taken (SAMPLE_ORGANIZATIONS initial_store)
            ("ORG" ++ fmt_03d (List.length (SAMPLE_ORGANIZATIONS initial_store) + 2))
       then Running
       else Done ("ORG" ++ fmt_03d (List.length (SAMPLE_ORGANIZATIONS initial_store) + 2))
  else Done ("ORG" ++ fmt_03d (List.length (SAMPLE_ORGANIZATIONS initial_store) + 1)).
Proof.
  apply (auto_generate_id_behaviour 0 "ORG" (SAMPLE_ORGANIZATIONS initial_store)).
  reflexivity.
Defined.

(** *** Identifiers stay unique *)

Lemma py_eq_none_left : forall v, py_eq VNone v = true -> v = VNone.
Proof.
  intros v. destruct v; try discriminate. reflexivity.
Qed.

Lemma py_eq_to_none : forall v, py_eq v VNone = true -> v = VNone.
Proof.
  intros v. destruct v; try discriminate; reflexivity.
Qed.

Lemma ids_unique_snoc : forall collection r new_id,
  Inv.ids_unique collection = true ->
  dict_get "id" r = Some new_id ->
  Forall (Inv.fresh_for new_id) collection ->
  Inv.ids_unique (collection ++ [r])%list = true.
Proof.
  intros collection r new_id Huniq Hr Hfresh. unfold Inv.ids_unique, Inv.ids in *.
  apply andb_true_iff in Huniq. destruct Huniq as [Hhas Hdist].
  rewrite forallb_app, map_app. cbn [forallb map]. unfold record in *.
  rewrite all_distinct_snoc, Hhas, Hdist.
  assert (Hid : dict_get_none "id" r = new_id).
  { unfold dict_get_none, dict_get_default. now rewrite Hr. }
  assert (Hhasr : dict_has "id" r = true) by (unfold dict_has; now rewrite Hr).
  rewrite Hid, Hhasr. cbn [andb]. apply negb_true_iff.
  destruct (existsb (fun y => py_eq y new_id) (map (dict_get_none "id") collection))
    eqn:E; [| reflexivity].
  apply existsb_exists in E. destruct E as [y [Hin Hy]].
  apply in_map_iff in Hin. destruct Hin as [x [<- Hx]].
  rewrite Forall_forall in Hfresh. destruct (Hfresh x Hx) as [i [Hi Hne]].
  unfold dict_get_none, dict_get_default in Hy. rewrite Hi in Hy. congruence.
Qed.

Lemma any_such_false : forall pred collection,
  any_such pred collection = Ok false -> Forall (fun x => pred x = Ok false) collection.
Proof.
  intros pred collection H. apply first_such_none. unfold any_such in H.
  destruct (first_such pred collection) as [[x |] | e]; cbn [bind] in H;
    try discriminate. reflexivity.
Qed.

Lemma first_such_holds : forall pred collection x,
  first_such pred collection = Ok (Some x) -> pred x = Ok true.
Proof.
  intros pred collection x. induction collection as [| y rest IH]; cbn [first_such].
  - discriminate.
  - destruct (pred y) as [[|] | e] eqn:E; cbn [bind]; try discriminate.
    + intros H. injection H as <-. exact E.
    + exact IH.
Qed.

(** An identifier that comes out of the assignment is the identifier of
    no record of the collection. *)
Lemma assign_id_fresh : forall fuel st entity_type prefix collection fields new_id,
  collection_of st entity_type = Some collection ->
  assign_id fuel st entity_type prefix collection fields = Done (inr new_id) ->
  Forall (Inv.fresh_for new_id) collection.
Proof.
  intros fuel st entity_type prefix collection fields new_id Hcoll. unfold assign_id.
  destruct (truthy (dict_get_none "id" fields)) eqn:Hid.
  - unfold check_duplicate_id. rewrite Hcoll.
    destruct (first_such (same_id_not_excluded (dict_get_none "id" fields) VNone)
                collection) as [r | e] eqn:Hfirst; cbn [bind lift and_then];
      [| discriminate].
    destruct (found r) eqn:Hfound; cbn [negb]; [discriminate |].
    intros H. injection H as <-.
    assert (Hr : r = None).
    { destruct r as [x |]; [| reflexivity]. exfalso.
      apply first_such_holds in Hfirst. unfold same_id_not_excluded, dict_index in Hfirst.
      destruct x; [discriminate Hfirst | discriminate Hfound]. }
    subst r. apply first_such_none in Hfirst.
    apply Forall_forall. intros x Hx. rewrite Forall_forall in Hfirst.
    specialize (Hfirst x Hx). unfold same_id_not_excluded, dict_index in Hfirst.
    unfold Inv.fresh_for.
    destruct (dict_get "id" x) as [i |]; [| discriminate]. cbn [bind] in Hfirst.
    exists i. split; [reflexivity |].
    destruct (py_eq i (dict_get_none "id" fields)) eqn:E; [| reflexivity].
    exfalso. injection Hfirst as Hnone. apply negb_false_iff in Hnone.
    apply py_eq_to_none in Hnone. subst i. apply py_eq_none_left in E.
    rewrite E in Hid. discriminate.
  - destruct (auto_generate_id fuel prefix collection) as [id | e |] eqn:Hauto;
      cbn [and_then]; try discriminate.
    intros H. injection H as <-. unfold auto_generate_id in Hauto.
    apply conflict_loop_fresh in Hauto. apply any_such_false in Hauto.
    apply Forall_forall. intros x Hx. rewrite Forall_forall in Hauto.
    specialize (Hauto x Hx). unfold has_id, dict_index in Hauto. unfold Inv.fresh_for.
    destruct (dict_get "id" x) as [i |]; [| discriminate]. cbn [bind] in Hauto.
    exists i. split; [reflexivity | congruence].
Qed.

Lemma dict_get_set_other : forall key key' v d,
  String.eqb key' key = false -> dict_get key (dict_set key' v d) = dict_get key d.
Proof.
  intros key key' v d Hne. induction d as [| [k w] rest IH]; cbn [dict_set dict_get].
  - now rewrite Hne.
  - destruct (String.eqb k key') eqn:E; cbn [dict_get].
    + apply String.eqb_eq in E. subst k. now rewrite Hne.
    + destruct (String.eqb k key); [reflexivity | exact IH].
Qed.

Lemma dict_update_keeps : forall key changes d,
  forallb (fun kv => negb (String.eqb (fst kv) key)) changes = true ->
  dict_get key (dict_update d changes) = dict_get key d.
Proof.
  intros key changes. unfold dict_update.
  induction changes as [| [k v] rest IH]; intros d H; cbn [fold_left forallb fst snd] in *.
  - reflexivity.
  - apply andb_true_iff in H. destruct H as [Hk Hrest].
    rewrite IH by exact Hrest. apply dict_get_set_other. now apply negb_true_iff.
Qed.

Lemma update_first_keeps : forall key wanted changes collection,
  forallb (fun kv => negb (String.eqb (fst kv) key)) changes = true ->
  map (dict_get key) (update_first wanted changes collection) = map (dict_get key) collection.
Proof.
  intros key wanted changes collection H.
  induction collection as [| x rest IH]; cbn [update_first map]; [reflexivity |].
  destruct (has_id wanted x) as [[|] | e]; cbn [map].
  - now rewrite dict_update_keeps.
  - now rewrite IH.
  - now rewrite IH.
Qed.

Lemma ids_unique_by_ids : forall a b,
  map (dict_get "id") a = map (dict_get "id") b ->
  Inv.ids_unique a = Inv.ids_unique b.
Proof.
  intros a b H. unfold Inv.ids_unique, Inv.ids.
  assert (H1 : forallb (dict_has "id") a = forallb (dict_has "id") b).
  { revert b H. induction a as [| x a IH]; intros [| y b] H; try discriminate;
      [reflexivity |]. cbn [map] in H. injection H as Hx Hrest.
    cbn [forallb]. unfold dict_has at 1 3. rewrite Hx. f_equal. now apply IH. }
  assert (H2 : map (dict_get_none "id") a = map (dict_get_none "id") b).
  { clear H1. revert b H. induction a as [| x a IH]; intros [| y b] H; try discriminate;
      [reflexivity |]. cbn [map] in H. injection H as Hx Hrest.
    cbn [map]. unfold dict_get_none, dict_get_default at 1 3. rewrite Hx.
    f_equal. now apply IH. }
  now rewrite H1, H2.
Qed.

Lemma ids_unique_after_update : forall wanted changes collection,
  forallb (fun kv => negb (String.eqb (fst kv) "id")) changes = true ->
  Inv.ids_unique (update_first wanted changes collection) = Inv.ids_unique collection.
Proof.
  intros wanted changes collection H. apply ids_unique_by_ids.
  now apply update_first_keeps.
Qed.

Lemma ids_unique_after_remove : forall item collection,
  Inv.ids_unique collection = true ->
  Inv.ids_unique (list_remove item collection) = true.
Proof.
  intros item collection H. unfold Inv.ids_unique, Inv.ids in *.
  apply andb_true_iff in H. destruct H as [H1 H2].
  rewrite forallb_after_remove by exact H1.
  now rewrite all_distinct_after_remove.
Qed.

Lemma store_ids_unique_parts : forall st,
  Inv.store_ids_unique st = true <->
  Inv.ids_unique (SAMPLE_ORGANIZATIONS st) = true /\
  Inv.ids_unique (SAMPLE_USERS st) = true /\
  Inv.ids_unique (SAMPLE_PROFILES st) = true.
Proof.
  intros st. unfold Inv.store_ids_unique. rewrite !andb_true_iff. tauto.
Qed.

Lemma organization_created : forall clk fuel st fields org_id org,
  assign_id fuel st "organization" "ORG" (SAMPLE_ORGANIZATIONS st) fields
    = Done (inr org_id) ->
  new_organization clk st org_id fields = Ok org ->
  Inv.store_ids_unique st = true ->
  Inv.store_ids_unique (append_organization st org) = true.
Proof.
  intros clk fuel st fields org_id org Hassign Hnew Huniq.
  apply store_ids_unique_parts in Huniq. destruct Huniq as [Ho [Hu Hp]].
  apply store_ids_unique_parts. unfold append_organization.
  cbn [SAMPLE_ORGANIZATIONS SAMPLE_USERS SAMPLE_PROFILES].
  split; [| now split].
  apply ids_unique_snoc with (new_id := org_id); [exact Ho | |].
  - unfold new_organization in Hnew.
    destruct (dict_index "name" fields); cbn [bind] in Hnew; [| discriminate].
    destruct (dict_index "type" fields); cbn [bind] in Hnew; [| discriminate].
    injection Hnew as <-. reflexivity.
  - now apply (assign_id_fresh fuel st "organization" "ORG" _ fields).
Qed.

Lemma user_created : forall clk fuel st fields user_id user,
  assign_id fuel st "user" "USER" (SAMPLE_USERS st) fields = Done (inr user_id) ->
  new_user clk st user_id fields = Ok user ->
  Inv.store_ids_unique st = true ->
  Inv.store_ids_unique (append_user st user) = true.
Proof.
  intros clk fuel st fields user_id user Hassign Hnew Huniq.
  apply store_ids_unique_parts in Huniq. destruct Huniq as [Ho [Hu Hp]].
  apply store_ids_unique_parts. unfold append_user.
  cbn [SAMPLE_ORGANIZATIONS SAMPLE_USERS SAMPLE_PROFILES].
  split; [exact Ho | split; [| exact Hp]].
  apply ids_unique_snoc with (new_id := user_id); [exact Hu | |].
  - unfold new_user in Hnew.
    destruct (dict_index "name" fields); cbn [bind] in Hnew; [| discriminate].
    destruct (dict_index "email" fields); cbn [bind] in Hnew; [| discriminate].
    injection Hnew as <-. reflexivity.
  - now apply (assign_id_fresh fuel st "user" "USER" _ fields).
Qed.

Lemma profile_created : forall clk fuel st fields profile_id profile,
  assign_id fuel st "profile" "PROF" (SAMPLE_PROFILES st) fields = Done (inr profile_id) ->
  new_profile clk st profile_id fields = Ok profile ->
  Inv.store_ids_unique st = true ->
  Inv.store_ids_unique (append_profile st profile) = true.
Proof.
  intros clk fuel st fields profile_id profile Hassign Hnew Huniq.
  apply store_ids_unique_parts in Huniq. destruct Huniq as [Ho [Hu Hp]].
  apply store_ids_unique_parts. unfold append_profile.
  cbn [SAMPLE_ORGANIZATIONS SAMPLE_USERS SAMPLE_PROFILES].
  split; [exact Ho | split; [exact Hu |]].
  apply ids_unique_snoc with (new_id := profile_id); [exact Hp | |].
  - unfold new_profile in Hnew.
    destruct (dict_index "name" fields); cbn [bind] in Hnew; [| discriminate].
    injection Hnew as <-. reflexivity.
  - now apply (assign_id_fresh fuel st "profile" "PROF" _ fields).
Qed.

Lemma handle_organizations_post_keeps_ids : forall clk fuel st data st' resp,
  Inv.store_ids_unique st = true ->
  handle_organizations_post clk fuel st data = Done (st', resp) ->
  Inv.store_ids_unique st' = true.
Proof.
  intros clk fuel st data st' resp Huniq. unfold handle_organizations_post.
  destruct (validate_json_payload data) as [ok msg].
  destruct ok; cbn [negb]; [| intros H; injection H as <- _; exact Huniq].
  destruct data as [| | | | | fields]; try discriminate.
  destruct (validate_organization_data fields false) as [ok' msg'].
  destruct ok'; cbn [negb]; [| intros H; injection H as <- _; exact Huniq].
  destruct (assign_id fuel st "organization" "ORG" (SAMPLE_ORGANIZATIONS st) fields)
    as [[err | org_id] | e |] eqn:Hassign; cbn [and_then]; try discriminate.
  - intros H; injection H as <- _; exact Huniq.
  - destruct (new_organization clk st org_id fields) as [org | e] eqn:Hnew;
      cbn [lift and_then]; [| discriminate].
    intros H. injection H as <- _.
    now apply (organization_created clk fuel st fields org_id org).
Qed.

Lemma handle_users_post_keeps_ids : forall clk fuel st data st' resp,
  Inv.store_ids_unique st = true ->
  handle_users_post clk fuel st data = Done (st', resp) ->
  Inv.store_ids_unique st' = true.
Proof.
  intros clk fuel st data st' resp Huniq. unfold handle_users_post.
  destruct (validate_json_payload data) as [ok msg].
  destruct ok; cbn [negb]; [| intros H; injection H as <- _; exact Huniq].
  destruct data as [| | | | | fields]; try discriminate.
  destruct (validate_user_data st fields false VNone) as [[ok' msg'] | e];
    cbn [lift and_then]; [| discriminate].
  destruct ok'; cbn [negb]; [| intros H; injection H as <- _; exact Huniq].
  destruct (assign_id fuel st "user" "USER" (SAMPLE_USERS st) fields)
    as [[err | user_id] | e |] eqn:Hassign; cbn [and_then]; try discriminate.
  - intros H; injection H as <- _; exact Huniq.
  - destruct (new_user clk st user_id fields) as [user | e] eqn:Hnew;
      cbn [lift and_then]; [| discriminate].
    intros H. injection H as <- _.
    now apply (user_created clk fuel st fields user_id user).
Qed.

Lemma handle_profiles_post_keeps_ids : forall clk fuel st data st' resp,
  Inv.store_ids_unique st = true ->
  handle_profiles_post clk fuel st data = Done (st', resp) ->
  Inv.store_ids_unique st' = true.
Proof.
  intros clk fuel st data st' resp Huniq. unfold handle_profiles_post.
  destruct (validate_json_payload data) as [ok msg].
  destruct ok; cbn [negb]; [| intros H; injection H as <- _; exact Huniq].
  destruct data as [| | | | | fields]; try discriminate.
  destruct (validate_profile_data fields false) as [ok' msg'].
  destruct ok'; cbn [negb]; [| intros H; injection H as <- _; exact Huniq].
  destruct (assign_id fuel st "profile" "PROF" (SAMPLE_PROFILES st) fields)
    as [[err | profile_id] | e |] eqn:Hassign; cbn [and_then]; try discriminate.
  - intros H; injection H as <- _; exact Huniq.
  - destruct (new_profile clk st profile_id fields) as [profile | e] eqn:Hnew;
      cbn [lift and_then]; [| discriminate].
    intros H. injection H as <- _.
    now apply (profile_created clk fuel st fields profile_id profile).
Qed.

Lemma create_organization_op_keeps_ids : forall clk fuel st i op st' entry,
  Inv.store_ids_unique st = true ->
  create_organization_op clk fuel st i op = Done (st', entry) ->
  Inv.store_ids_unique st' = true.
Proof.
  intros clk fuel st i op st' entry Huniq. unfold create_organization_op.
  destruct (dict_index "data" op) as [data | e]; cbn [lift and_then]; [| discriminate].
  destruct data as [| | | | | fields]; try discriminate.
  destruct (validate_organization_data fields false) as [ok msg].
  destruct ok; cbn [negb]; [| intros H; injection H as <- _; exact Huniq].
  destruct (assign_id fuel st "organization" "ORG" (SAMPLE_ORGANIZATIONS st) fields)
    as [[err | org_id] | e |] eqn:Hassign; cbn [and_then]; try discriminate.
  - intros H; injection H as <- _; exact Huniq.
  - destruct (new_organization clk st org_id fields) as [org | e] eqn:Hnew;
      cbn [lift and_then]; [| discriminate].
    intros H. injection H as <- _.
    now apply (organization_created clk fuel st fields org_id org).
Qed.

Lemma create_user_op_keeps_ids : forall clk fuel st i op st' entry,
  Inv.store_ids_unique st = true ->
  create_user_op clk fuel st i op = Done (st', entry) ->
  Inv.store_ids_unique st' = true.
Proof.
  intros clk fuel st i op st' entry Huniq. unfold create_user_op.
  destruct (dict_index "data" op) as [data | e]; cbn [lift and_then]; [| discriminate].
  destruct data as [| | | | | fields]; try discriminate.
  destruct (validate_user_data st fields false VNone) as [[ok msg] | e];
    cbn [lift and_then]; [| discriminate].
  destruct ok; cbn [negb]; [| intros H; injection H as <- _; exact Huniq].
  destruct (assign_id fuel st "user" "USER" (SAMPLE_USERS st) fields)
    as [[err | user_id] | e |] eqn:Hassign; cbn [and_then]; try discriminate.
  - intros H; injection H as <- _; exact Huniq.
  - destruct (new_user clk st user_id fields) as [user | e] eqn:Hnew;
      cbn [lift and_then]; [| discriminate].
    intros H. injection H as <- _.
    now apply (user_created clk fuel st fields user_id user).
Qed.

Lemma handle_organization_keeps_ids : forall clk st org_id request st' resp,
  Inv.store_ids_unique st = true ->
  handle_organization clk st org_id request = Done (st', resp) ->
  Inv.store_ids_unique st' = true.
Proof.
  intros clk st org_id request st' resp Huniq. unfold handle_organization.
  apply store_ids_unique_parts in Huniq. destruct Huniq as [Ho [Hu Hp]].
  destruct (first_such (has_id (VStr org_id)) (SAMPLE_ORGANIZATIONS st))
    as [[org |] | e]; cbn [lift and_then]; try discriminate;
    [| intros H; injection H as <- _; now apply store_ids_unique_parts].
  destruct (negb (truthy (VDict org)));
    [intros H; injection H as <- _; now apply store_ids_unique_parts |].
  destruct request as [data |].
  - destruct data as [| | | | | fields]; try discriminate.
    destruct (dict_index "name" org); cbn [lift and_then]; [| discriminate].
    destruct (dict_index "type" org); cbn [lift and_then]; [| discriminate].
    destruct (touched_metadata clk st org); cbn [lift and_then]; [| discriminate].
    intros H. injection H as <- _. apply store_ids_unique_parts.
    cbn [SAMPLE_ORGANIZATIONS SAMPLE_USERS SAMPLE_PROFILES].
    split; [| now split]. now rewrite ids_unique_after_update.
  - intros H. injection H as <- _. apply store_ids_unique_parts.
    unfold with_organizations. cbn [SAMPLE_ORGANIZATIONS SAMPLE_USERS SAMPLE_PROFILES].
    split; [| now split]. now apply ids_unique_after_remove.
Qed.

Lemma handle_user_keeps_ids : forall clk st user_id request st' resp,
  Inv.store_ids_unique st = true ->
  handle_user clk st user_id request = Done (st', resp) ->
  Inv.store_ids_unique st' = true.
Proof.
  intros clk st user_id request st' resp Huniq. unfold handle_user.
  apply store_ids_unique_parts in Huniq. destruct Huniq as [Ho [Hu Hp]].
  destruct (first_such (has_id (VStr user_id)) (SAMPLE_USERS st))
    as [[user |] | e]; cbn [lift and_then]; try discriminate;
    [| intros H; injection H as <- _; now apply store_ids_unique_parts].
  destruct (negb (truthy (VDict user)));
    [intros H; injection H as <- _; now apply store_ids_unique_parts |].
  destruct request as [data |].
  - destruct data as [| | | | | fields]; try discriminate.
    destruct (dict_index "name" user); cbn [lift and_then]; [| discriminate].
    destruct (dict_index "email" user); cbn [lift and_then]; [| discriminate].
    destruct (dict_index "organization_id" user); cbn [lift and_then]; [| discriminate].
    destruct (touched_metadata clk st user); cbn [lift and_then]; [| discriminate].
    intros H. injection H as <- _. apply store_ids_unique_parts.
    cbn [SAMPLE_ORGANIZATIONS SAMPLE_USERS SAMPLE_PROFILES].
    split; [exact Ho | split; [| exact Hp]]. now rewrite ids_unique_after_update.
  - intros H. injection H as <- _. apply store_ids_unique_parts.
    unfold with_users. cbn [SAMPLE_ORGANIZATIONS SAMPLE_USERS SAMPLE_PROFILES].
    split; [exact Ho | split; [| exact Hp]]. now apply ids_unique_after_remove.
Qed.

Lemma handle_profile_keeps_ids : forall clk st profile_id request st' resp,
  Inv.store_ids_unique st = true ->
  handle_profile clk st profile_id request = Done (st', resp) ->
  Inv.store_ids_unique st' = true.
Proof.
  intros clk st profile_id request st' resp Huniq. unfold handle_profile.
  apply store_ids_unique_parts in Huniq. destruct Huniq as [Ho [Hu Hp]].
  destruct (first_such (has_id (VStr profile_id)) (SAMPLE_PROFILES st))
    as [[profile |] | e]; cbn [lift and_then]; try discriminate;
    [| intros H; injection H as <- _; now apply store_ids_unique_parts].
  destruct (negb (truthy (VDict profile)));
    [intros H; injection H as <- _; now apply store_ids_unique_parts |].
  destruct request as [data |].
  - destruct data as [| | | | | fields]; try discriminate.
    destruct (dict_get_default "metadata" (VDict []) profile); try discriminate.
    intros H. injection H as <- _. apply store_ids_unique_parts.
    cbn [SAMPLE_ORGANIZATIONS SAMPLE_USERS SAMPLE_PROFILES].
    split; [exact Ho | split; [exact Hu |]]. now rewrite ids_unique_after_update.
  - intros H. injection H as <- _. apply store_ids_unique_parts.
    cbn [SAMPLE_ORGANIZATIONS SAMPLE_USERS SAMPLE_PROFILES].
    split; [exact Ho | split; [exact Hu |]]. now apply ids_unique_after_remove.
Qed.

Lemma serve_keeps_ids : forall clk fuel st r st' resp,
  Inv.store_ids_unique st = true ->
  serve clk fuel st r = Done (st', resp) ->
  Inv.store_ids_unique st' = true.
Proof.
  intros clk fuel st r st' resp Huniq. destruct r; cbn [serve].
  - now apply handle_organizations_post_keeps_ids.
  - now apply handle_organization_keeps_ids.
  - now apply handle_organization_keeps_ids.
  - now apply handle_users_post_keeps_ids.
  - now apply handle_user_keeps_ids.
  - now apply handle_user_keeps_ids.
  - now apply handle_profiles_post_keeps_ids.
  - now apply handle_profile_keeps_ids.
  - now apply handle_profile_keeps_ids.
  - intros H. apply (batch_endpoint_invariant
                       (fun s => Inv.store_ids_unique s = true)
                       (create_organization_op clk fuel))
               with (st := st) (data := data) (resp := resp); [| exact Huniq | exact H].
    intros s i op s' entry Hs Hop.
    now apply (create_organization_op_keeps_ids clk fuel s i op s' entry).
  - intros H. apply (batch_endpoint_invariant
                       (fun s => Inv.store_ids_unique s = true)
                       (create_user_op clk fuel))
               with (st := st) (data := data) (resp := resp); [| exact Huniq | exact H].
    intros s i op s' entry Hs Hop.
    now apply (create_user_op_keeps_ids clk fuel s i op s' entry).
Qed.

(** X17. Identifiers are unique within each collection, and stay so: in
    the initial data every record has an identifier and no two records
    of a collection have the same one; every create, update, delete and
    batch request that returns keeps this, from any state; hence it holds
    in every state that a sequence of such requests leads to. *)
Theorem identifiers_stay_unique : forall clk,
  Inv.store_ids_unique initial_store = true /\
  (forall fuel st r st' resp,
      Inv.store_ids_unique st = true ->
      serve clk fuel st r = Done (st', resp) ->
      Inv.store_ids_unique st' = true) /\
  (forall st, reachable clk st -> Inv.store_ids_unique st = true).
Proof.
  intros clk. split; [vm_compute; reflexivity |].
  split; [intros fuel st r st' resp; apply serve_keeps_ids |].
  intros st Hreach. induction Hreach as [| fuel st r st' resp _ IH Hstep].
  - vm_compute. reflexivity.
  - now apply (serve_keeps_ids clk fuel st r st' resp).
Qed.

(** *** Emails stay unique without updates of users *)

Lemma emails_in_order_by_users : forall st st',
  SAMPLE_USERS st' = SAMPLE_USERS st ->
  Inv.emails_in_order st' = Inv.emails_in_order st.
Proof.
  intros st st' H. unfold Inv.emails_in_order, Spec.users_well_formed,
    Spec.emails_unique, Spec.user_emails. now rewrite H.
Qed.

Lemma emails_in_order_parts : forall st,
  Inv.emails_in_order st = true <->
  Spec.users_well_formed st = true /\ Spec.emails_unique st = true.
Proof.
  intros st. unfold Inv.emails_in_order. apply andb_true_iff.
Qed.

Lemma handle_organizations_post_users : forall clk fuel st data st' resp,
  handle_organizations_post clk fuel st data = Done (st', resp) ->
  SAMPLE_USERS st' = SAMPLE_USERS st.
Proof.
  intros clk fuel st data st' resp. unfold handle_organizations_post.
  destruct (validate_json_payload data) as [ok msg].
  destruct ok; cbn [negb]; [| intros H; now injection H as <- _].
  destruct data as [| | | | | fields]; try discriminate.
  destruct (validate_organization_data fields false) as [ok' msg'].
  destruct ok'; cbn [negb]; [| intros H; now injection H as <- _].
  destruct (assign_id fuel st "organization" "ORG" (SAMPLE_ORGANIZATIONS st) fields)
    as [[err | org_id] | e |]; cbn [and_then]; try discriminate.
  - intros H; now injection H as <- _.
  - destruct (new_organization clk st org_id fields) as [org | e];
      cbn [lift and_then]; [| discriminate].
    intros H. now injection H as <- _.
Qed.

Lemma handle_profiles_post_users : forall clk fuel st data st' resp,
  handle_profiles_post clk fuel st data = Done (st', resp) ->
  SAMPLE_USERS st' = SAMPLE_USERS st.
Proof.
  intros clk fuel st data st' resp. unfold handle_profiles_post.
  destruct (validate_json_payload data) as [ok msg].
  destruct ok; cbn [negb]; [| intros H; now injection H as <- _].
  destruct data as [| | | | | fields]; try discriminate.
  destruct (validate_profile_data fields false) as [ok' msg'].
  destruct ok'; cbn [negb]; [| intros H; now injection H as <- _].
  destruct (assign_id fuel st "profile" "PROF" (SAMPLE_PROFILES st) fields)
    as [[err | profile_id] | e |]; cbn [and_then]; try discriminate.
  - intros H; now injection H as <- _.
  - destruct (new_profile clk st profile_id fields) as [profile | e];
      cbn [lift and_then]; [| discriminate].
    intros H. now injection H as <- _.
Qed.

Lemma handle_organization_users : forall clk st org_id request st' resp,
  handle_organization clk st org_id request = Done (st', resp) ->
  SAMPLE_USERS st' = SAMPLE_USERS st.
Proof.
  intros clk st org_id request st' resp. unfold handle_organization.
  destruct (first_such (has_id (VStr org_id)) (SAMPLE_ORGANIZATIONS st))
    as [[org |] | e]; cbn [lift and_then]; try discriminate;
    [| intros H; now injection H as <- _].
  destruct (negb (truthy (VDict org))); [intros H; now injection H as <- _ |].
  destruct request as [data |].
  - destruct data as [| | | | | fields]; try discriminate.
    destruct (dict_index "name" org); cbn [lift and_then]; [| discriminate].
    destruct (dict_index "type" org); cbn [lift and_then]; [| discriminate].
    destruct (touched_metadata clk st org); cbn [lift and_then]; [| discriminate].
    intros H. now injection H as <- _.
  - intros H. now injection H as <- _.
Qed.

Lemma handle_profile_users : forall clk st profile_id request st' resp,
  handle_profile clk st profile_id request = Done (st', resp) ->
  SAMPLE_USERS st' = SAMPLE_USERS st.
Proof.
  intros clk st profile_id request st' resp. unfold handle_profile.
  destruct (first_such (has_id (VStr profile_id)) (SAMPLE_PROFILES st))
    as [[profile |] | e]; cbn [lift and_then]; try discriminate;
    [| intros H; now injection H as <- _].
  destruct (negb (truthy (VDict profile))); [intros H; now injection H as <- _ |].
  destruct request as [data |].
  - destruct data as [| | | | | fields]; try discriminate.
    destruct (dict_get_default "metadata" (VDict []) profile); try discriminate.
    intros H. now injection H as <- _.
  - intros H. now injection H as <- _.
Qed.

Lemma batch_organizations_users : forall clk fuel st data st' resp,
  batch_organizations clk fuel st data = Done (st', resp) ->
  SAMPLE_USERS st' = SAMPLE_USERS st.
Proof.
  intros clk fuel st data st' resp H.
  apply (batch_endpoint_invariant (fun s => SAMPLE_USERS s = SAMPLE_USERS st)
           (create_organization_op clk fuel))
    with (st := st) (data := data) (resp := resp); [| reflexivity | exact H].
  intros s i op s' entry Hs Hop.
  destruct (create_organization_op_outcome clk fuel s i op s' entry Hop)
    as [[-> _] | [org [-> _]]]; exact Hs.
Qed.

Lemma serve_keeps_emails : forall clk fuel st r st' resp,
  Inv.updates_a_user r = false ->
  Inv.emails_in_order st = true ->
  serve clk fuel st r = Done (st', resp) ->
  Inv.emails_in_order st' = true.
Proof.
  intros clk fuel st r st' resp Hr Hinv.
  assert (Hsame : SAMPLE_USERS st' = SAMPLE_USERS st -> Inv.emails_in_order st' = true).
  { intros H. now rewrite (emails_in_order_by_users st st' H). }
  pose proof Hinv as Hparts. apply emails_in_order_parts in Hparts.
  destruct Hparts as [Hwf Huniq].
  destruct r; cbn [serve]; try discriminate Hr; intros Hrun.
  - apply Hsame. now apply handle_organizations_post_users in Hrun.
  - apply Hsame. now apply handle_organization_users in Hrun.
  - apply Hsame. now apply handle_organization_users in Hrun.
  - apply emails_in_order_parts.
    destruct (handle_users_post_keeps_emails_unique clk fuel st data st' resp Hwf Huniq Hrun).
    now split.
  - apply emails_in_order_parts.
    destruct (handle_user_delete_keeps_emails_unique clk st user_id st' resp Hwf Huniq Hrun).
    now split.
  - apply Hsame. now apply handle_profiles_post_users in Hrun.
  - apply Hsame. now apply handle_profile_users in Hrun.
  - apply Hsame. now apply handle_profile_users in Hrun.
  - apply Hsame. now apply batch_organizations_users in Hrun.
  - apply emails_in_order_parts.
    destruct (batch_users_keeps_emails_unique clk fuel st data st' resp Hwf Huniq Hrun).
    now split.
Qed.

(** X18. The update of a user is the only request that can give two
    users the same email. The users of the initial data all have an
    email and an identifier, with pairwise distinct emails; every request
    other than the update of a user keeps this when it returns, from any
    state; hence it holds in every state reached without such an update. *)
Theorem emails_stay_unique_without_user_update : forall clk,
  Inv.emails_in_order initial_store = true /\
  (forall fuel st r st' resp,
      Inv.updates_a_user r = false ->
      Inv.emails_in_order st = true ->
      serve clk fuel st r = Done (st', resp) ->
      Inv.emails_in_order st' = true) /\
  (forall st, reachable_without_user_update clk st -> Inv.emails_in_order st = true).
Proof.
  intros clk. split; [vm_compute; reflexivity |].
  split; [intros fuel st r st' resp; apply serve_keeps_emails |].
  intros st Hreach. induction Hreach as [| fuel st r st' resp _ IH Hr Hstep].
  - vm_compute. reflexivity.
  - apply (serve_keeps_emails clk fuel st r st' resp); [| exact IH | exact Hstep].
    destruct r; try reflexivity. contradiction.
Qed.

(** *** Equality of proper values *)






Lemma py_eq_to_string : forall v s, py_eq v (VStr s) = true -> v = VStr s.
Proof.
  intros v s. destruct v; try discriminate.
  cbn [py_eq]. intros H. apply String.eqb_eq in H. now subst.
Qed.

(** *** Delete *)






(** *** Update *)





(** *** The token check *)

Lemma first_word_of_append : forall w tail,
  has_char " " w = false ->
  tail = "" \/ String.prefix " " tail = true ->
  Inv.first_word (w ++ tail) = w.
Proof.
  induction w as [| c w IH]; intros tail Hw Htail.
  - cbn [append]. destruct Htail as [-> | Htail]; [reflexivity |].
    apply prefix_iff in Htail. destruct Htail as [rest ->]. reflexivity.
  - cbn [has_char] in Hw. apply orb_false_iff in Hw. destruct Hw as [Hc Hw].
    cbn [append Inv.first_word].
    destruct (Ascii.eqb c " ") eqn:E.
    + apply Ascii.eqb_eq in E. subst c. rewrite Ascii.eqb_refl in Hc. discriminate.
    + now rewrite IH.
Qed.

Lemma first_word_splits : forall t,
  exists tail,
    t = (Inv.first_word t ++ tail)%string /\ (tail = "" \/ String.prefix " " tail = true).
Proof.
  induction t as [| c t IH].
  - exists "". split; [reflexivity | now left].
  - cbn [Inv.first_word]. destruct (Ascii.eqb c " ") eqn:E.
    + apply Ascii.eqb_eq in E. subst c. exists (String " " t).
      split; [reflexivity | right]. apply prefix_iff. now exists t.
    + destruct IH as [tail [Ht Htail]]. exists tail. split; [| exact Htail].
      cbn [append]. now rewrite <- Ht.
Qed.

Lemma py_split_first_word : forall t,
  exists rest, py_split " " t = Inv.first_word t :: rest.
Proof.
  induction t as [| c t IH].
  - now exists [].
  - cbn [py_split Inv.first_word]. destruct (Ascii.eqb c " ").
    + now exists (py_split " " t).
    + destruct IH as [rest ->]. now exists rest.
Qed.

Lemma token_after_bearer : forall t,
  nth_error (py_split " " ("Bearer " ++ t)) 1 = Some (Inv.first_word t).
Proof.
  intros t. destruct (py_split_first_word t) as [rest H].
  change (py_split " " ("Bearer " ++ t)) with ("Bearer" :: py_split " " t).
  now rewrite H.
Qed.

Lemma require_token_bearer : forall t,
  require_token (Some ("Bearer " ++ t)) =
  if String.eqb (Inv.first_word t) BEARER_TOKEN then Authorized
  else Refused (error_response (Some "Invalid token") 401).
Proof.
  intros t. unfold require_token.
  assert (Hp : String.prefix "Bearer " ("Bearer " ++ t) = true)
    by (apply prefix_iff; now exists t).
  rewrite Hp, token_after_bearer. cbn [truthy append String.eqb negb orb].
  destruct (String.eqb (Inv.first_word t) BEARER_TOKEN); reflexivity.
Qed.

(** X21. The token check lets a request through exactly when its
    Authorization header is the word Bearer, one space and the token,
    followed by nothing or by a space and anything: what comes after a
    second space is not looked at. Every other request, also one without
    the header, is answered with status 401, and the indexing of the
    pieces of the header never raises. *)
Theorem require_token_accepts : forall auth_header : option string,
  (require_token auth_header = Authorized <->
   exists tail,
     auth_header = Some ("Bearer " ++ BEARER_TOKEN ++ tail) /\
     (tail = "" \/ String.prefix " " tail = true)) /\
  require_token auth_header <> IndexError /\
  (forall r, require_token auth_header = Refused r -> status_of r = 401).
Proof.
  intros auth_header.
  destruct auth_header as [h |].
  2:{ split; [split; [discriminate | intros [tail [H _]]; discriminate] |].
      split; [discriminate |]. intros r H. injection H as <-. reflexivity. }
  destruct (String.prefix "Bearer " h) eqn:Hp.
  - apply prefix_iff in Hp. destruct Hp as [t ->]. rewrite require_token_bearer.
    destruct (String.eqb (Inv.first_word t) BEARER_TOKEN) eqn:E.
    + split; [| split; [discriminate | discriminate]].
      split; [intros _ | reflexivity].
      apply String.eqb_eq in E. destruct (first_word_splits t) as [tail [Ht Htail]].
      exists tail. split; [| exact Htail]. rewrite Ht at 1. now rewrite E.
    + split; [| split; [discriminate |]].
      * split; [discriminate |]. intros [tail [H Htail]]. exfalso.
        assert (Ht : t = (BEARER_TOKEN ++ tail)%string).
        { clear - H. cbn [append] in H. now inversion H. }
        rewrite Ht, first_word_of_append, String.eqb_refl in E;
          [discriminate | reflexivity | exact Htail].
      * intros r H. injection H as <-. reflexivity.
  - assert (Hrefuse : require_token (Some h)
                      = Refused (error_response
                                   (Some "Missing or invalid Authorization header") 401)).
    { unfold require_token. rewrite Hp. cbn [negb]. now rewrite orb_true_r. }
    rewrite Hrefuse. split; [| split; [discriminate |]].
    + split; [discriminate |]. intros [tail [H _]]. exfalso.
      assert (Hh : h = ("Bearer " ++ BEARER_TOKEN ++ tail)%string) by congruence.
      assert (Hp' : String.prefix "Bearer " h = true)
        by (apply prefix_iff; eexists; exact Hh).
      congruence.
    + intros r H. injection H as <-. reflexivity.
Qed.

(** *** Statistics *)

Lemma counted_increment : forall key c,
  Inv.counted (increment key c) = S (Inv.counted c).
Proof.
  intros key. induction c as [| [k n] rest IH]; [reflexivity |].
  cbn [increment]. destruct (py_eq k key).
  - reflexivity.
  - unfold Inv.counted in *. cbn [fold_right snd]. rewrite IH. lia.
Qed.

Lemma increment_keeps_keys : forall (P : value -> bool) key c,
  P key = true ->
  forallb (fun kn => P (fst kn)) c = true ->
  forallb (fun kn => P (fst kn)) (increment key c) = true.
Proof.
  intros P key c Hkey. induction c as [| [k n] rest IH]; intros Hc.
  - cbn [increment forallb fst]. now rewrite Hkey.
  - cbn [forallb fst] in Hc. apply andb_true_iff in Hc. destruct Hc as [Hk Hrest].
    cbn [increment]. destruct (py_eq k key); cbn [forallb fst]; rewrite Hk.
    + exact Hrest.
    + now apply IH.
Qed.

Lemma increment_keys_differ : forall key c,
  Inv.keys_differ c = true -> Inv.keys_differ (increment key c) = true.
Proof.
  intros key. induction c as [| [k n] rest IH]; intros Hc; [reflexivity |].
  cbn [Inv.keys_differ] in Hc. apply andb_true_iff in Hc. destruct Hc as [Hk Hrest].
  cbn [increment]. destruct (py_eq k key) eqn:E; cbn [Inv.keys_differ].
  - now rewrite Hk, Hrest.
  - rewrite (IH Hrest), andb_true_r.
    apply (increment_keeps_keys (fun v => negb (py_eq k v))); [now rewrite E | exact Hk].
Qed.

Lemma counting_raised : forall field records e,
  fold_left (count_item field) records (Raise e) = Raise e.
Proof.
  intros field. induction records as [| item rest IH]; intros e; [reflexivity |].
  cbn [fold_left]. apply IH.
Qed.

Lemma count_item_outcome : forall field c item,
  count_item field (Ok c) item =
  if Inv.countable field item
  then match dict_get field item with
       | Some key => Ok (increment key c)
       | None => Ok c
       end
  else match dict_get field item with
       | Some _ => Raise (TypeError "unhashable type")
       | None => Raise (KeyError field)
       end.
Proof.
  intros field c item. unfold count_item, Inv.countable, dict_index. cbn [bind].
  destruct (dict_get field item) as [key |]; cbn [bind]; [| reflexivity].
  destruct (hashable key); reflexivity.
Qed.

Lemma counting_loop : forall field records c,
  match fold_left (count_item field) records (Ok c) with
  | Ok c' =>
      forallb (Inv.countable field) records = true /\
      Inv.counted c' = Inv.counted c + List.length records /\
      (Inv.keys_differ c = true -> Inv.keys_differ c' = true)
  | Raise e =>
      forallb (Inv.countable field) records = false /\
      (e = KeyError field \/ e = TypeError "unhashable type")
  end.
Proof.
  intros field. induction records as [| item rest IH]; intros c.
  - cbn [fold_left forallb List.length]. split; [reflexivity |]. split; [lia | auto].
  - cbn [fold_left forallb List.length]. rewrite count_item_outcome.
    destruct (Inv.countable field item) eqn:E.
    + unfold Inv.countable in E. destruct (dict_get field item) as [key |];
        [| discriminate].
      specialize (IH (increment key c)).
      destruct (fold_left (count_item field) rest (Ok (increment key c))) as [c' | e].
      * destruct IH as [Hall [Hsum Hkeys]]. cbn [andb].
        split; [exact Hall |]. split.
        -- rewrite Hsum, counted_increment. lia.
        -- intros Hc. apply Hkeys. now apply increment_keys_differ.
      * exact IH.
    + cbn [andb]. destruct (dict_get field item); rewrite counting_raised; auto.
Qed.

(** X22. The statistics, when the two counting loops complete: the
    totals are the numbers of organizations, users and profiles; the
    counts by type add up to the number of organizations and the counts
    by organization to the number of users; and no two keys of a count
    are equal. *)
Theorem get_stats_counts : forall st s,
  get_stats st = Ok s ->
  organizations_total s = List.length (SAMPLE_ORGANIZATIONS st) /\
  users_total s = List.length (SAMPLE_USERS st) /\
  profiles_total s = List.length (SAMPLE_PROFILES st) /\
  Inv.counted (organizations_by_type s) = organizations_total s /\
  Inv.counted (users_by_organization s) = users_total s /\
  Inv.keys_differ (organizations_by_type s) = true /\
  Inv.keys_differ (users_by_organization s) = true.
Proof.
  intros st s. unfold get_stats.
  pose proof (counting_loop "type" (SAMPLE_ORGANIZATIONS st) []) as Ho.
  pose proof (counting_loop "organization_id" (SAMPLE_USERS st) []) as Hu.
  change (@Ok (list (value * nat)) []) with (@Ok counter []).
  match goal with |- bind ?m _ = _ -> _ => destruct m as [by_type | e] end;
    cbn [bind]; [| discriminate].
  match goal with |- bind ?m _ = _ -> _ => destruct m as [by_organization | e] end;
    cbn [bind]; [| discriminate].
  intros H. injection H as <-.
  cbn [organizations_total users_total profiles_total organizations_by_type
       users_by_organization].
  destruct Ho as [_ [Ho1 Ho2]]. destruct Hu as [_ [Hu1 Hu2]].
  repeat split; auto.
Qed.

Lemma get_stats_counts_witness :
  exists s,
    get_stats initial_store = Ok s /\
    Inv.counted (users_by_organization s) = 100 /\
    Inv.keys_differ (users_by_organization s) = true.
Proof.
  eexists. split; [vm_compute; reflexivity |].
  match goal with
  | |- Inv.counted (users_by_organization ?s) = _ /\ _ =>
      destruct (get_stats_counts initial_store s ltac:(vm_compute; reflexivity))
        as [_ [Hu [_ [_ [Hc [_ Hk]]]]]]
  end.
  split; [rewrite Hc, Hu; vm_compute; reflexivity | exact Hk].
Defined.

(** X23. The counting loops of the statistics complete exactly when
    every organization has a field type and every user a field
    organization_id whose value can be a key of a dictionary, that is,
    is neither a list nor an object. Otherwise a KeyError or a TypeError
    is raised. *)
Theorem get_stats_completes : forall st,
  ((exists s, get_stats st = Ok s) <->
   forallb (Inv.countable "type") (SAMPLE_ORGANIZATIONS st) = true /\
   forallb (Inv.countable "organization_id") (SAMPLE_USERS st) = true) /\
  (forall e, get_stats st = Raise e ->
     e = KeyError "type" \/ e = KeyError "organization_id" \/
     e = TypeError "unhashable type").
Proof.
  intros st. unfold get_stats.
  pose proof (counting_loop "type" (SAMPLE_ORGANIZATIONS st) []) as Ho.
  pose proof (counting_loop "organization_id" (SAMPLE_USERS st) []) as Hu.
  change (@Ok (list (value * nat)) []) with (@Ok counter []).
  match goal with |- context [bind ?m _] => destruct m as [by_type | e1] end;
    cbn [bind].
  - match goal with |- context [bind ?m _] => destruct m as [by_organization | e2] end;
      cbn [bind].
    + split; [| discriminate]. split; [intros _ | intros _; eexists; reflexivity].
      split; [apply Ho | apply Hu].
    + destruct Hu as [Hu He]. split.
      * split; [intros [s H]; discriminate |]. intros [_ H]. congruence.
      * intros e H. injection H as <-. destruct He as [-> | ->]; auto.
  - destruct Ho as [Ho He]. split.
    + split; [intros [s H]; discriminate |]. intros [H _]. congruence.
    + intros e H. injection H as <-. destruct He as [-> | ->]; auto.
Qed.

(** *** Nested profiles *)

Lemma dict_get_first : forall key v rest,
  dict_get key ((key, v) :: rest) = Some v.
Proof.
  intros key v rest. cbn [dict_get]. now rewrite String.eqb_refl.
Qed.

(** X24. The nested profile of a level. Level 0 gives no profile (the
    recursion never reaches level 1); every level from 1 on gives one,
    with two fields, one of them the metadata, in which the text
    [Level 1 data] sits at the end of the path level<n>, ..., level2,
    data, a path of as many keys as the level. *)
Theorem create_nested_profile_shape : forall level,
  (create_nested_profile level = None <-> level = 0) /\
  (forall profile,
      create_nested_profile level = Some profile ->
      List.length profile = 2 /\
      dict_get "metadata" profile = Some initial_metadata /\
      List.length (Inv.path_to_data level) = level /\
      Spec.field_accessor (VDict profile) (Inv.path_to_data level)
      = Some (VStr "Level 1 data")).
Proof.
  induction level as [| below IH].
  - split; [split; reflexivity | discriminate].
  - destruct IH as [IHnone IHsome].
    destruct below as [| lower].
    + split; [split; discriminate |].
      intros profile H. injection H as <-. repeat split; reflexivity.
    + change (create_nested_profile (S (S lower)))
        with (match create_nested_profile (S lower) with
              | Some inner =>
                  Some [("level" ++ str_of_nat (S (S lower)), VDict inner);
                        ("metadata", initial_metadata)]
              | None => None
              end).
      change (Inv.path_to_data (S (S lower)))
        with (("level" ++ str_of_nat (S (S lower))) :: Inv.path_to_data (S lower)).
      destruct (create_nested_profile (S lower)) as [inner |] eqn:E.
      * split; [split; discriminate |].
        intros profile H. injection H as <-.
        destruct (IHsome inner eq_refl) as [_ [_ [Hlen Hpath]]].
        split; [reflexivity |]. split; [reflexivity |].
        split; [cbn [List.length]; now rewrite Hlen |].
        cbn [Spec.field_accessor]. rewrite dict_get_first. exact Hpath.
      * exfalso. destruct IHnone as [H _]. specialize (H eq_refl). discriminate.
Qed.

(** *** The formats of the identifiers *)

Lemma fullmatch_alt : forall s a b,
  Re.fullmatch (Re.Alt a b) s = Re.fullmatch a s || Re.fullmatch b s.
Proof.
  induction s as [| c s IH]; intros a b; [reflexivity |].
  cbn [Re.fullmatch Re.deriv]. apply IH.
Qed.

Lemma fullmatch_after_nullable : forall a b s,
  Re.nullable a = true -> Re.fullmatch b s = true -> Re.fullmatch (Re.Cat a b) s = true.
Proof.
  intros a b s Ha Hb. destruct s as [| c s].
  - cbn [Re.fullmatch Re.nullable] in *. now rewrite Ha, Hb.
  - cbn [Re.fullmatch Re.deriv] in *. rewrite Ha, fullmatch_alt, Hb.
    apply orb_true_r.
Qed.

Lemma fullmatch_cat : forall s1 a b s2,
  Re.fullmatch a s1 = true -> Re.fullmatch b s2 = true ->
  Re.fullmatch (Re.Cat a b) (s1 ++ s2) = true.
Proof.
  induction s1 as [| c s1 IH]; intros a b s2 Ha Hb.
  - cbn [append]. now apply fullmatch_after_nullable.
  - cbn [append Re.fullmatch Re.deriv] in *.
    destruct (Re.nullable a).
    + rewrite fullmatch_alt, (IH _ _ _ Ha Hb). reflexivity.
    + now apply IH.
Qed.

Lemma fullmatch_class : forall p c,
  p c = true -> Re.fullmatch (Re.Class p) (String c "") = true.
Proof.
  intros p c H. cbn [Re.fullmatch Re.deriv]. now rewrite H.
Qed.

Lemma fullmatch_lit : forall s, Re.fullmatch (Re.Lit s) s = true.
Proof.
  induction s as [| c s IH]; [reflexivity |].
  change (String c s) with (String c "" ++ s)%string at 2. cbn [Re.Lit].
  apply fullmatch_cat; [| exact IH]. apply fullmatch_class, Ascii.eqb_refl.
Qed.

Lemma fullmatch_star_class : forall p s,
  Inv.all_chars p s = true -> Re.fullmatch (Re.Star (Re.Class p)) s = true.
Proof.
  intros p. induction s as [| c s IH]; intros H; [reflexivity |].
  cbn [Inv.all_chars] in H. apply andb_true_iff in H. destruct H as [Hc Hs].
  cbn [Re.fullmatch Re.deriv]. rewrite Hc.
  apply fullmatch_after_nullable; [reflexivity | now apply IH].
Qed.

Lemma fullmatch_at_least : forall p n s,
  (n <= String.length s)%nat -> Inv.all_chars p s = true ->
  Re.fullmatch (Re.AtLeast n (Re.Class p)) s = true.
Proof.
  intros p. induction n as [| n IH]; intros s Hlen Hall.
  - now apply fullmatch_star_class.
  - destruct s as [| c s]; [cbn [String.length] in Hlen; lia |].
    cbn [String.length] in Hlen. cbn [Inv.all_chars] in Hall.
    apply andb_true_iff in Hall. destruct Hall as [Hc Hs].
    change (String c s) with (String c "" ++ s)%string. cbn [Re.AtLeast].
    apply fullmatch_cat; [now apply fullmatch_class | apply IH; [lia | exact Hs]].
Qed.

Lemma prefixmatch_nullable : forall r s, Re.nullable r = true -> Re.prefixmatch r s = true.
Proof.
  intros r s H. destruct s; cbn [Re.prefixmatch]; now rewrite H.
Qed.

Lemma prefixmatch_of_fullmatch : forall s r tail,
  Re.fullmatch r s = true -> Re.prefixmatch r (s ++ tail) = true.
Proof.
  induction s as [| c s IH]; intros r tail H.
  - cbn [append]. now apply prefixmatch_nullable.
  - cbn [append Re.prefixmatch]. cbn [Re.fullmatch] in H.
    rewrite (IH _ _ H). apply orb_true_r.
Qed.

Lemma identifier_matches : forall prefix digits,
  Inv.digits_at_least 3 digits = true ->
  Re.fullmatch (Re.Cat (Re.Lit prefix) (Re.AtLeast 3 Re.digit)) (prefix ++ digits) = true.
Proof.
  intros prefix digits H. unfold Inv.digits_at_least in H.
  apply andb_true_iff in H. destruct H as [Hlen Hall]. apply Nat.leb_le in Hlen.
  apply fullmatch_cat; [apply fullmatch_lit | now apply fullmatch_at_least].
Qed.

Lemma append_empty : forall s : string, (s ++ "")%string = s.
Proof.
  induction s as [| c s IH]; [reflexivity |]. cbn [append]. now rewrite IH.
Qed.

Lemma append_associative : forall a b c : string,
  ((a ++ b) ++ c)%string = (a ++ (b ++ c))%string.
Proof.
  induction a as [| x a IH]; intros b c; [reflexivity |].
  cbn [append]. now rewrite IH.
Qed.

Lemma all_chars_append : forall p a b,
  Inv.all_chars p (a ++ b) = Inv.all_chars p a && Inv.all_chars p b.
Proof.
  intros p. induction a as [| c a IH]; intros b; [reflexivity |].
  cbn [append Inv.all_chars]. now rewrite IH, andb_assoc.
Qed.

Lemma length_of_append : forall a b : string,
  String.length (a ++ b) = String.length a + String.length b.
Proof.
  induction a as [| c a IH]; intros b; [reflexivity |].
  cbn [append String.length]. now rewrite IH.
Qed.

Lemma zeros_digits : forall n,
  Inv.all_chars is_digit (zeros n) = true /\ String.length (zeros n) = n.
Proof.
  induction n as [| n [IH1 IH2]]; [split; reflexivity |].
  cbn [zeros Inv.all_chars String.length]. rewrite IH1, IH2. split; reflexivity.
Qed.

Lemma string_of_uint_digits : forall d,
  Inv.all_chars is_digit (NilEmpty.string_of_uint d) = true.
Proof.
  induction d as [| d IH | d IH | d IH | d IH | d IH | d IH | d IH | d IH | d IH | d IH];
    [reflexivity | ..];
    cbn [NilEmpty.string_of_uint Inv.all_chars]; rewrite IH; reflexivity.
Qed.

Lemma str_of_nat_digits : forall n, Inv.all_chars is_digit (str_of_nat n) = true.
Proof.
  intros n. unfold str_of_nat, NilZero.string_of_uint.
  destruct (Nat.to_uint n); try reflexivity; apply string_of_uint_digits.
Qed.

Lemma fmt_03d_digits : forall n, Inv.digits_at_least 3 (fmt_03d n) = true.
Proof.
  intros n. unfold Inv.digits_at_least, fmt_03d. cbv zeta.
  destruct (zeros_digits (3 - String.length (str_of_nat n))) as [Hz Hl].
  rewrite all_chars_append, Hz, str_of_nat_digits, length_of_append, Hl.
  rewrite andb_true_r. apply Nat.leb_le. lia.
Qed.

(** X25. Which identifiers pass the format checks. For an organization
    the text ORG followed by three or more digits passes, and so does
    the same text followed by one newline. For users and profiles only
    the beginning is looked at: USER or PROF followed by three digits
    passes whatever comes after them. *)
Theorem identifier_formats : forall digits tail,
  Inv.digits_at_least 3 digits = true ->
  Re.match_to_end Re.org_id_pattern ("ORG" ++ digits) = true /\
  Re.match_to_end Re.org_id_pattern ("ORG" ++ digits ++ String newline "") = true /\
  Re.prefixmatch Re.user_id_pattern ("USER" ++ digits ++ tail) = true /\
  Re.prefixmatch Re.profile_id_pattern ("PROF" ++ digits ++ tail) = true.
Proof.
  intros digits tail H. unfold Re.match_to_end.
  pose proof (identifier_matches "ORG" digits H) as Horg.
  split; [| split; [| split]].
  - rewrite <- (append_empty ("ORG" ++ digits)).
    apply fullmatch_cat; [exact Horg | reflexivity].
  - rewrite <- append_associative.
    apply fullmatch_cat; [exact Horg | reflexivity].
  - rewrite <- append_associative.
    apply prefixmatch_of_fullmatch, (identifier_matches "USER" digits H).
  - rewrite <- append_associative.
    apply prefixmatch_of_fullmatch, (identifier_matches "PROF" digits H).
Qed.

Lemma identifier_formats_witness :
  Re.match_to_end Re.org_id_pattern ("ORG" ++ "2024" ++ String newline "") = true /\
  Re.prefixmatch Re.user_id_pattern ("USER" ++ "007" ++ " and more") = true.
Proof.
  split.
  - apply (identifier_formats "2024" ""). reflexivity.
  - apply (identifier_formats "007" " and more"). reflexivity.
Defined.

(** X26. The identifiers that the creation generates pass the format
    check of their own validator: the prefix followed by a number
    written with at least three digits, zeros added to the left. *)
Theorem generated_identifiers_are_well_formed : forall n,
  Inv.digits_at_least 3 (fmt_03d n) = true /\
  Re.match_to_end Re.org_id_pattern ("ORG" ++ fmt_03d n) = true /\
  Re.prefixmatch Re.user_id_pattern ("USER" ++ fmt_03d n) = true /\
  Re.prefixmatch Re.profile_id_pattern ("PROF" ++ fmt_03d n) = true.
Proof.
  intros n. pose proof (fmt_03d_digits n) as H.
  split; [exact H |]. unfold Re.match_to_end. split; [| split].
  - rewrite <- (append_empty ("ORG" ++ fmt_03d n)).
    apply fullmatch_cat; [now apply identifier_matches | reflexivity].
  - rewrite <- (append_empty ("USER" ++ fmt_03d n)).
    apply prefixmatch_of_fullmatch. now apply identifier_matches.
  - rewrite <- (append_empty ("PROF" ++ fmt_03d n)).
    apply prefixmatch_of_fullmatch. now apply identifier_matches.
Qed.

(** *** What the validators accept *)

Lemma in_valid_types : forall s,
  existsb (String.eqb s) valid_types = true <-> In s valid_types.
Proof.
  intros s. rewrite existsb_exists. split.
  - intros [x [Hin Heq]]. apply String.eqb_eq in Heq. now subst.
  - intros Hin. exists s. split; [exact Hin | apply String.eqb_refl].
Qed.

Lemma valid_type_is_truthy : forall s, In s valid_types -> truthy (VStr s) = true.
Proof.
  intros s Hin. unfold valid_types in Hin. cbn [In] in Hin.
  repeat (destruct Hin as [<- | Hin]; [reflexivity |]). contradiction.
Qed.

Lemma not_blank_is_truthy : forall s, strip_is_empty s = false -> truthy (VStr s) = true.
Proof.
  intros s H. destruct s; [discriminate | reflexivity].
Qed.

(** X27. What a new organization must look like. The validation for a
    creation accepts the body exactly when its name is a string that is
    not blank and has at most 100 characters, its type is one of the five
    known types, and its id, when the body has one, is a string that
    passes the format check. Whatever passes for a creation also passes
    for an update. *)
Theorem validate_organization_data_accepts : forall data,
  (validate_organization_data data false = valid <->
   exists name org_type,
     dict_get "name" data = Some (VStr name) /\
     strip_is_empty name = false /\
     (String.length name <= 100)%nat /\
     dict_get "type" data = Some (VStr org_type) /\
     In org_type valid_types /\
     (dict_get "id" data = None \/
      exists org_id,
        dict_get "id" data = Some (VStr org_id) /\
        Re.match_to_end Re.org_id_pattern org_id = true)) /\
  (validate_organization_data data false = valid ->
   validate_organization_data data true = valid).
Proof.
  intros data. unfold validate_organization_data, name_error, dict_get_none,
    dict_get_default, not_matching, invalid, valid.
  cbn [negb andb].
  destruct (dict_get "name" data) as [[| b | n | name | l | d] |] eqn:Hname;
    cbn [truthy negb];
    try (split; [split; [discriminate | intros [? [? [H _]]]; discriminate]
                | discriminate]).
  2:{ destruct (negb (n =? 0)%Z); cbn [negb];
        (split; [split; [try discriminate | intros [? [? [H _]]]; discriminate]
                | try discriminate]);
        destruct (negb (truthy match dict_get "type" data with
                                  | Some v => v | None => VNone end));
        discriminate. }
  1:{ destruct b; cbn [negb];
        (split; [split; [try discriminate | intros [? [? [H _]]]; discriminate]
                | try discriminate]);
        destruct (negb (truthy match dict_get "type" data with
                                  | Some v => v | None => VNone end));
        discriminate. }
  2:{ destruct l; cbn [negb];
        (split; [split; [try discriminate | intros [? [? [H _]]]; discriminate]
                | try discriminate]);
        destruct (negb (truthy match dict_get "type" data with
                                  | Some v => v | None => VNone end));
        discriminate. }
  2:{ destruct d; cbn [negb];
        (split; [split; [try discriminate | intros [? [? [H _]]]; discriminate]
                | try discriminate]);
        destruct (negb (truthy match dict_get "type" data with
                                  | Some v => v | None => VNone end));
        discriminate. }
  destruct (String.eqb name "") eqn:Hempty; cbn [negb].
  { apply String.eqb_eq in Hempty. subst name.
    split; [split; [discriminate |] | discriminate].
    intros [name [t [H [Hblank _]]]]. injection H as <-. discriminate. }
  destruct (dict_get "type" data) as [org_type |] eqn:Htype; cbn [truthy negb];
    [| split; [split; [discriminate | intros [? [? [_ [_ [_ [H _]]]]]]; discriminate]
              | discriminate]].
  destruct (truthy org_type) eqn:Htruthy; cbn [negb];
    [| split; [split; [discriminate |] | discriminate];
       intros [? [t [_ [_ [_ [H [Hin _]]]]]]]; injection H as ->;
       rewrite (valid_type_is_truthy _ Hin) in Htruthy; discriminate].
  destruct (strip_is_empty name) eqn:Hblank;
    [split; [split; [discriminate |] | discriminate];
     intros [? [? [H [Hb _]]]]; injection H as <-; congruence |].
  destruct (100 <? String.length name)%nat eqn:Hlong;
    [split; [split; [discriminate |] | discriminate];
     intros [? [? [H [_ [Hl _]]]]]; injection H as <-;
     apply Nat.ltb_lt in Hlong; lia |].
  apply Nat.ltb_ge in Hlong.
  destruct org_type as [| b | n | t | l | d];
    try (split; [split; [discriminate |] | discriminate];
         intros [? [? [_ [_ [_ [H _]]]]]]; discriminate).
  destruct (existsb (String.eqb t) valid_types) eqn:Hknown; cbn [negb];
    [| split; [split; [discriminate |] | discriminate];
       intros [? [? [_ [_ [_ [H [Hin _]]]]]]]; injection H as <-;
       apply in_valid_types in Hin; congruence].
  apply in_valid_types in Hknown.
  destruct (dict_get "id" data) as [[| b | n | org_id | l | d] |] eqn:Hid;
    try (split; [split; [discriminate |] | discriminate];
         intros [? [? [_ [_ [_ [_ [_ [H | [? [H _]]]]]]]]]]; discriminate).
  - destruct (Re.match_to_end Re.org_id_pattern org_id) eqn:Hmatch; cbn [negb].
    + split; [split; [intros _ | reflexivity] | reflexivity].
      exists name, t. repeat (split; [assumption || reflexivity |]).
      right. exists org_id. now split.
    + split; [split; [discriminate |] | discriminate].
      intros [? [? [_ [_ [_ [_ [_ [H | [i [H Hm]]]]]]]]]]; [discriminate |].
      injection H as <-. congruence.
  - split; [split; [intros _ | reflexivity] | reflexivity].
    exists name, t. repeat (split; [assumption || reflexivity |]). now left.
Qed.

(** *** The check for a used identifier *)

Lemma duplicate_search : forall entity_id collection,
  forallb (dict_has "id") collection = true ->
  exists r,
    first_such (same_id_not_excluded (VStr entity_id) VNone) collection = Ok r /\
    found r = Inv.id_taken collection entity_id.
Proof.
  intros entity_id. unfold Inv.id_taken.
  induction collection as [| x rest IH]; cbn [forallb first_such existsb]; intros H.
  - now exists None.
  - apply andb_true_iff in H. destruct H as [Hx Hrest].
    unfold same_id_not_excluded at 1.
    unfold dict_has, dict_index, dict_get_none, dict_get_default in *.
    destruct (dict_get "id" x) as [i |] eqn:Hid; [| discriminate]. cbn [bind].
    destruct (py_eq i (VStr entity_id)) eqn:E; cbn [bind orb].
    + apply py_eq_to_string in E. subst i. cbn [py_eq negb].
      exists (Some x). split; [reflexivity |].
      destruct x; [discriminate | reflexivity].
    + now apply IH.
Qed.

Lemma excluded_is_never_found : forall entity_id collection,
  forallb (dict_has "id") collection = true ->
  first_such (same_id_not_excluded entity_id entity_id) collection = Ok None.
Proof.
  intros entity_id.
  induction collection as [| x rest IH]; cbn [forallb first_such]; intros H;
    [reflexivity |].
  apply andb_true_iff in H. destruct H as [Hx Hrest].
  unfold same_id_not_excluded at 1. unfold dict_has, dict_index in *.
  destruct (dict_get "id" x) as [i |]; [| discriminate]. cbn [bind].
  destruct (py_eq i entity_id) eqn:E; cbn [bind negb]; now apply IH.
Qed.

(** X28. The check for a used identifier, on a collection whose records
    all have an identifier. For one of the three entity types it passes
    exactly when no record of that collection has the identifier, and it
    always returns; when the identifier to leave out is the identifier
    itself it passes whatever the collection holds. For any other entity
    type it fails without looking at the data. *)
Theorem check_duplicate_id_verdict : forall st entity_type entity_id,
  match collection_of st entity_type with
  | Some collection =>
      forallb (dict_has "id") collection = true ->
      check_duplicate_id st entity_type (VStr entity_id) VNone =
      Ok (if Inv.id_taken collection entity_id
          then invalid (capitalize entity_type ++ " with ID '" ++ entity_id
                        ++ "' already exists")
          else valid) /\
      check_duplicate_id st entity_type (VStr entity_id) (VStr entity_id) = Ok valid
  | None =>
      forall exclude_id,
        check_duplicate_id st entity_type (VStr entity_id) exclude_id =
        Ok (invalid ("Invalid entity type: " ++ entity_type))
  end /\
  (collection_of st entity_type = None <->
   ~ In entity_type ["organization"; "user"; "profile"]).
Proof.
  intros st entity_type entity_id. split.
  - unfold check_duplicate_id.
    destruct (collection_of st entity_type) as [collection |]; [| reflexivity].
    intros Hids. split.
    + destruct (duplicate_search entity_id collection Hids) as [r [Hr Hfound]].
      rewrite Hr. cbn [bind]. rewrite Hfound.
      destruct (Inv.id_taken collection entity_id); reflexivity.
    + now rewrite (excluded_is_never_found (VStr entity_id) collection Hids).
  - unfold collection_of. cbn [In].
    destruct (String.eqb entity_type "organization") eqn:E1;
      [apply String.eqb_eq in E1; split; [discriminate | intros H; exfalso; auto] |].
    destruct (String.eqb entity_type "user") eqn:E2;
      [apply String.eqb_eq in E2; split; [discriminate | intros H; exfalso; auto] |].
    destruct (String.eqb entity_type "profile") eqn:E3;
      [apply String.eqb_eq in E3; split; [discriminate | intros H; exfalso; auto] |].
    apply String.eqb_neq in E1, E2, E3.
    split; [intros _ | reflexivity].
    intros [H | [H | [H | []]]]; congruence.
Qed.

(** *** The effect of a creation *)

Ltac refused :=
  let H := fresh in
  intros H; injection H as <- <-; left; split; [cbn; auto | reflexivity].

(** X29. What a creation does when it returns. It answers 400 or 409 and
    changes nothing, or it answers 201 with the new record, which is
    added at the end of its collection and has a fixed list of fields;
    the two other collections are unchanged and the clock has been read
    twice. The new user names a profile, PROF followed by the number of
    profiles plus 1, but no profile is created. *)
Theorem creation_effect : forall clk fuel st data st' resp,
  (handle_organizations_post clk fuel st data = Done (st', resp) ->
   (In (status_of resp) [400; 409] /\ st' = st) \/
   (exists org,
      Inv.created (SAMPLE_ORGANIZATIONS st) (SAMPLE_ORGANIZATIONS st') resp
        ["id"; "name"; "type"; "metadata"] org /\
      SAMPLE_USERS st' = SAMPLE_USERS st /\
      SAMPLE_PROFILES st' = SAMPLE_PROFILES st /\
      clock_reads st' = clock_reads st + 2)) /\
  (handle_users_post clk fuel st data = Done (st', resp) ->
   (In (status_of resp) [400; 409] /\ st' = st) \/
   (exists user,
      Inv.created (SAMPLE_USERS st) (SAMPLE_USERS st') resp
        ["id"; "name"; "email"; "organization_id"; "profile_id"; "metadata"] user /\
      dict_get "profile_id" user
      = Some (VStr ("PROF" ++ fmt_03d (List.length (SAMPLE_PROFILES st) + 1))) /\
      SAMPLE_ORGANIZATIONS st' = SAMPLE_ORGANIZATIONS st /\
      SAMPLE_PROFILES st' = SAMPLE_PROFILES st /\
      clock_reads st' = clock_reads st + 2)) /\
  (handle_profiles_post clk fuel st data = Done (st', resp) ->
   (In (status_of resp) [400; 409] /\ st' = st) \/
   (exists profile,
      Inv.created (SAMPLE_PROFILES st) (SAMPLE_PROFILES st') resp
        ["id"; "name"; "settings"; "preferences"; "metadata"] profile /\
      SAMPLE_ORGANIZATIONS st' = SAMPLE_ORGANIZATIONS st /\
      SAMPLE_USERS st' = SAMPLE_USERS st /\
      clock_reads st' = clock_reads st + 2)).
Proof.
  intros clk fuel st data st' resp. split; [| split].
  - unfold handle_organizations_post.
    destruct (validate_json_payload data) as [ok msg]. destruct (negb ok); [refused |].
    destruct data as [| | | | | fields]; try discriminate.
    destruct (validate_organization_data fields false) as [ok' msg'].
    destruct (negb ok'); [refused |].
    destruct (assign_id fuel st "organization" "ORG" (SAMPLE_ORGANIZATIONS st) fields)
      as [[error | org_id] | e |]; cbn [and_then]; try discriminate; [refused |].
    destruct (new_organization clk st org_id fields) as [org | e] eqn:Hnew;
      cbn [lift and_then]; [| discriminate].
    intros H. injection H as <- <-. right. exists org.
    split; [| repeat split].
    unfold Inv.created. split; [reflexivity |]. split; [reflexivity |].
    unfold new_organization in Hnew.
    destruct (dict_index "name" fields); cbn [bind] in Hnew; [| discriminate].
    destruct (dict_index "type" fields); cbn [bind] in Hnew; [| discriminate].
    injection Hnew as <-. reflexivity.
  - unfold handle_users_post.
    destruct (validate_json_payload data) as [ok msg]. destruct (negb ok); [refused |].
    destruct data as [| | | | | fields]; try discriminate.
    destruct (validate_user_data st fields false VNone) as [[ok' msg'] | e];
      cbn [lift and_then]; [| discriminate].
    destruct (negb ok'); [refused |].
    destruct (assign_id fuel st "user" "USER" (SAMPLE_USERS st) fields)
      as [[error | user_id] | e |]; cbn [and_then]; try discriminate; [refused |].
    destruct (new_user clk st user_id fields) as [user | e] eqn:Hnew;
      cbn [lift and_then]; [| discriminate].
    intros H. injection H as <- <-. right. exists user.
    unfold new_user in Hnew.
    destruct (dict_index "name" fields); cbn [bind] in Hnew; [| discriminate].
    destruct (dict_index "email" fields); cbn [bind] in Hnew; [| discriminate].
    injection Hnew as <-.
    split; [| repeat split].
    unfold Inv.created. repeat split.
  - unfold handle_profiles_post.
    destruct (validate_json_payload data) as [ok msg]. destruct (negb ok); [refused |].
    destruct data as [| | | | | fields]; try discriminate.
    destruct (validate_profile_data fields false) as [ok' msg'].
    destruct (negb ok'); [refused |].
    destruct (assign_id fuel st "profile" "PROF" (SAMPLE_PROFILES st) fields)
      as [[error | profile_id] | e |]; cbn [and_then]; try discriminate; [refused |].
    destruct (new_profile clk st profile_id fields) as [profile | e] eqn:Hnew;
      cbn [lift and_then]; [| discriminate].
    intros H. injection H as <- <-. right. exists profile.
    split; [| repeat split].
    unfold Inv.created. split; [reflexivity |]. split; [reflexivity |].
    unfold new_profile in Hnew.
    destruct (dict_index "name" fields); cbn [bind] in Hnew; [| discriminate].
    injection Hnew as <-. reflexivity.
Qed.
